(** * video-to-plan: a shallow embedding of [video_to_plan.py] and
      [promote_plan.py], and the properties of its specification

    The two scripts are embedded as Rocq functions.  A Python [str] is a
    list of Unicode code points, a file is a list of bytes, the file
    system is a finite map from paths to nodes, and code that prints,
    reads the clock, touches files or talks to a remote provider is a
    function in a small state-and-exception monad over a [World].  What
    the scripts cannot decide by themselves (what the remote providers
    answer, what the clock shows, which text encoding the locale
    selects, what [json.loads] accepts) is gathered in a [Platform]
    record that every effectful definition takes as a parameter.

    What is left out: a provider always answers (only the deletion of
    the uploaded video may fail, which the script catches), printing
    never fails, a path is compared by its components (no symbolic
    links, [".."] is a component like another), and the polling loop
    of phase 1 is followed for a bounded number of turns, after which
    the run counts as not ending.

    The file has four parts: the embedding of the two scripts, the
    vocabulary in which the properties are stated, a sample platform
    on which runs can be evaluated, and the properties with their
    proofs. *)

From Stdlib Require Import ZArith NArith List Bool Ascii String Decimal DecimalN DecimalZ DecimalString Lia.
From stdpp Require Import base option list gmap.

Set Default Proof Using "Type*".
Set Warnings "-register-all".
Open Scope N_scope.

(** ** Python strings *)

(** A [str] is the sequence of its code points; [len] is [length]. *)
Abbreviation str := (list N).
Abbreviation bytes := (list N).

(** The bytes of a literal of this file. *)
Fixpoint bytes_of_string (s : string) : bytes :=
  match s with
  | EmptyString => []
  | String a r => N_of_ascii a :: bytes_of_string r
  end.

Module Utf8.

Definition is_cont (b : N) : bool := (128 <=? b) && (b <=? 191).

Definition is_surrogate (c : N) : bool := (55296 <=? c) && (c <=? 57343).

(** [str.encode("utf-8")] on one code point: surrogates are refused. *)
Definition encode_char (c : N) : option bytes :=
  if c <? 128 then Some [c]
  else if c <? 2048 then
    Some [N.lor 192 (N.shiftr c 6); N.lor 128 (N.land c 63)]
  else if c <? 65536 then
    if is_surrogate c then None
    else Some [N.lor 224 (N.shiftr c 12);
               N.lor 128 (N.land (N.shiftr c 6) 63);
               N.lor 128 (N.land c 63)]
  else if c <=? 1114111 then
    Some [N.lor 240 (N.shiftr c 18);
          N.lor 128 (N.land (N.shiftr c 12) 63);
          N.lor 128 (N.land (N.shiftr c 6) 63);
          N.lor 128 (N.land c 63)]
  else None.

Fixpoint encode (s : str) : option bytes :=
  match s with
  | [] => Some []
  | c :: r =>
      match encode_char c, encode r with
      | Some b, Some br => Some (b ++ br)
      | _, _ => None
      end
  end.

(** Strict decoding, as [bytes.decode("utf-8")]: [need] continuation
    bytes are still expected for the code point accumulated in [acc],
    which must end up at least [low] (no overlong forms) and must not
    be a surrogate nor exceed U+10FFFF. *)
Fixpoint decode_from (need : nat) (acc low : N) (b : bytes) : option str :=
  match b with
  | [] => match need with O => Some [] | S _ => None end
  | x :: r =>
      match need with
      | O =>
          if x <? 128 then option_map (cons x) (decode_from 0 0 0 r)
          else if (194 <=? x) && (x <=? 223) then decode_from 1 (N.land x 31) 128 r
          else if (224 <=? x) && (x <=? 239) then decode_from 2 (N.land x 15) 2048 r
          else if (240 <=? x) && (x <=? 244) then decode_from 3 (N.land x 7) 65536 r
          else None
      | S n =>
          if is_cont x then
            let acc' := N.lor (N.shiftl acc 6) (N.land x 63) in
            match n with
            | O =>
                if (low <=? acc') && negb (is_surrogate acc') && (acc' <=? 1114111)
                then option_map (cons acc') (decode_from 0 0 0 r)
                else None
            | S _ => decode_from n acc' low r
            end
          else None
      end
  end.

Definition decode (b : bytes) : option str := decode_from 0 0 0 b.

End Utf8.

(** A literal of the Python source: the source file is UTF-8, and the
    interpreter turns each literal into its code points. *)
Definition lit (s : string) : str :=
  default [] (Utf8.decode (bytes_of_string s)).

(** [str.isspace] on one character, which is what [str.strip()] without
    an argument removes: the Unicode white space of CPython. *)
Definition isspace (c : N) : bool :=
  ((9 <=? c) && (c <=? 13)) || ((28 <=? c) && (c <=? 32))
  || (c =? 133) || (c =? 160) || (c =? 5760)
  || ((8192 <=? c) && (c <=? 8202))
  || (c =? 8232) || (c =? 8233) || (c =? 8239) || (c =? 8287) || (c =? 12288).

Fixpoint lstrip (s : str) : str :=
  match s with
  | [] => []
  | c :: r => if isspace c then lstrip r else s
  end.

Definition rstrip (s : str) : str := rev (lstrip (rev s)).

(** [s.strip()] *)
Definition strip (s : str) : str := rstrip (lstrip s).

(** [s.startswith(p)] *)
Fixpoint startswith (s p : str) {struct p} : bool :=
  match p, s with
  | [], _ => true
  | _ :: _, [] => false
  | a :: p', b :: s' => (a =? b) && startswith s' p'
  end.

(** [s.endswith(p)] *)
Definition endswith (s p : str) : bool := startswith (rev s) (rev p).

(** [s.partition(sep)] when [sep] occurs: the text before and after the
    leftmost occurrence ([sep] is never empty in the scripts). *)
Fixpoint partition (sep s : str) : option (str * str) :=
  if startswith s sep then Some ([], drop (length sep) s)
  else match s with
       | [] => None
       | c :: r =>
           match partition sep r with
           | Some (a, b) => Some (c :: a, b)
           | None => None
           end
       end.

(** [s.rpartition(sep)] when [sep] occurs: rightmost occurrence. *)
Definition rpartition (sep s : str) : option (str * str) :=
  match partition (rev sep) (rev s) with
  | Some (a, b) => Some (rev b, rev a)
  | None => None
  end.

(** [s.split(sep, 1)] *)
Definition split1 (sep s : str) : list str :=
  match partition sep s with
  | Some (a, b) => [a; b]
  | None => [s]
  end.

(** [s.rsplit(sep, 1)] *)
Definition rsplit1 (sep s : str) : list str :=
  match rpartition sep s with
  | Some (a, b) => [a; b]
  | None => [s]
  end.

(** [s.split(sep)] *)
Fixpoint split_fuel (n : nat) (sep s : str) : list str :=
  match n with
  | O => [s]
  | S n' =>
      match partition sep s with
      | Some (a, b) => a :: split_fuel n' sep b
      | None => [s]
      end
  end.

Definition split (sep s : str) : list str := split_fuel (length s) sep s.

(** [sep.join(l)] *)
Fixpoint join (sep : str) (l : list str) : str :=
  match l with
  | [] => []
  | [x] => x
  | x :: r => x ++ sep ++ join sep r
  end.

(** ** Exceptions *)

Inductive exn : Type :=
| IndexError
| AttributeError
| TypeError
| JSONDecodeError
| RuntimeError (msg : str)
| UnicodeEncodeError
| UnicodeDecodeError
| FileNotFoundError
| FileExistsError
| NotADirectoryError
| IsADirectoryError
| SameFileError
| APIError.

(** The result of a pure expression that may raise. *)
Inductive except (A : Type) : Type :=
| Ok (a : A)
| Err (e : exn).
Arguments Ok {A} a.
Arguments Err {A} e.

(** [l[i]] *)
Definition index {A} (l : list A) (i : nat) : except A :=
  match nth_error l i with
  | Some x => Ok x
  | None => Err IndexError
  end.

(** ** Numbers in text *)

Fixpoint uint_digits (u : Decimal.uint) : str :=
  match u with
  | Nil => []
  | D0 r => 48 :: uint_digits r
  | D1 r => 49 :: uint_digits r
  | D2 r => 50 :: uint_digits r
  | D3 r => 51 :: uint_digits r
  | D4 r => 52 :: uint_digits r
  | D5 r => 53 :: uint_digits r
  | D6 r => 54 :: uint_digits r
  | D7 r => 55 :: uint_digits r
  | D8 r => 56 :: uint_digits r
  | D9 r => 57 :: uint_digits r
  end.

(** [str(n)] for an [int]: decimal digits, a minus sign when negative. *)
Definition str_of_int (z : Z) : str :=
  match Z.to_int z with
  | Decimal.Pos u => uint_digits u
  | Decimal.Neg u => 45 :: uint_digits u
  end.

(** The digits of [rd], least significant first, with a comma after
    every group of three that is followed by more digits. *)
Fixpoint group3 (rd : str) : str :=
  match rd with
  | a :: b :: c :: r =>
      match r with
      | [] => [a; b; c]
      | _ :: _ => a :: b :: c :: 44 :: group3 r
      end
  | _ => rd
  end.

(** [f"{n:,}"] *)
Definition format_comma (z : Z) : str :=
  match Z.to_int z with
  | Decimal.Pos u => rev (group3 (rev (uint_digits u)))
  | Decimal.Neg u => 45 :: rev (group3 (rev (uint_digits u)))
  end.

Definition hex_digit (d : N) : N := if d <? 10 then 48 + d else 87 + d.

(** [f"{c:04x}"] for [c < 65536] *)
Definition hex4 (c : N) : str :=
  [hex_digit (N.land (N.shiftr c 12) 15); hex_digit (N.land (N.shiftr c 8) 15);
   hex_digit (N.land (N.shiftr c 4) 15); hex_digit (N.land c 15)].

(** ** Text encodings *)

(** The encodings a locale may select for [open()] without [encoding=]. *)
Inductive codec : Type := UTF_8 | ISO_8859_1 | ASCII.

Definition encode_below (bound : N) (s : str) : option bytes :=
  if forallb (fun c => c <? bound) s then Some s else None.

(** [s.encode(c)]; [None] is [UnicodeEncodeError]. *)
Definition encode (c : codec) (s : str) : option bytes :=
  match c with
  | UTF_8 => Utf8.encode s
  | ISO_8859_1 => encode_below 256 s
  | ASCII => encode_below 128 s
  end.

(** [b.decode(c)]; [None] is [UnicodeDecodeError]. *)
Definition decode (c : codec) (b : bytes) : option str :=
  match c with
  | UTF_8 => Utf8.decode b
  | ISO_8859_1 => Some b
  | ASCII => encode_below 128 b
  end.

(** ** JSON documents and [json.dumps] *)

(** What [json.loads] returns, over the platform's floats [F]; [None] is
    [JNull], and a [dict] keeps its keys in insertion order. *)
Inductive json {F : Type} : Type :=
| JNull
| JBool (b : bool)
| JInt (z : Z)
| JFloat (f : F)
| JStr (s : str)
| JList (l : list json)
| JDict (d : list (str * json)).
Arguments json F : clear implicits.

Section Dumps.
Context {F : Type} (floatstr : F -> str).

(** One character inside a JSON string literal, as
    [json.encoder.py_encode_basestring] ([ensure_ascii=False]) and
    [py_encode_basestring_ascii] ([ensure_ascii=True]) write it. *)
Definition escape_char (ensure_ascii : bool) (c : N) : str :=
  if c =? 34 then [92; 34]
  else if c =? 92 then [92; 92]
  else if c =? 10 then [92; 110]
  else if c =? 13 then [92; 114]
  else if c =? 9 then [92; 116]
  else if c =? 12 then [92; 102]
  else if c =? 8 then [92; 98]
  else if c <? 32 then [92; 117] ++ hex4 c
  else if negb ensure_ascii then [c]
  else if c <? 127 then [c]
  else if c <? 65536 then [92; 117] ++ hex4 c
  else
    let n := c - 65536 in
    [92; 117] ++ hex4 (N.lor 55296 (N.land (N.shiftr n 10) 1023))
    ++ [92; 117] ++ hex4 (N.lor 56320 (N.land n 1023)).

Definition encode_basestring (ensure_ascii : bool) (s : str) : str :=
  [34] ++ concat (map (escape_char ensure_ascii) s) ++ [34].

(** ['\n' + ' ' * (indent * level)] *)
Definition newline_indent (indent level : nat) : str :=
  10 :: repeat 32 (indent * level)%nat.

(** The encoder of [json.dumps(obj, indent=indent,
    ensure_ascii=ensure_ascii)] at nesting depth [level]; with an
    indent the separators are [","] and [": "]. *)
Fixpoint iterencode (indent : nat) (ensure_ascii : bool) (level : nat)
    (o : json F) : str :=
  match o with
  | JNull => lit "null"
  | JBool true => lit "true"
  | JBool false => lit "false"
  | JInt z => str_of_int z
  | JFloat f => floatstr f
  | JStr s => encode_basestring ensure_ascii s
  | JList [] => lit "[]"
  | JList l =>
      [91] ++ newline_indent indent (S level)
      ++ join ([44] ++ newline_indent indent (S level))
           (map (iterencode indent ensure_ascii (S level)) l)
      ++ newline_indent indent level ++ [93]
  | JDict [] => lit "{}"
  | JDict d =>
      [123] ++ newline_indent indent (S level)
      ++ join ([44] ++ newline_indent indent (S level))
           (map (fun kv : str * json F =>
                   let (k, v) := kv in
                   encode_basestring ensure_ascii k ++ lit ": "
                   ++ iterencode indent ensure_ascii (S level) v) d)
      ++ newline_indent indent level ++ [125]
  end.

Definition json_dumps (indent : nat) (ensure_ascii : bool) (o : json F) : str :=
  iterencode indent ensure_ascii 0 o.

(** [obj.get(key, [])]: only a [dict] has [get]. *)
Definition json_get_or_empty (o : json F) (key : str) : except (json F) :=
  match o with
  | JDict d =>
      Ok (default (JList [])
            (snd <$> List.find (fun kv => bool_decide (fst kv = key)) d))
  | _ => Err AttributeError
  end.

(** [len(obj)] *)
Definition json_len (o : json F) : except Z :=
  match o with
  | JStr s => Ok (Z.of_nat (length s))
  | JList l => Ok (Z.of_nat (length l))
  | JDict d => Ok (Z.of_nat (length d))
  | _ => Err TypeError
  end.

End Dumps.

(** ** Paths and the file system *)

(** A [pathlib.Path] that has been resolved: the components of an
    absolute path, the root being [[]]. *)
Abbreviation path := (list (list N)).

(** The components a string contributes to a path: empty and ["."]
    components are dropped, as [pathlib] does. *)
Definition parts (s : str) : path :=
  filter (fun c => c <> [] /\ c <> [46]) (split [47] s).

(** [p / s] *)
Definition joinpath (p : path) (s : str) : path :=
  if startswith s [47] then parts s else p ++ parts s.

(** [p.parent] *)
Definition parent (p : path) : path := removelast p.

(** [str(p)] *)
Definition str_of_path (p : path) : str :=
  match p with
  | [] => [47]
  | _ => concat (map (fun c => 47 :: c) p)
  end.

Inductive node : Type :=
| File (content : bytes)
| Dir.

(** The file system is a store keyed by path; the root is a directory. *)
Definition node_at (fs : gmap path node) (p : path) : option node :=
  match p with
  | [] => Some Dir
  | _ => fs !! p
  end.

Definition is_dir (fs : gmap path node) (p : path) : bool :=
  match node_at fs p with Some Dir => true | _ => false end.

Definition is_file (fs : gmap path node) (p : path) : bool :=
  match node_at fs p with Some (File _) => true | _ => false end.

(** All the ancestors of [p] that are not the root, nearest last, with
    [p] itself at the end. *)
Fixpoint prefixes (p : path) : list path :=
  match p with
  | [] => []
  | c :: r => [c] :: map (cons c) (prefixes r)
  end.

Definition proper_prefixes (p : path) : list path := prefixes (parent p).

(** ** Remote providers *)

(** A prompt is kept as the template it instantiates and the values
    substituted for its fields; the fixed text of the three templates
    is not reproduced. *)
Inductive prompt : Type :=
| PHASE1_PROMPT_format (srt_content : str)
| PHASE2_PROMPT_format (visual_analysis srt_content : str)
| PHASE3_PROMPT_format (synthesis : str).

Inductive part : Type :=
| Part_from_uri (file_uri mime_type : str)
| Part_from_text (text : prompt).

Inductive contents : Type :=
| Content_parts (parts : list part)
| Prompt_text (text : prompt).

(** The file object of the Gemini files service. *)
Record file_handle : Type := mk_file_handle {
  fh_name : str;
  fh_uri : str;
  fh_mime_type : str;
  fh_state_name : str
}.

(** One element of a Gemini response stream. *)
Record chunk : Type := mk_chunk { chunk_text : option str }.

(** One element of an OpenAI completion stream:
    [event.choices[i].delta.content]. *)
Record delta : Type := mk_delta { delta_content : option str }.
Record choice : Type := mk_choice { choice_delta : option delta }.
Record completion_event : Type := mk_event { event_choices : list choice }.

(** What a run does to the outside, in order. *)
Inductive event : Type :=
| Files_upload (api_key : option str) (file : str)
| Files_get (api_key : option str) (name : str)
| Files_delete (api_key : option str) (name : str)
| Generate_content_stream (api_key : option str) (model : str)
    (c : contents) (temperature : str) (max_output_tokens : Z)
| Chat_completions_create (api_key : option str) (model : str)
    (system_content : str) (user_content : prompt)
    (temperature : str) (max_completion_tokens : Z)
| Sleep (seconds : Z).

(** ** The platform *)

Record Platform : Type := mk_platform {
  (** floats: the clock readings, [int(a - b)], and how [json] writes one *)
  pyfloat : Type;
  time_time : nat -> pyfloat;
  int_of_difference : pyfloat -> pyfloat -> Z;
  floatstr : pyfloat -> str;
  (** [f"{p.stat().st_size / (1024 * 1024):.1f}"] *)
  format_size_mb : node -> str;
  (** [datetime.now()] at the n-th reading of the clock *)
  now_isoformat : nat -> str;
  now_strftime_Y_m_d : nat -> str;
  (** text files: the locale's encoding and the line separator *)
  locale_encoding : codec;
  linesep : str;
  (** [Path(s).resolve()] *)
  resolve : str -> path;
  (** [json.loads]; [None] is [JSONDecodeError] *)
  json_loads : str -> option (json pyfloat);
  (** the providers' answers, given everything done so far *)
  files_upload : list event -> str -> file_handle;
  files_get : list event -> str -> file_handle;
  files_delete_fails : list event -> str -> bool;
  generate_content_stream : list event -> str -> contents -> list chunk;
  chat_completions_create : list event -> prompt -> list completion_event
}.

(** ** The world and the monad of effects *)

Record World : Type := mk_world {
  fs : gmap path node;
  stdout : list str;
  stderr : list str;
  clock_reads : nat;
  events : list event
}.

Definition set_fs (f : gmap path node) (w : World) : World :=
  mk_world f (stdout w) (stderr w) (clock_reads w) (events w).

(** How a computation ends: with a value, with an exception that
    nothing caught, with [sys.exit(code)], or not at all. *)
Inductive outcome (A : Type) : Type :=
| Return (a : A)
| Raise (e : exn)
| Exit (code : Z)
| Diverge.
Arguments Return {A} a.
Arguments Raise {A} e.
Arguments Exit {A} code.
Arguments Diverge {A}.

Definition M (A : Type) : Type := World -> outcome A * World.

Definition ret {A} (a : A) : M A := fun w => (Return a, w).

Definition bind {A B} (m : M A) (k : A -> M B) : M B :=
  fun w =>
    match m w with
    | (Return a, w') => k a w'
    | (Raise e, w') => (Raise e, w')
    | (Exit c, w') => (Exit c, w')
    | (Diverge, w') => (Diverge, w')
    end.

#[global] Instance M_ret : MRet M := @ret.
#[global] Instance M_bind : MBind M := fun A B k m => bind m k.

Definition raise {A} (e : exn) : M A := fun w => (Raise e, w).

(** [sys.exit(code)] *)
Definition sys_exit {A} (code : Z) : M A := fun w => (Exit code, w).

Definition diverge {A} : M A := fun w => (Diverge, w).

Definition lift {A} (x : except A) : M A :=
  match x with
  | Ok a => ret a
  | Err e => raise e
  end.

(** [try: m  except Exception: h] ([SystemExit] is not an [Exception]) *)
Definition try_except {A} (m : M A) (h : M A) : M A :=
  fun w =>
    match m w with
    | (Raise _, w') => h w'
    | r => r
    end.

(** [print(msg)] *)
Definition print (msg : str) : M unit :=
  fun w => (Return tt, mk_world (fs w) (stdout w ++ [msg]) (stderr w) (clock_reads w) (events w)).

(** [print(msg, file=sys.stderr)] *)
Definition print_stderr (msg : str) : M unit :=
  fun w => (Return tt, mk_world (fs w) (stdout w) (stderr w ++ [msg]) (clock_reads w) (events w)).

Definition emit (e : event) : M unit :=
  fun w => (Return tt, mk_world (fs w) (stdout w) (stderr w) (clock_reads w) (events w ++ [e])).

Definition get_world : M World := fun w => (Return w, w).

Definition put_fs (f : gmap path node) : M unit :=
  fun w => (Return tt, set_fs f w).

(** [p.exists()] *)
Definition path_exists (p : path) : M bool :=
  fun w => (Return (bool_decide (is_Some (node_at (fs w) p))), w).

(** [p.mkdir(parents=parents, exist_ok=exist_ok)] *)
Definition mkdir (parents exist_ok : bool) (p : path) : M unit :=
  w ← get_world;
  match node_at (fs w) p with
  | Some Dir => if exist_ok then ret tt else raise FileExistsError
  | Some (File _) => raise FileExistsError
  | None =>
      if existsb (is_file (fs w)) (proper_prefixes p) then raise NotADirectoryError
      else if is_dir (fs w) (parent p) then put_fs (<[p := Dir]> (fs w))
      else if parents then
        put_fs (foldr (fun q f => <[q := Dir]> f) (fs w) (prefixes p))
      else raise FileNotFoundError
  end.

(** What [open(p, "w")] needs: [p] is not a directory and lies in one. *)
Definition open_for_writing (p : path) : M unit :=
  w ← get_world;
  if is_dir (fs w) p then raise IsADirectoryError
  else if is_dir (fs w) (parent p) then ret tt
  else if existsb (is_file (fs w)) (proper_prefixes p) then raise NotADirectoryError
  else raise FileNotFoundError.

(** Text written through a file object: ["\n"] becomes the platform's
    line separator. *)
Definition newlines_out (sep : str) (s : str) : str :=
  concat (map (fun c => if c =? 10 then sep else [c]) s).

(** Text read through a file object: ["\r\n"] and ["\r"] become ["\n"]. *)
Fixpoint newlines_in (s : str) : str :=
  match s with
  | [] => []
  | c :: r =>
      if c =? 13 then
        match r with
        | d :: r' => if d =? 10 then 10 :: newlines_in r' else 10 :: newlines_in r
        | [] => [10]
        end
      else c :: newlines_in r
  end.

#[global] Instance except_ret : MRet except := @Ok.
#[global] Instance except_bind : MBind except := fun A B k x =>
  match x with
  | Ok a => k a
  | Err e => Err e
  end.

(** [for x in l: body], threading the variables the body assigns. *)
Fixpoint for_each {A S} (l : list A) (body : S -> A -> M S) (s : S) : M S :=
  match l with
  | [] => ret s
  | x :: r => s' ← body s x; for_each r body s'
  end.

(** Truth of an optional string: [None] and [""] are false. *)
Definition truthy (o : option str) : bool :=
  match o with
  | Some (_ :: _) => true
  | _ => false
  end.

(** [a or b] *)
Definition py_or (a b : option str) : option str := if truthy a then a else b.

(** [x in l] for integers *)
Definition py_in (x : Z) (l : list Z) : bool := existsb (Z.eqb x) l.

(** [repr(l)] for a list of integers *)
Definition repr_int_list (l : list Z) : str :=
  [91] ++ join (lit ", ") (map str_of_int l) ++ [93].

(** [len(s.split())]: the number of maximal runs without white space. *)
Fixpoint count_words (in_word : bool) (s : str) : nat :=
  match s with
  | [] => O
  | c :: r =>
      if isspace c then count_words false r
      else if in_word then count_words true r
      else S (count_words true r)
  end.

Section Files.
Context (P : Platform).

(** [time.time()] *)
Definition time_now : M (pyfloat P) :=
  fun w => (Return (time_time P (clock_reads w)),
            mk_world (fs w) (stdout w) (stderr w) (S (clock_reads w)) (events w)).

(** [p.write_text(data, encoding=encoding)]: the file is created or
    emptied when it is opened, before the text is encoded. *)
Definition write_text (p : path) (data : str) (encoding : option codec) : M unit :=
  open_for_writing p;;
  w ← get_world;
  match encode (default (locale_encoding P) encoding) (newlines_out (linesep P) data) with
  | Some b => put_fs (<[p := File b]> (fs w))
  | None => put_fs (<[p := File []]> (fs w));; raise UnicodeEncodeError
  end.

(** [p.read_text(encoding=encoding)] *)
Definition read_text (p : path) (encoding : option codec) : M str :=
  w ← get_world;
  match node_at (fs w) p with
  | None => raise FileNotFoundError
  | Some Dir => raise IsADirectoryError
  | Some (File b) =>
      match decode (default (locale_encoding P) encoding) b with
      | Some s => ret (newlines_in s)
      | None => raise UnicodeDecodeError
      end
  end.

(** [shutil.copy2(src, dst)]: the content of a regular file; a
    destination that is a directory receives the file under its name. *)
Definition copy2 (src dst : path) : M unit :=
  w ← get_world;
  match node_at (fs w) src with
  | None => raise FileNotFoundError
  | Some Dir => raise IsADirectoryError
  | Some (File b) =>
      let dst := if is_dir (fs w) dst then dst ++ [List.last src []] else dst in
      if bool_decide (src = dst) then raise SameFileError
      else open_for_writing dst;; put_fs (<[dst := File b]> (fs w))
  end.

(** [json.loads(s)] *)
Definition loads (s : str) : M (json (pyfloat P)) :=
  match json_loads P s with
  | Some o => ret o
  | None => raise JSONDecodeError
  end.

Definition dumps (indent : nat) (ensure_ascii : bool) (o : json (pyfloat P)) : str :=
  json_dumps (floatstr P) indent ensure_ascii o.

(** The calls to the providers: each is recorded, and answered by the
    platform from what has happened before it.  [client] is the API
    key the client object was built with. *)
Definition client_files_upload (client : option str) (file : str) : M file_handle :=
  w ← get_world;
  emit (Files_upload client file);;
  ret (files_upload P (events w) file).

Definition client_files_get (client : option str) (name : str) : M file_handle :=
  w ← get_world;
  emit (Files_get client name);;
  ret (files_get P (events w) name).

Definition client_files_delete (client : option str) (name : str) : M unit :=
  w ← get_world;
  emit (Files_delete client name);;
  if files_delete_fails P (events w) name then raise APIError else ret tt.

Definition client_models_generate_content_stream (client : option str)
    (model : str) (c : contents) (temperature : str) (max_output_tokens : Z)
    : M (list chunk) :=
  w ← get_world;
  emit (Generate_content_stream client model c temperature max_output_tokens);;
  ret (generate_content_stream P (events w) model c).

Definition client_chat_completions_create (client : option str) (model : str)
    (system_content : str) (user_content : prompt) (temperature : str)
    (max_completion_tokens : Z) : M (list completion_event) :=
  w ← get_world;
  emit (Chat_completions_create client model system_content user_content
          temperature max_completion_tokens);;
  ret (chat_completions_create P (events w) user_content).

End Files.

(** * [video_to_plan.py] *)

Module video_to_plan.
Section Script.
Context (P : Platform).

Definition _elapsed (start : pyfloat P) : M str :=
  now ← time_now P;
  let secs := int_of_difference P now start in
  if (secs <? 60)%Z then ret (str_of_int secs ++ lit "s")
  else ret (str_of_int (secs / 60) ++ lit "m " ++ str_of_int (secs mod 60) ++ lit "s").

Definition fence : str := lit "```".

Definition _strip_fences (text : str) : except str :=
  let text := strip text in
  if startswith text fence then
    text ← index (split1 [10] text) 1;
    text ← (if endswith text fence then index (rsplit1 fence text) 0 else Ok text);
    Ok (strip text)
  else Ok text.

Definition _progress (msg : str) : M unit := print msg.

(** The variables of the streaming loops: [chunks], [char_count] and
    [last_report]. *)
Definition stream_state : Type := list str * Z * Z.

(** One turn of the loop of [_stream_gemini] (lines 128-135). *)
Definition stream_body (label : str) (start : pyfloat P)
    (st : stream_state) (c : chunk) : M stream_state :=
  let '(chunks, char_count, last_report) := st in
  if truthy (chunk_text c) then
    let text := default [] (chunk_text c) in
    let chunks := chunks ++ [text] in
    let char_count := (char_count + Z.of_nat (length text))%Z in
    if (char_count - last_report >=? 2000)%Z then
      e ← _elapsed start;
      _progress (lit "  ... " ++ label ++ lit ": " ++ format_comma char_count
                 ++ lit " chars (" ++ e ++ lit ")");;
      ret (chunks, char_count, char_count)
    else ret (chunks, char_count, last_report)
  else ret st.

Definition _stream_gemini (client : option str) (model : str) (c : contents)
    (label : str) : M str :=
  _progress (lit "  Streaming from " ++ model ++ lit "...");;
  start ← time_now P;
  response ← client_models_generate_content_stream P client model c (lit "0.2") 65536%Z;
  '(chunks, char_count, _) ← for_each response (stream_body label start) ([], 0%Z, 0%Z);
  e ← _elapsed start;
  _progress (lit "  ✓ " ++ label ++ lit ": " ++ format_comma char_count
             ++ lit " chars total (" ++ e ++ lit ")");;
  ret (join [] chunks).

(** The polling loop of [run_phase1] (lines 160-163); [fuel] bounds
    the number of turns the model follows. *)
Fixpoint poll (fuel : nat) (client : option str) (poll_start : pyfloat P)
    (video_file : file_handle) : M file_handle :=
  if bool_decide (fh_state_name video_file = lit "PROCESSING") then
    match fuel with
    | O => diverge
    | S fuel' =>
        emit (Sleep 5);;
        video_file ← client_files_get P client (fh_name video_file);
        e ← _elapsed poll_start;
        _progress (lit "  ... still processing (" ++ e ++ lit ")");;
        poll fuel' client poll_start video_file
    end
  else ret video_file.

Definition run_phase1 (fuel : nat) (video_path : str) (srt_content : str)
    (gemini_key : option str) (cache_dir : path) : M (json (pyfloat P)) :=
  phase_start ← time_now P;
  print (repeat 61 60);;
  print (lit "PHASE 1: Visual Extraction (Gemini 2.5 Pro)");;
  print (repeat 61 60);;
  let client := gemini_key in
  w ← get_world;
  file_size_mb ← match node_at (fs w) (parts video_path) with
                 | Some n => ret (format_size_mb P n)
                 | None => raise FileNotFoundError
                 end;
  _progress (lit "  Uploading video: " ++ video_path ++ lit " (" ++ file_size_mb ++ lit " MB)");;
  upload_start ← time_now P;
  video_file ← client_files_upload P client video_path;
  e ← _elapsed upload_start;
  _progress (lit "  ✓ Upload complete in " ++ e ++ lit ". File: " ++ fh_name video_file);;
  _progress (lit "  Waiting for file processing...");;
  poll_start ← time_now P;
  video_file ← poll fuel client poll_start video_file;
  (if bool_decide (fh_state_name video_file = lit "FAILED")
   then raise (RuntimeError (lit "Video processing failed: " ++ fh_state_name video_file))
   else ret tt);;
  e ← _elapsed poll_start;
  _progress (lit "  ✓ File ready (" ++ e ++ lit ")");;
  let prompt := PHASE1_PROMPT_format srt_content in
  let c := Content_parts [Part_from_uri (fh_uri video_file) (fh_mime_type video_file);
                          Part_from_text prompt] in
  raw_text ← _stream_gemini client (lit "gemini-2.5-pro") c (lit "Visual analysis");
  raw_text ← lift (_strip_fences raw_text);
  result ← loads P raw_text;
  let out_path := joinpath cache_dir (lit "visual_analysis.json") in
  write_text P out_path (dumps P 2 false result) None;;
  obs_count ← lift (o ← json_get_or_empty result (lit "observations"); json_len o);
  print (lit "  Saved: " ++ str_of_path out_path);;
  print (lit "  " ++ str_of_int obs_count ++ lit " visual observations extracted");;
  try_except
    (client_files_delete P client (fh_name video_file);;
     print (lit "  Cleaned up uploaded video file."))
    (ret tt);;
  e ← _elapsed phase_start;
  print (lit "  Phase 1 total: " ++ e);;
  ret result.

Definition run_phase2 (visual_analysis : json (pyfloat P)) (srt_content : str)
    (gemini_key : option str) (cache_dir : path) : M (json (pyfloat P)) :=
  phase_start ← time_now P;
  print ([10] ++ repeat 61 60);;
  print (lit "PHASE 2: Synthesis (Gemini 2.5 Flash)");;
  print (repeat 61 60);;
  let client := gemini_key in
  let prompt := PHASE2_PROMPT_format (dumps P 2 false visual_analysis) srt_content in
  raw_text ← _stream_gemini client (lit "gemini-2.5-flash") (Prompt_text prompt) (lit "Synthesis");
  raw_text ← lift (_strip_fences raw_text);
  result ← loads P raw_text;
  let out_path := joinpath cache_dir (lit "synthesis.json") in
  write_text P out_path (dumps P 2 false result) None;;
  print (lit "  Saved: " ++ str_of_path out_path);;
  n ← lift (o ← json_get_or_empty result (lit "pain_points"); json_len o);
  print (lit "  " ++ str_of_int n ++ lit " pain points identified");;
  n ← lift (o ← json_get_or_empty result (lit "current_workflows"); json_len o);
  print (lit "  " ++ str_of_int n ++ lit " workflows documented");;
  n ← lift (o ← json_get_or_empty result (lit "user_personas"); json_len o);
  print (lit "  " ++ str_of_int n ++ lit " user personas identified");;
  e ← _elapsed phase_start;
  print (lit "  Phase 2 total: " ++ e);;
  ret result.

(** One turn of the loop of [run_phase3] (lines 422-429). *)
Definition completion_body (start : pyfloat P)
    (st : stream_state) (event : completion_event) : M stream_state :=
  let '(chunks, char_count, last_report) := st in
  c0 ← lift (index (event_choices event) 0);
  let delta := match choice_delta c0 with
               | Some d => delta_content d
               | None => None
               end in
  if truthy delta then
    let delta := default [] delta in
    let chunks := chunks ++ [delta] in
    let char_count := (char_count + Z.of_nat (length delta))%Z in
    if (char_count - last_report >=? 2000)%Z then
      e ← _elapsed start;
      _progress (lit "  ... PRD generation: " ++ format_comma char_count
                 ++ lit " chars (" ++ e ++ lit ")");;
      ret (chunks, char_count, char_count)
    else ret (chunks, char_count, last_report)
  else ret st.

Definition run_phase3 (synthesis : json (pyfloat P)) (openai_key : option str)
    (output_path : path) : M str :=
  phase_start ← time_now P;
  print ([10] ++ repeat 61 60);;
  print (lit "PHASE 3: PRD Generation (OpenAI gpt-5.2)");;
  print (repeat 61 60);;
  let client := openai_key in
  let prompt := PHASE3_PROMPT_format (dumps P 2 false synthesis) in
  _progress (lit "  Streaming from gpt-5.2...");;
  start ← time_now P;
  stream ← client_chat_completions_create P client (lit "gpt-5.2")
             (lit "You are a senior product manager and technical architect producing a detailed PRD.")
             prompt (lit "0.3") 16384%Z;
  '(chunks, char_count, _) ← for_each stream (completion_body start) ([], 0%Z, 0%Z);
  e ← _elapsed start;
  _progress (lit "  ✓ PRD generation: " ++ format_comma char_count
             ++ lit " chars total (" ++ e ++ lit ")");;
  let prd_content := join [] chunks in
  write_text P output_path prd_content (Some UTF_8);;
  print (lit "  Saved: " ++ str_of_path output_path);;
  let section_count :=
    length (filter (fun line => startswith line (lit "## ") = true)
              (split [10] prd_content)) in
  let word_count := count_words false prd_content in
  print (lit "  " ++ str_of_int (Z.of_nat section_count) ++ lit " top-level sections, "
         ++ format_comma (Z.of_nat word_count) ++ lit " words");;
  e ← _elapsed phase_start;
  print (lit "  Phase 3 total: " ++ e);;
  ret prd_content.

(** The namespace [parser.parse_args()] returns; [--phase] is an
    [int] restricted to [choices=[1, 2, 3]]. *)
Inductive phase_choice : Type := Phase_1 | Phase_2 | Phase_3.

Definition phase_number (c : phase_choice) : Z :=
  match c with
  | Phase_1 => 1
  | Phase_2 => 2
  | Phase_3 => 3
  end.

Record Args : Type := mk_args {
  video : str;
  subtitles : str;
  output : str;
  gemini_key : option str;
  openai_key : option str;
  phase : option phase_choice
}.

(** [os.environ], as far as the script reads it. *)
Record Environ : Type := mk_environ {
  GEMINI_API_KEY : option str;
  OPENAI_API_KEY : option str
}.

Definition phases_to_run_of (args : Args) : list Z :=
  match phase args with
  | None => [1; 2; 3]%Z
  | Some p => [phase_number p]
  end.

Definition gemini_key_error : str :=
  lit "Error: Gemini API key required for phases 1-2. Set GEMINI_API_KEY or use --gemini-key.".

Definition openai_key_error : str :=
  lit "Error: OpenAI API key required for phase 3. Set OPENAI_API_KEY or use --openai-key.".

Definition phase2_needs_phase1_error (cache_dir : path) : str :=
  lit "Error: Phase 2 requires visual_analysis.json in " ++ str_of_path cache_dir
  ++ lit ". Run phase 1 first.".

Definition phase3_needs_phase2_error (cache_dir : path) : str :=
  lit "Error: Phase 3 requires synthesis.json in " ++ str_of_path cache_dir
  ++ lit ". Run phase 2 first.".

Definition main (fuel : nat) (args : Args) (environ : Environ) : M unit :=
  let gemini_key := py_or (gemini_key args) (GEMINI_API_KEY environ) in
  let openai_key := py_or (openai_key args) (OPENAI_API_KEY environ) in
  let phases_to_run := phases_to_run_of args in
  (if existsb (fun p => py_in p [1; 2]%Z) phases_to_run && negb (truthy gemini_key)
   then print_stderr gemini_key_error;; sys_exit 1
   else ret tt);;
  (if py_in 3 phases_to_run && negb (truthy openai_key)
   then print_stderr openai_key_error;; sys_exit 1
   else ret tt);;
  let video_path := resolve P (video args) in
  let srt_path := resolve P (subtitles args) in
  let output_path := resolve P (output args) in
  let cache_dir := joinpath (parent output_path) (lit ".cache") in
  mkdir true true cache_dir;;
  ex ← path_exists video_path;
  (if negb ex
   then print_stderr (lit "Error: Video file not found: " ++ str_of_path video_path);;
        sys_exit 1
   else ret tt);;
  ex ← path_exists srt_path;
  (if negb ex
   then print_stderr (lit "Error: Subtitle file not found: " ++ str_of_path srt_path);;
        sys_exit 1
   else ret tt);;
  srt_content ← read_text P srt_path (Some UTF_8);
  total_start ← time_now P;
  print (lit "Video:     " ++ str_of_path video_path);;
  print (lit "Subtitles: " ++ str_of_path srt_path);;
  print (lit "Output:    " ++ str_of_path output_path);;
  print (lit "Cache:     " ++ str_of_path cache_dir);;
  print (lit "Phases:    " ++ repr_int_list phases_to_run);;
  print [];;
  visual_analysis ←
    (if py_in 1 phases_to_run then
       run_phase1 fuel (str_of_path video_path) srt_content gemini_key cache_dir
     else
       let cached := joinpath cache_dir (lit "visual_analysis.json") in
       ex ← path_exists cached;
       if (ex : bool) then
         text ← read_text P cached None;
         visual_analysis ← loads P text;
         print (lit "Loaded cached visual analysis: " ++ str_of_path cached);;
         ret visual_analysis
       else if existsb (fun p => py_in p [2]%Z) phases_to_run then
         print_stderr (phase2_needs_phase1_error cache_dir);;
         sys_exit 1
       else ret JNull) : M (json (pyfloat P));
  synthesis ←
    (if py_in 2 phases_to_run then
       run_phase2 visual_analysis srt_content gemini_key cache_dir
     else
       let cached := joinpath cache_dir (lit "synthesis.json") in
       ex ← path_exists cached;
       if (ex : bool) then
         text ← read_text P cached None;
         synthesis ← loads P text;
         print (lit "Loaded cached synthesis: " ++ str_of_path cached);;
         ret synthesis
       else if py_in 3 phases_to_run then
         print_stderr (phase3_needs_phase2_error cache_dir);;
         sys_exit 1
       else ret JNull) : M (json (pyfloat P));
  (if py_in 3 phases_to_run then
     run_phase3 synthesis openai_key output_path;; ret tt
   else ret tt);;
  print ([10] ++ repeat 61 60);;
  e ← _elapsed total_start;
  print (lit "DONE — total time: " ++ e);;
  print (repeat 61 60);;
  if py_in 3 phases_to_run then
    print (lit "PRD written to: " ++ str_of_path output_path)
  else ret tt.

End Script.
End video_to_plan.

(** * [promote_plan.py] *)

Module promote_plan.
Section Script.
Context (P : Platform).

(** [datetime.now()]: the reading of the clock it was taken at. *)
Definition datetime_now : M nat :=
  fun w => (Return (clock_reads w),
            mk_world (fs w) (stdout w) (stderr w) (S (clock_reads w)) (events w)).

(** One turn of the loop over the artifact names (lines 39-44). *)
Definition copy_artifact (cache_dir dest : path) (copied_artifacts : list str)
    (filename : str) : M (list str) :=
  let src := joinpath cache_dir filename in
  ex ← path_exists src;
  if (ex : bool) then
    copy2 src (joinpath (joinpath dest (lit "artifacts")) filename);;
    let copied_artifacts := copied_artifacts ++ [filename] in
    print (lit "  Copied artifact → artifacts/" ++ filename);;
    ret copied_artifacts
  else ret copied_artifacts.

Definition metadata_of (name : str) (promoted_at : str) (plan_path cache_dir : path)
    (copied_artifacts : list str) : json (pyfloat P) :=
  JDict [(lit "name", JStr name);
         (lit "promoted_at", JStr promoted_at);
         (lit "source_plan", JStr (str_of_path plan_path));
         (lit "source_cache", JStr (str_of_path cache_dir));
         (lit "artifacts", JList (map JStr copied_artifacts))].

Definition prd_line : str := lit "- **PRD.md** — Product Requirements Document".
Definition visual_analysis_line : str :=
  lit "- **artifacts/visual_analysis.json** — Timestamped visual observations from source video".
Definition synthesis_line : str :=
  lit "- **artifacts/synthesis.json** — Synthesized pain points, workflows, and requirements".
Definition metadata_line : str := lit "- **artifacts/metadata.json** — Promotion metadata".

Definition readme_lines_of (name : str) (date : str) (copied_artifacts : list str)
    : list str :=
  let readme_lines :=
    [lit "# " ++ name;
     [];
     lit "Engineering plan promoted on " ++ date ++ lit ".";
     [];
     lit "## Contents";
     [];
     prd_line] in
  let readme_lines :=
    if bool_decide (lit "visual_analysis.json" ∈ copied_artifacts)
    then readme_lines ++ [visual_analysis_line] else readme_lines in
  let readme_lines :=
    if bool_decide (lit "synthesis.json" ∈ copied_artifacts)
    then readme_lines ++ [synthesis_line] else readme_lines in
  let readme_lines := readme_lines ++ [metadata_line] in
  readme_lines ++ [[]].

Definition promote (name : str) (plan_path cache_dir output_root : path) : M path :=
  let dest := joinpath output_root name in
  ex ← path_exists dest;
  (if (ex : bool) then
     print_stderr (lit "Error: directory already exists: " ++ str_of_path dest);;
     print_stderr (lit "  Pick a different name or remove it first.");;
     sys_exit 1
   else ret tt);;
  mkdir true false dest;;
  mkdir false false (joinpath dest (lit "artifacts"));;
  copy2 plan_path (joinpath dest (lit "PRD.md"));;
  print (lit "  Copied plan → " ++ str_of_path (joinpath dest (lit "PRD.md")));;
  copied_artifacts ←
    for_each [lit "visual_analysis.json"; lit "synthesis.json"]
      (copy_artifact cache_dir dest) [];
  t ← datetime_now;
  let metadata :=
    metadata_of name (now_isoformat P t) plan_path cache_dir copied_artifacts in
  write_text P (joinpath (joinpath dest (lit "artifacts")) (lit "metadata.json"))
    (dumps P 2 true metadata ++ [10]) None;;
  t ← datetime_now;
  let readme_lines := readme_lines_of name (now_strftime_Y_m_d P t) copied_artifacts in
  write_text P (joinpath dest (lit "README.md")) (join [10] readme_lines) None;;
  print (lit "  Generated → README.md");;
  ret dest.

Record Args : Type := mk_args {
  name : str;
  plan : str;
  cache : str;
  output_root : str
}.

Definition main (args : Args) : M unit :=
  let plan_path := resolve P (plan args) in
  let cache_dir := resolve P (cache args) in
  let output_root := resolve P (output_root args) in
  ex ← path_exists plan_path;
  (if negb ex then
     print_stderr (lit "Error: plan not found: " ++ str_of_path plan_path);;
     sys_exit 1
   else ret tt);;
  ex ← path_exists cache_dir;
  cache_dir ←
    (if negb ex then
       print_stderr (lit "Warning: cache directory not found: " ++ str_of_path cache_dir);;
       print_stderr (lit "  Promoting plan without artifacts.");;
       ret (parts (lit "/nonexistent"))
     else ret cache_dir);
  print (lit "Promoting: " ++ name args);;
  dest ← promote (name args) plan_path cache_dir output_root;
  print ([10] ++ lit "Done. Directory ready at: " ++ str_of_path dest);;
  print ([10] ++ lit "  cd " ++ str_of_path dest
         ++ lit " && git init && git add -A && git commit -m 'Initial PRD'").

End Script.
End promote_plan.

(** * The vocabulary of the properties *)

(** ** Strings *)

(** What [lstrip] leaves is empty or begins with a visible character. *)
Definition left_clean (s : str) : Prop :=
  match s with
  | [] => True
  | c :: _ => isspace c = false
  end.

(** [sub not in text]: the text has no occurrence of [sub]. *)
Definition absent (sub text : str) : Prop := partition sub text = None.

(** The text has no line feed. *)
Definition no_newline (s : str) : bool := forallb (fun c => negb (c =? 10)) s.

(** ** Outcomes *)

(** The status the process ends with: an uncaught exception makes the
    interpreter exit with 1. *)
Definition exit_status {A} (o : outcome A) : option Z :=
  match o with
  | Return _ => Some 0%Z
  | Raise _ => Some 1%Z
  | Exit c => Some c
  | Diverge => None
  end.

(** A property of the value and the world a computation returns with,
    when it returns. *)
Definition on_return {A} (r : outcome A * World) (Q : A -> World -> Prop) : Prop :=
  match r with
  | (Return a, w') => Q a w'
  | _ => True
  end.

(** The computation returns, and its value and the world it leaves
    satisfy [Q]. *)
Definition returns {A} (r : outcome A * World) (Q : A -> World -> Prop) : Prop :=
  match r with
  | (Return a, w') => Q a w'
  | _ => False
  end.

(** The world after more lines on [stderr]. *)
Definition with_stderr (w : World) (lines : list str) : World :=
  mk_world (fs w) (stdout w) (stderr w ++ lines) (clock_reads w) (events w).

(** ** Output channels *)

(** A channel is a part of the world that only grows: the lines sent to
    [stderr], or the requests made to the providers.  Writing files,
    reading the clock and printing to [stdout] leave it alone. *)
Class Channel {X : Type} (proj : World -> list X) : Prop := {
  channel_fs : forall f w, proj (set_fs f w) = proj w;
  channel_clock : forall w,
    proj (mk_world (fs w) (stdout w) (stderr w) (S (clock_reads w)) (events w)) = proj w;
  channel_stdout : forall w l,
    proj (mk_world (fs w) l (stderr w) (clock_reads w) (events w)) = proj w
}.

Section Channels.
Context {X : Type} (proj : World -> list X).

(** Whatever [m] does, it only appends to the channel, and every item
    it appends satisfies [S]. *)
Definition adds {A} (S : X -> Prop) (m : M A) : Prop :=
  forall w, exists new, proj (snd (m w)) = proj w ++ new /\ Forall S new.

(** [m] appends nothing. *)
Definition keeps {A} (m : M A) : Prop := forall w, proj (snd (m w)) = proj w.

End Channels.

(** ** The file system *)

(** What [mkdir] may change: it adds directories, at ancestors of [p]
    or at [p], where nothing was; every node that was there stays. *)
Definition grown (f f' : gmap path node) (p : path) : Prop :=
  (forall q n, node_at f q = Some n -> node_at f' q = Some n)
  /\ (forall q, node_at f q = None -> node_at f' q = None \/ q ∈ prefixes p)
  /\ (forall q b, node_at f' q = Some (File b) -> node_at f q = Some (File b)).

(** Every node lies in a directory. *)
Definition wf_fs (f : gmap path node) : bool :=
  forallb (fun kv => is_dir f (parent (fst kv))) (map_to_list f).

Section StoredText.
Context (P : Platform).

(** The text [read_text] gives for a path, when it gives one. *)
Definition readable (encoding : option codec) (f : gmap path node) (p : path)
    : option str :=
  match node_at f p with
  | Some (File b) => newlines_in <$> decode (default (locale_encoding P) encoding) b
  | _ => None
  end.

(** The text a file holds, as [write_text] left it there. *)
Definition holds_text (f : gmap path node) (p : path) (text : str) : Prop :=
  exists b, node_at f p = Some (File b)
            /\ encode (locale_encoding P) (newlines_out (linesep P) text) = Some b.

End StoredText.

(** ** The stream of a response *)

(** The fragments of a response: the [text] of each chunk that has one. *)
Definition fragments (response : list chunk) : list str := omap chunk_text response.

(** What the loop appends to [chunks]: the fragments that are not empty. *)
Definition kept (response : list chunk) : list str :=
  filter (fun t => t <> []) (fragments response).

Section Responses.
Context (P : Platform).

(** The response the provider gives to the request of [_stream_gemini]
    made in world [w]. *)
Definition response_of (model : str) (c : contents) (w : World) : list chunk :=
  generate_content_stream P (events w) model c.

End Responses.

(** ** The driver *)

Section DriverParts.
Import video_to_plan.
Context (P : Platform).

(** A line that is neither of the two diagnostics about keys. *)
Definition not_a_key_error (line : str) : Prop :=
  line <> gemini_key_error /\ line <> openai_key_error.

(** The part of [main] that follows the banner (lines 511-545): the
    three phase blocks and the closing lines. *)
Definition main_phases (fuel : nat) (phases_to_run : list Z)
    (gemini_key openai_key : option str) (video_path output_path cache_dir : path)
    (srt_content : str) (total_start : pyfloat P) : M unit :=
  visual_analysis ←
    (if py_in 1 phases_to_run then
       run_phase1 P fuel (str_of_path video_path) srt_content gemini_key cache_dir
     else
       let cached := joinpath cache_dir (lit "visual_analysis.json") in
       ex ← path_exists cached;
       if (ex : bool) then
         text ← read_text P cached None;
         visual_analysis ← loads P text;
         print (lit "Loaded cached visual analysis: " ++ str_of_path cached);;
         ret visual_analysis
       else if existsb (fun p => py_in p [2]%Z) phases_to_run then
         print_stderr (phase2_needs_phase1_error cache_dir);;
         sys_exit 1
       else ret JNull) : M (json (pyfloat P));
  synthesis ←
    (if py_in 2 phases_to_run then
       run_phase2 P visual_analysis srt_content gemini_key cache_dir
     else
       let cached := joinpath cache_dir (lit "synthesis.json") in
       ex ← path_exists cached;
       if (ex : bool) then
         text ← read_text P cached None;
         synthesis ← loads P text;
         print (lit "Loaded cached synthesis: " ++ str_of_path cached);;
         ret synthesis
       else if py_in 3 phases_to_run then
         print_stderr (phase3_needs_phase2_error cache_dir);;
         sys_exit 1
       else ret JNull) : M (json (pyfloat P));
  (if py_in 3 phases_to_run then
     run_phase3 P synthesis openai_key output_path;; ret tt
   else ret tt);;
  print ([10] ++ repeat 61 60);;
  e ← _elapsed P total_start;
  print (lit "DONE — total time: " ++ e);;
  print (repeat 61 60);;
  if py_in 3 phases_to_run then
    print (lit "PRD written to: " ++ str_of_path output_path)
  else ret tt.

(** The paths [main] works with. *)
Definition video_path_of (args : Args) : path := resolve P (video args).
Definition srt_path_of (args : Args) : path := resolve P (subtitles args).
Definition output_path_of (args : Args) : path := resolve P (output args).
Definition cache_dir_of (args : Args) : path :=
  joinpath (parent (output_path_of args)) (lit ".cache").

(** The keys [main] settles on: the option, or else the environment. *)
Definition gemini_key_of (args : Args) (environ : Environ) : option str :=
  py_or (gemini_key args) (GEMINI_API_KEY environ).
Definition openai_key_of (args : Args) (environ : Environ) : option str :=
  py_or (openai_key args) (OPENAI_API_KEY environ).

(** A request of phase 1: the upload, the polling, the deletion, or the
    stream from the model of phase 1. *)
Definition phase1_call (e : event) : bool :=
  match e with
  | Files_upload _ _ | Files_get _ _ | Files_delete _ _ => true
  | Generate_content_stream _ model _ _ _ => bool_decide (model = lit "gemini-2.5-pro")
  | _ => false
  end.

End DriverParts.

Section DriverCaches.
Import video_to_plan.
Context (P : Platform).

(** What lets a run reach its phases: the keys its phases need, a
    cache directory that is or can be made a directory, the video, and
    subtitles that can be read as UTF-8. *)
Definition inputs_ready (args : Args) (environ : Environ) (w : World) : Prop :=
  (py_in 1 (phases_to_run_of args) || py_in 2 (phases_to_run_of args))
    && negb (truthy (gemini_key_of args environ)) = false
  /\ py_in 3 (phases_to_run_of args) && negb (truthy (openai_key_of args environ)) = false
  /\ existsb (is_file (fs w)) (prefixes (cache_dir_of P args)) = false
  /\ is_Some (node_at (fs w) (video_path_of P args))
  /\ is_Some (readable P (Some UTF_8) (fs w) (srt_path_of P args)).

(** The one request phase 2 makes. *)
Definition phase2_request (gemini_key : option str)
    (visual_analysis : json (pyfloat P)) (srt_content : str) : event :=
  Generate_content_stream gemini_key (lit "gemini-2.5-flash")
    (Prompt_text (PHASE2_PROMPT_format (dumps P 2 false visual_analysis) srt_content))
    (lit "0.2") 65536.

(** The cached document of a phase: the file read with the locale's
    encoding and parsed. *)
Definition cached_document (f : gmap path node) (p : path)
    : option (json (pyfloat P)) :=
  readable P None f p ≫= json_loads P.

(** The file a phase caches its document in. *)
Definition visual_analysis_cache (args : Args) : path :=
  joinpath (cache_dir_of P args) (lit "visual_analysis.json").
Definition synthesis_cache (args : Args) : path :=
  joinpath (cache_dir_of P args) (lit "synthesis.json").

End DriverCaches.

(** ** Promotion *)

Section PromotionParts.
Context (P : Platform).

(** What lets [promote] run to its end: the destination is new and no
    file stands where one of its ancestors should be, the plan is a
    regular file, each artifact is a regular file of the cache or is
    missing there (and is not an ancestor of the destination), and text
    files are written as UTF-8, in which the name and the date can be
    encoded, with a line separator made of ASCII characters. *)
Definition promotable (name : str) (plan_path cache_dir output_root : path)
    (w : World) : Prop :=
  let dest := joinpath output_root name in
  node_at (fs w) dest = None
  /\ existsb (is_file (fs w)) (proper_prefixes dest) = false
  /\ is_file (fs w) plan_path = true
  /\ Forall (fun filename =>
               let src := joinpath cache_dir filename in
               is_file (fs w) src = true
               \/ (node_at (fs w) src = None /\ src ∉ prefixes dest))
       [lit "visual_analysis.json"; lit "synthesis.json"]
  /\ locale_encoding P = UTF_8
  /\ Forall (fun c => c < 128) (linesep P)
  /\ is_Some (Utf8.encode name)
  /\ (forall t, is_Some (Utf8.encode (now_strftime_Y_m_d P t))).

End PromotionParts.

(** The two lines [promote] sends to [stderr] when the destination exists. *)
Definition exists_error (dest : path) : list str :=
  [lit "Error: directory already exists: " ++ str_of_path dest;
   lit "  Pick a different name or remove it first."].

(** ** Progress lines *)

(** The line [_stream_gemini] prints when at least 2000 characters
    arrived since the last one, and the line it ends with. *)
Definition report_line (label : str) (char_count : Z) (elapsed : str) : str :=
  lit "  ... " ++ label ++ lit ": " ++ format_comma char_count
  ++ lit " chars (" ++ elapsed ++ lit ")".

Definition total_line (label : str) (char_count : Z) (elapsed : str) : str :=
  lit "  ✓ " ++ label ++ lit ": " ++ format_comma char_count
  ++ lit " chars total (" ++ elapsed ++ lit ")".

(** ** The stream of a completion *)

(** [event.choices[0].delta.content if event.choices[0].delta else None],
    for an event that has a choice. *)
Definition first_delta (event : completion_event) : option str :=
  match event_choices event with
  | c0 :: _ =>
      match choice_delta c0 with
      | Some d => delta_content d
      | None => None
      end
  | [] => None
  end.

(** The text pieces of a completion stream, in their order. *)
Definition deltas (stream : list completion_event) : list str := omap first_delta stream.

Section Completions.
Context (P : Platform).

(** The request of phase 3. *)
Definition phase3_request (openai_key : option str) (synthesis : json (pyfloat P))
    : event :=
  Chat_completions_create openai_key (lit "gpt-5.2")
    (lit "You are a senior product manager and technical architect producing a detailed PRD.")
    (PHASE3_PROMPT_format (dumps P 2 false synthesis)) (lit "0.3") 16384.

(** The stream the provider answers that request with, made in [w]. *)
Definition completion_of (synthesis : json (pyfloat P)) (w : World)
    : list completion_event :=
  chat_completions_create P (events w) (PHASE3_PROMPT_format (dumps P 2 false synthesis)).

End Completions.

(** A platform whose completion stream is another one. *)
Definition with_chat (P : Platform) (stream : list completion_event) : Platform := {|
  pyfloat := pyfloat P;
  time_time := time_time P;
  int_of_difference := int_of_difference P;
  floatstr := floatstr P;
  format_size_mb := format_size_mb P;
  now_isoformat := now_isoformat P;
  now_strftime_Y_m_d := now_strftime_Y_m_d P;
  locale_encoding := locale_encoding P;
  linesep := linesep P;
  resolve := resolve P;
  json_loads := json_loads P;
  files_upload := files_upload P;
  files_get := files_get P;
  files_delete_fails := files_delete_fails P;
  generate_content_stream := generate_content_stream P;
  chat_completions_create _ _ := stream
|}.

(** ** Cleaning up *)

(** A request to delete an uploaded file. *)
Definition deletion (e : event) : bool :=
  match e with
  | Files_delete _ _ => true
  | _ => false
  end.

(** What a run that started in world [w] has asked of the providers:
    it asks for no deletion unless it returns, and then the deletion,
    with the key of [client], is the last thing it asks, and the only
    deletion. *)
Definition deletes_on_return {A} (client : option str) (w : World)
    (r : outcome A * World) : Prop :=
  exists requests,
    events (snd r) = events w ++ requests
    /\ match fst r with
       | Return _ =>
           exists earlier name,
             requests = earlier ++ [Files_delete client name]
             /\ Forall (fun e => deletion e = false) earlier
       | _ => Forall (fun e => deletion e = false) requests
       end.

(** ** Leaving the program *)

(** [m] never calls [sys.exit]. *)
Definition never_exits {A} (m : M A) : Prop := forall w n, fst (m w) <> Exit n.

(** * A sample platform and project *)

(** A platform on which everything can be computed: integer clock
    readings 125 seconds apart, a parser that knows two documents, a
    Gemini stream that sends a fenced document in pieces, and an OpenAI
    stream of two deltas. *)
Module Sample.

Definition float_text (z : Z) : str := str_of_int z ++ lit ".0".

Definition document : json Z := JDict [(lit "k", JStr (lit "é"))].

Definition documents : list (json Z) := [JDict []; document].

Definition loads (s : str) : option (json Z) :=
  List.find (fun d => bool_decide (json_dumps float_text 2 false d = s)) documents.

Definition fenced_stream : list chunk :=
  [mk_chunk (Some (lit "```json")); mk_chunk None;
   mk_chunk (Some ([10] ++ json_dumps float_text 2 false document ++ [10]));
   mk_chunk (Some []); mk_chunk (Some (lit "```"))].

Definition other_cut (response : list chunk) : list chunk :=
  [mk_chunk (Some (concat (omap chunk_text response)))].

Definition handle : file_handle :=
  mk_file_handle (lit "files/1") (lit "uri") (lit "video/mp4") (lit "ACTIVE").

Definition platform (encoding : codec) (response : list chunk) : Platform := {|
  pyfloat := Z;
  time_time n := (125 * Z.of_nat n)%Z;
  int_of_difference a b := (a - b)%Z;
  floatstr := float_text;
  format_size_mb _ := lit "0.0";
  now_isoformat _ := lit "2025-01-01T00:00:00";
  now_strftime_Y_m_d _ := lit "2025-01-01";
  locale_encoding := encoding;
  linesep := [10];
  resolve := parts;
  json_loads := loads;
  files_upload _ _ := handle;
  files_get _ _ := handle;
  files_delete_fails _ _ := false;
  generate_content_stream _ _ _ := response;
  chat_completions_create _ _ :=
    [mk_event [mk_choice (Some (mk_delta (Some (lit "## Summary"))))];
     mk_event [mk_choice (Some (mk_delta None))]]
|}.

Definition utf8 : Platform := platform UTF_8 fenced_stream.
Definition latin1 : Platform := platform ISO_8859_1 fenced_stream.

(** A project directory: the video, the subtitles and a plan. *)
Definition project : gmap path node :=
  <[ [lit "call.mp4"] := File [0; 1; 2] ]>
  (<[ [lit "call.srt"] := File (lit "1") ]>
  (<[ [lit "engineering_plan.md"] := File (lit "# Plan") ]> ∅)).

(** The same with a cache that holds the visual analysis only. *)
Definition project_with_visual_analysis : gmap path node :=
  <[ [lit ".cache"; lit "visual_analysis.json"] :=
       File (default [] (Utf8.encode (json_dumps float_text 2 false document))) ]>
  (<[ [lit ".cache"] := Dir ]> project).

Definition world (f : gmap path node) : World := mk_world f [] [] 0 [].

Definition args (phase : option video_to_plan.phase_choice)
    (gemini_key openai_key : option str) : video_to_plan.Args :=
  video_to_plan.mk_args (lit "/call.mp4") (lit "/call.srt")
    (lit "/engineering_plan.md") gemini_key openai_key phase.

Definition no_environ : video_to_plan.Environ := video_to_plan.mk_environ None None.

End Sample.

(** ** More sample projects *)

(** The sample project with a cache that holds a synthesis only, and
    with one whose visual analysis is not JSON. *)
Definition project_with_synthesis : gmap path node :=
  <[ [lit ".cache"; lit "synthesis.json"] :=
       File (default [] (Utf8.encode (json_dumps Sample.float_text 2 false Sample.document))) ]>
  (<[ [lit ".cache"] := Dir ]> Sample.project).

Definition project_with_damaged_cache : gmap path node :=
  <[ [lit ".cache"; lit "visual_analysis.json"] := File (lit "{") ]>
  project_with_synthesis.

(** A disk with nothing on it. *)
Definition empty_disk : gmap path node := ∅.

(** A platform whose Gemini stream and whose parser are other ones. *)
Definition with_answer (P : Platform) (response : list chunk)
    (loads : str -> option (json (pyfloat P))) : Platform := {|
  pyfloat := pyfloat P;
  time_time := time_time P;
  int_of_difference := int_of_difference P;
  floatstr := floatstr P;
  format_size_mb := format_size_mb P;
  now_isoformat := now_isoformat P;
  now_strftime_Y_m_d := now_strftime_Y_m_d P;
  locale_encoding := locale_encoding P;
  linesep := linesep P;
  resolve := resolve P;
  json_loads := loads;
  files_upload := files_upload P;
  files_get := files_get P;
  files_delete_fails := files_delete_fails P;
  generate_content_stream _ _ _ := response;
  chat_completions_create := chat_completions_create P
|}.

(** The sample platform when the model answers with an empty list. *)
Definition list_answer : Platform :=
  with_answer Sample.utf8 [mk_chunk (Some (lit "[]"))]
    (fun s => if bool_decide (s = lit "[]") then Some (JList []) else None).

(** * Properties *)

#[global] Arguments N.eqb : simpl never.
#[global] Arguments N.leb : simpl never.
#[global] Arguments N.ltb : simpl never.
#[global] Arguments lit : simpl never.

(** ** Strings *)

Section StringFacts.
Implicit Types s p t : str.

Lemma startswith_app p t : startswith (p ++ t) p = true.
Proof.
  induction p as [|a p IH]; simpl; [done|].
  by rewrite N.eqb_refl, IH.
Qed.

Lemma startswith_true s p : startswith s p = true -> exists t, s = p ++ t.
Proof.
  revert s; induction p as [|a p IH]; intros s H.
  - by exists s.
  - destruct s as [|b s]; simpl in H; [done|].
    apply andb_true_iff in H as [Hab Hs].
    apply N.eqb_eq in Hab as ->.
    destruct (IH _ Hs) as [t ->]. by exists t.
Qed.

Lemma endswith_app p t : endswith (t ++ p) p = true.
Proof. unfold endswith. rewrite rev_app_distr. apply startswith_app. Qed.

Lemma lstrip_idem s : lstrip (lstrip s) = lstrip s.
Proof.
  induction s as [|c s IH]; simpl; [done|].
  destruct (isspace c) eqn:E; [done|]. simpl. by rewrite E.
Qed.

Lemma lstrip_clean s : left_clean (lstrip s).
Proof.
  induction s as [|c s IH]; simpl; [done|].
  destruct (isspace c) eqn:E; [done|]. exact E.
Qed.

Lemma lstrip_of_clean s : left_clean s -> lstrip s = s.
Proof. destruct s as [|c s]; simpl; [done|]. by intros ->. Qed.

Lemma lstrip_snoc s c : isspace c = false -> lstrip (s ++ [c]) = lstrip s ++ [c].
Proof.
  intros Hc. induction s as [|a s IH]; simpl.
  - by rewrite Hc.
  - destruct (isspace a); [done|]. done.
Qed.

Lemma rstrip_keeps_clean s : left_clean s -> left_clean (rstrip s).
Proof.
  destruct s as [|c s]; [done|]. simpl. intros Hc.
  unfold rstrip. simpl. rewrite lstrip_snoc by done.
  rewrite rev_app_distr. simpl. exact Hc.
Qed.

Lemma rstrip_idem s : rstrip (rstrip s) = rstrip s.
Proof. unfold rstrip. by rewrite rev_involutive, lstrip_idem. Qed.

Lemma strip_idem s : strip (strip s) = strip s.
Proof.
  unfold strip.
  rewrite (lstrip_of_clean (rstrip (lstrip s))).
  - apply rstrip_idem.
  - apply rstrip_keeps_clean, lstrip_clean.
Qed.

(** [lstrip] and [strip] only take white space away, at the ends. *)
Lemma lstrip_suffix s : exists ws, s = ws ++ lstrip s.
Proof.
  induction s as [|c s [ws IH]]; simpl.
  - by exists [].
  - destruct (isspace c).
    + exists (c :: ws). simpl. by rewrite <- IH.
    + by exists [].
Qed.

Lemma strip_infix s : exists a b, s = a ++ strip s ++ b.
Proof.
  destruct (lstrip_suffix s) as [a Ha].
  destruct (lstrip_suffix (rev (lstrip s))) as [b Hb].
  exists a, (rev b). unfold strip, rstrip.
  rewrite <- rev_app_distr, <- Hb, rev_involutive. exact Ha.
Qed.

(** The leftmost occurrence of a one-character separator. *)
Lemma partition_char c s t :
  forallb (fun x => negb (x =? c)) s = true ->
  partition [c] (s ++ c :: t) = Some (s, t).
Proof.
  induction s as [|a s IH]; simpl; intros H.
  - by rewrite N.eqb_refl.
  - apply andb_true_iff in H as [Ha Hs].
    rewrite N.eqb_sym. apply negb_true_iff in Ha. rewrite Ha. simpl.
    by rewrite (IH Hs).
Qed.

Lemma partition_char_none c s :
  forallb (fun x => negb (x =? c)) s = true -> partition [c] s = None.
Proof.
  induction s as [|a s IH]; simpl; intros H; [done|].
  apply andb_true_iff in H as [Ha Hs].
  rewrite N.eqb_sym. apply negb_true_iff in Ha. rewrite Ha. simpl.
  by rewrite (IH Hs).
Qed.

Lemma partition_unfold sep s :
  partition sep s =
    if startswith s sep then Some ([], drop (length sep) s)
    else match s with
         | [] => None
         | c :: r =>
             match partition sep r with
             | Some (a, b) => Some (c :: a, b)
             | None => None
             end
         end.
Proof. by destruct s. Qed.

(** A separator that occurs is found. *)
Lemma partition_occurs sep a b : is_Some (partition sep (a ++ sep ++ b)).
Proof.
  induction a as [|x a [r IH]]; rewrite partition_unfold.
  - simpl. rewrite startswith_app. by eexists.
  - destruct (startswith _ sep); [by eexists|].
    simpl. rewrite IH. destruct r. by eexists.
Qed.

Lemma partition_at_start sep t :
  partition sep (sep ++ t) = Some ([], t).
Proof.
  rewrite partition_unfold, startswith_app.
  by rewrite drop_app_length.
Qed.

Lemma rsplit1_at_end sep t : rsplit1 sep (t ++ sep) = [t; []].
Proof.
  unfold rsplit1, rpartition.
  rewrite rev_app_distr, partition_at_start. simpl.
  by rewrite rev_involutive.
Qed.

Lemma join_nil (l : list str) : join [] l = concat l.
Proof.
  induction l as [|x l IH]; [done|].
  destruct l as [|y l]; simpl in *; [by rewrite app_nil_r|].
  by rewrite IH.
Qed.

End StringFacts.

(** ** Fence stripping *)

Section StripFences.
Import video_to_plan.

(** A text that, trimmed, does not open with a fence is only trimmed. *)
Lemma strip_fences_not_opened text :
  startswith (strip text) fence = false ->
  _strip_fences text = Ok (strip text).
Proof. unfold _strip_fences. by intros ->. Qed.

(** A text without any fence does not open with one. *)
Lemma absent_not_opened text :
  absent fence text -> startswith (strip text) fence = false.
Proof.
  unfold absent. intros Hnone.
  destruct (startswith (strip text) fence) eqn:E; [|done].
  apply startswith_true in E as [t Ht].
  destruct (strip_infix text) as (a & b & Htext).
  rewrite Ht, <- app_assoc in Htext.
  destruct (partition_occurs fence a (t ++ b)) as [r Hr].
  rewrite <- Htext in Hr. congruence.
Qed.

(** A text that opens with a fence and has a line break: the first
    line goes, then the closing fence if the rest ends with one. *)
Lemma strip_fences_opened text line rest :
  strip text = fence ++ line ++ [10] ++ rest ->
  no_newline line = true ->
  _strip_fences text =
    Ok (strip (if endswith rest fence
               then default rest (head (rsplit1 fence rest)) else rest)).
Proof.
  intros Htext Hline. unfold _strip_fences. rewrite Htext.
  rewrite startswith_app. unfold split1.
  change ([10] ++ rest) with (10 :: rest).
  rewrite (app_assoc fence line), (partition_char 10 (fence ++ line) rest).
  - cbn [index nth_error mbind except_bind].
    destruct (endswith rest fence); [|done].
    unfold rsplit1. by destruct (rpartition fence rest) as [[? ?]|].
  - unfold no_newline in Hline. by rewrite forallb_app, Hline.
Qed.

(** A text that opens with a fence and has no line break at all:
    [text.split("\n", 1)] has one element, and [[1]] raises. *)
Lemma strip_fences_no_newline text :
  startswith (strip text) fence = true ->
  no_newline (strip text) = true ->
  _strip_fences text = Err IndexError.
Proof.
  intros Hopen Hnl. unfold _strip_fences. rewrite Hopen.
  unfold split1. by rewrite (partition_char_none 10 _ Hnl).
Qed.

(** The function returns exactly on the other texts. *)
Lemma strip_fences_returns_iff text :
  (exists r, _strip_fences text = Ok r) <->
  (startswith (strip text) fence = false \/ no_newline (strip text) = false).
Proof.
  split.
  - intros [r Hr].
    destruct (startswith (strip text) fence) eqn:Hopen; [|by left].
    destruct (no_newline (strip text)) eqn:Hnl; [|by right].
    rewrite (strip_fences_no_newline _ Hopen Hnl) in Hr. done.
  - intros [Hopen|Hnl].
    + rewrite strip_fences_not_opened by done. by eexists.
    + unfold _strip_fences.
      destruct (startswith (strip text) fence); [|by eexists].
      unfold split1.
      assert (exists a b, partition [10] (strip text) = Some (a, b)) as (a & b & ->).
      { clear -Hnl. induction (strip text) as [|c s IH]; [done|].
        simpl in Hnl. rewrite partition_unfold. simpl.
        rewrite (N.eqb_sym 10 c).
        destruct (c =? 10) eqn:Ec; [by eexists _, _|].
        simpl in Hnl. destruct (IH Hnl) as (a & b & ->). by eexists _, _. }
      cbn [index nth_error mbind except_bind].
      destruct (endswith b fence); [|by eexists].
      unfold rsplit1. destruct (rpartition fence b) as [[? ?]|]; by eexists.
Qed.

(** C1.  When the trimmed text is a fence line, a body and a closing
    fence, [_strip_fences] returns the trimmed body: one opening fence
    line and one closing fence are removed, whatever the body
    contains.  On a text without any fence the function only trims,
    and applying it to its own result gives that result again. *)
Theorem C1_strip_fences_one_pair_and_idempotent :
  (forall text lang body,
      strip text = fence ++ lang ++ [10] ++ body ++ fence ->
      no_newline lang = true ->
      _strip_fences text = Ok (strip body))
  /\ (forall text,
        absent fence text ->
        _strip_fences text = Ok (strip text)
        /\ (_strip_fences text ≫= _strip_fences) = _strip_fences text).
Proof.
  split.
  - intros text lang body Htext Hlang.
    rewrite (strip_fences_opened text lang (body ++ fence) Htext Hlang).
    by rewrite endswith_app, rsplit1_at_end.
  - intros text Habs.
    pose proof (absent_not_opened _ Habs) as Hopen.
    rewrite strip_fences_not_opened by done. split; [done|].
    cbn [mbind except_bind].
    rewrite strip_fences_not_opened; rewrite strip_idem; done.
Qed.

Lemma C1_witness :
  _strip_fences (lit "  ```json" ++ [10] ++ lit "{}" ++ [10] ++ lit "```  ")
    = Ok (lit "{}")
  /\ _strip_fences (lit " {} ") = Ok (lit "{}").
Proof.
  split.
  - apply (proj1 C1_strip_fences_one_pair_and_idempotent _ (lit "json") (lit "{}" ++ [10]));
      reflexivity.
  - apply (proj2 C1_strip_fences_one_pair_and_idempotent (lit " {} ")). reflexivity.
Defined.

(** Only the outer pair goes: fences inside the body stay. *)
Example strip_fences_nested :
  _strip_fences (lit "```" ++ [10] ++ lit "```" ++ [10] ++ lit "x" ++ [10]
                 ++ lit "```" ++ [10] ++ lit "```")
  = Ok (lit "```" ++ [10] ++ lit "x" ++ [10] ++ lit "```").
Proof. reflexivity. Qed.

(** C10.  [_strip_fences] does not return on the text made of a fence
    alone: [text.split("\n", 1)[1]] raises [IndexError]. *)
Theorem C10_strip_fences_raises_on_lone_fence :
  _strip_fences (lit "```") = Err IndexError
  /\ _strip_fences (lit "```json {} ```") = Err IndexError.
Proof. split; reflexivity. Qed.

End StripFences.

(** ** Running effectful code *)

Lemma bind_run {A B} (m : M A) (k : A -> M B) (w : World) :
  (m ≫= k) w =
    match m w with
    | (Return a, w') => k a w'
    | (Raise e, w') => (Raise e, w')
    | (Exit c, w') => (Exit c, w')
    | (Diverge, w') => (Diverge, w')
    end.
Proof. reflexivity. Qed.

Lemma bind_return {A B} (m : M A) (k : A -> M B) (w w' : World) (a : A) :
  m w = (Return a, w') -> (m ≫= k) w = k a w'.
Proof. intros H. by rewrite bind_run, H. Qed.

Lemma bind_raise {A B} (m : M A) (k : A -> M B) (w w' : World) (e : exn) :
  m w = (Raise e, w') -> (m ≫= k) w = (Raise e, w').
Proof. intros H. by rewrite bind_run, H. Qed.

Lemma bind_exit {A B} (m : M A) (k : A -> M B) (w w' : World) (c : Z) :
  m w = (Exit c, w') -> (m ≫= k) w = (Exit c, w').
Proof. intros H. by rewrite bind_run, H. Qed.

(** ** The elapsed-time formatter *)

Section Elapsed.
Import video_to_plan.
Context (P : Platform).

(** The decimal text is the one of the Standard Library's printer. *)
Lemma uint_digits_string u :
  uint_digits u = bytes_of_string (DecimalString.NilEmpty.string_of_uint u).
Proof. induction u; simpl; by rewrite ?IHu. Qed.

Lemma str_of_int_string z :
  str_of_int z = bytes_of_string (DecimalString.NilEmpty.string_of_int (Z.to_int z)).
Proof.
  unfold str_of_int. destruct (Z.to_int z); simpl; by rewrite uint_digits_string.
Qed.

Lemma elapsed_run start w :
  _elapsed P start w =
    (let secs := int_of_difference P (time_time P (clock_reads w)) start in
     Return (if (secs <? 60)%Z then str_of_int secs ++ lit "s"
             else str_of_int (secs / 60) ++ lit "m " ++ str_of_int (secs mod 60) ++ lit "s"),
     mk_world (fs w) (stdout w) (stderr w) (S (clock_reads w)) (events w)).
Proof.
  unfold _elapsed. rewrite bind_run. cbn [time_now].
  by destruct (_ <? 60)%Z.
Qed.

(** C8.  When the whole number of seconds since [start] is [d], the
    formatter gives the decimal of [d] followed by "s" below 60, and
    the decimals of [d div 60] and [d mod 60] as "..m ..s" from 60 on;
    60 gives "1m 0s" and 125 gives "2m 5s". *)
Theorem C8_elapsed_format start w d :
  int_of_difference P (time_time P (clock_reads w)) start = d ->
  (0 <= d)%Z ->
  ((d < 60)%Z -> fst (_elapsed P start w) = Return (str_of_int d ++ lit "s"))
  /\ ((60 <= d)%Z ->
      fst (_elapsed P start w)
      = Return (str_of_int (d / 60) ++ lit "m " ++ str_of_int (d mod 60) ++ lit "s")
      /\ (0 <= d mod 60 < 60)%Z /\ (d = 60 * (d / 60) + d mod 60)%Z)
  /\ (d = 60%Z -> fst (_elapsed P start w) = Return (lit "1m 0s"))
  /\ (d = 125%Z -> fst (_elapsed P start w) = Return (lit "2m 5s")).
Proof.
  intros Hd Hpos. rewrite elapsed_run. cbn [fst]. rewrite Hd.
  split; [|split; [|split]].
  - intros Hlt. by rewrite (proj2 (Z.ltb_lt d 60) Hlt).
  - intros Hge. rewrite (proj2 (Z.ltb_ge d 60) Hge).
    split; [done|]. split; [apply Z.mod_pos_bound; lia|apply Z.div_mod; lia].
  - by intros ->.
  - by intros ->.
Qed.

End Elapsed.

(** ** The streaming accumulator *)

Section Stream.
Import video_to_plan.
Context (P : Platform).

Lemma kept_cons_text c r :
  kept (c :: r) =
    match chunk_text c with
    | Some (x :: t) => (x :: t) :: kept r
    | _ => kept r
    end.
Proof.
  unfold kept, fragments.
  destruct c as [[[|x t]|]]; cbn [omap list_omap chunk_text].
  - rewrite filter_cons_False; [done|]. by intros H.
  - by rewrite filter_cons_True.
  - done.
Qed.

Lemma kept_nil : kept [] = [].
Proof. done. Qed.

Lemma concat_kept response : concat (kept response) = concat (fragments response).
Proof.
  induction response as [|c r IH]; [done|].
  rewrite kept_cons_text. unfold fragments in *.
  destruct c as [[[|x t]|]]; cbn [omap list_omap chunk_text concat app]; by rewrite ?IH.
Qed.

Lemma kept_cons c r : kept (c :: r) = kept [c] ++ kept r.
Proof.
  rewrite !kept_cons_text, kept_nil. by destruct c as [[[|x t]|]].
Qed.

(** One turn of the loop returns, with the fragment appended when the
    chunk has a text that is not empty. *)
Lemma stream_body_run label start chunks char_count last_report c w :
  exists last_report' w',
    stream_body P label start (chunks, char_count, last_report) c w
    = (Return (chunks ++ kept [c],
               (char_count + Z.of_nat (length (concat (kept [c]))))%Z,
               last_report'), w').
Proof.
  unfold stream_body. rewrite kept_cons_text, kept_nil.
  destruct c as [[[|x t]|]]; cbn [truthy chunk_text default concat].
  - exists last_report, w. by rewrite app_nil_r, Z.add_0_r.
  - rewrite app_nil_r.
    destruct (_ >=? 2000)%Z.
    + rewrite bind_run, elapsed_run. cbn. by eexists _, _.
    + by eexists _, _.
  - exists last_report, w. by rewrite app_nil_r, Z.add_0_r.
Qed.

(** The whole loop returns, with all the kept fragments appended in
    the order of arrival. *)
Lemma stream_loop_run label start response chunks char_count last_report w :
  exists last_report' w',
    for_each response (stream_body P label start) (chunks, char_count, last_report) w
    = (Return (chunks ++ kept response,
               (char_count + Z.of_nat (length (concat (kept response))))%Z,
               last_report'), w').
Proof.
  revert chunks char_count last_report w.
  induction response as [|c r IH]; intros chunks char_count last_report w.
  - exists last_report, w. cbn. by rewrite app_nil_r, Z.add_0_r.
  - cbn [for_each].
    destruct (stream_body_run label start chunks char_count last_report c w)
      as (lr1 & w1 & H1).
    rewrite (bind_return _ _ _ _ _ H1).
    destruct (IH (chunks ++ kept [c])
                (char_count + Z.of_nat (length (concat (kept [c]))))%Z lr1 w1)
      as (lr2 & w2 & H2).
    exists lr2, w2. rewrite H2, (kept_cons c r), concat_app, length_app, app_assoc.
    rewrite Nat2Z.inj_add, Z.add_assoc. done.
Qed.

Lemma stream_gemini_run client model c label w :
  exists w',
    _stream_gemini P client model c label w
    = (Return (concat (fragments (response_of P model c w))), w').
Proof.
  unfold _stream_gemini, _progress, response_of.
  rewrite bind_run. cbn [print]. rewrite bind_run. cbn [time_now].
  rewrite bind_run. unfold client_models_generate_content_stream.
  rewrite bind_run. cbn [get_world]. rewrite bind_run. cbn [emit events].
  cbn [mret M_ret ret fs stdout stderr clock_reads events].
  rewrite bind_run.
  match goal with
  | |- context [for_each ?r (stream_body P label ?st) ?s ?w0] =>
      destruct (stream_loop_run label st r [] 0%Z 0%Z w0) as (lr & w1 & ->)
  end.
  rewrite bind_run, elapsed_run. cbv beta iota zeta.
  rewrite bind_run. cbn [print]. cbn [mret M_ret ret].
  eexists. rewrite join_nil. cbn [app]. by rewrite concat_kept.
Qed.

End Stream.

(** C7.  [_stream_gemini] returns the concatenation of the fragments of
    the response in their order; two responses that cut the same text
    differently give the same string. *)
Theorem C7_stream_is_concatenation :
  (forall P client model c label w,
      fst (video_to_plan._stream_gemini P client model c label w)
      = Return (concat (fragments (response_of P model c w))))
  /\ (forall P1 P2 client1 client2 model1 model2 c1 c2 label1 label2 w1 w2,
        concat (fragments (response_of P1 model1 c1 w1))
        = concat (fragments (response_of P2 model2 c2 w2)) ->
        fst (video_to_plan._stream_gemini P1 client1 model1 c1 label1 w1)
        = fst (video_to_plan._stream_gemini P2 client2 model2 c2 label2 w2)).
Proof.
  assert (forall P client model c label w,
      fst (video_to_plan._stream_gemini P client model c label w)
      = Return (concat (fragments (response_of P model c w)))) as Hone.
  { intros. destruct (stream_gemini_run P client model c label w) as [w' ->]. done. }
  split; [exact Hone|].
  intros. rewrite !Hone. by f_equal.
Qed.

(** ** What a computation adds to an output channel *)

#[global] Instance stderr_channel : Channel stderr.
Proof. by split. Qed.

#[global] Instance events_channel : Channel events.
Proof. by split. Qed.

Section Adds.
Context {X : Type} (proj : World -> list X) `{!Channel proj}.

Lemma keeps_adds {A} S (m : M A) : keeps proj m -> adds proj S m.
Proof. intros H w. exists []. by rewrite app_nil_r, H. Qed.

Lemma adds_nothing_keeps {A} (m : M A) : adds proj (fun _ => False) m -> keeps proj m.
Proof.
  intros H w. destruct (H w) as (new & -> & Hnew).
  destruct new as [|x new]; [by rewrite app_nil_r|].
  by apply Forall_cons in Hnew as [[] _].
Qed.

Lemma adds_weaken {A} (S S' : X -> Prop) (m : M A) :
  (forall x, S x -> S' x) -> adds proj S m -> adds proj S' m.
Proof.
  intros HS H w. destruct (H w) as (new & Hw & Hnew).
  exists new. split; [done|]. by eapply Forall_impl.
Qed.

Lemma adds_bind {A B} S (m : M A) (k : A -> M B) :
  adds proj S m -> (forall a, adds proj S (k a)) -> adds proj S (m ≫= k).
Proof.
  intros Hm Hk w. rewrite bind_run.
  destruct (Hm w) as (new & Hw & Hnew).
  destruct (m w) as [[a| | |] w1]; cbn [snd] in *; try by exists new.
  destruct (Hk a w1) as (new' & Hw' & Hnew').
  exists (new ++ new'). rewrite Hw', Hw, app_assoc. split; [done|].
  by apply Forall_app.
Qed.

Lemma keeps_bind {A B} (m : M A) (k : A -> M B) :
  keeps proj m -> (forall a, keeps proj (k a)) -> keeps proj (m ≫= k).
Proof.
  intros Hm Hk w. rewrite bind_run. specialize (Hm w).
  destruct (m w) as [[a| | |] w1]; cbn [snd] in *; try done.
  by rewrite Hk.
Qed.

Lemma keeps_ret {A} (a : A) : keeps proj (mret a).
Proof. done. Qed.

Lemma keeps_raise {A} e : keeps proj (@raise A e).
Proof. done. Qed.

Lemma keeps_sys_exit {A} c : keeps proj (@sys_exit A c).
Proof. done. Qed.

Lemma keeps_diverge {A} : keeps proj (@diverge A).
Proof. done. Qed.

Lemma keeps_lift {A} (x : except A) : keeps proj (lift x).
Proof. by destruct x. Qed.

Lemma keeps_get_world : keeps proj get_world.
Proof. done. Qed.

Lemma keeps_put_fs f : keeps proj (put_fs f).
Proof. intros w. apply channel_fs. Qed.

Lemma keeps_print msg : keeps proj (print msg).
Proof. intros w. apply channel_stdout. Qed.

Lemma keeps_path_exists p : keeps proj (path_exists p).
Proof. done. Qed.

Lemma keeps_try_except {A} (m h : M A) : keeps proj m -> keeps proj h -> keeps proj (try_except m h).
Proof.
  intros Hm Hh w. unfold try_except. specialize (Hm w).
  destruct (m w) as [[a| | |] w1]; cbn [snd] in *; try done.
  by rewrite Hh.
Qed.

Lemma keeps_for_each {A St} (l : list A) (body : St -> A -> M St) s :
  (forall s x, keeps proj (body s x)) -> keeps proj (for_each l body s).
Proof.
  intros Hb. revert s. induction l as [|x l IH]; intros s; cbn [for_each].
  - apply keeps_ret.
  - apply keeps_bind; [apply Hb | apply IH].
Qed.

Lemma keeps_mkdir parents exist_ok p : keeps proj (mkdir parents exist_ok p).
Proof.
  intros w. unfold mkdir. rewrite bind_run. cbn [get_world].
  destruct (node_at (fs w) p) as [[|]|]; [done|by destruct exist_ok|].
  destruct (existsb _ _); [done|].
  destruct (is_dir _ _); [apply channel_fs|].
  destruct parents; [apply channel_fs|done].
Qed.

Lemma keeps_open_for_writing p : keeps proj (open_for_writing p).
Proof.
  intros w. unfold open_for_writing. rewrite bind_run. cbn [get_world].
  destruct (is_dir _ p); [done|]. destruct (is_dir _ _); [done|].
  by destruct (existsb _ _).
Qed.

Lemma keeps_copy2 src dst : keeps proj (copy2 src dst).
Proof.
  intros w. unfold copy2. rewrite bind_run. cbn [get_world].
  destruct (node_at (fs w) src) as [[b|]|]; [|done|done].
  case_bool_decide; [done|].
  apply keeps_bind; [apply keeps_open_for_writing|intros; apply keeps_put_fs].
Qed.

Context (P : Platform).

Lemma keeps_time_now : keeps proj (time_now P).
Proof. intros w. apply channel_clock. Qed.

Lemma keeps_datetime_now : keeps proj promote_plan.datetime_now.
Proof. intros w. apply channel_clock. Qed.

Lemma keeps_write_text p data encoding : keeps proj (write_text P p data encoding).
Proof.
  unfold write_text. apply keeps_bind; [apply keeps_open_for_writing|intros _].
  intros w. rewrite bind_run. cbn [get_world].
  destruct (encode _ _); [apply channel_fs|].
  rewrite bind_run. cbn [put_fs snd raise]. apply channel_fs.
Qed.

Lemma keeps_read_text p encoding : keeps proj (read_text P p encoding).
Proof.
  intros w. unfold read_text. rewrite bind_run. cbn [get_world].
  destruct (node_at (fs w) p) as [[b|]|]; [|done|done].
  by destruct (decode _ b).
Qed.

Lemma keeps_loads s : keeps proj (loads P s).
Proof. intros w. unfold loads. by destruct (json_loads P s). Qed.

Lemma keeps_elapsed start : keeps proj (video_to_plan._elapsed P start).
Proof. intros w. rewrite elapsed_run. apply channel_clock. Qed.

End Adds.

Lemma keeps_stderr_emit e : keeps stderr (emit e).
Proof. done. Qed.

Lemma keeps_events_print_stderr msg : keeps events (print_stderr msg).
Proof. done. Qed.

Lemma adds_print_stderr (S : str -> Prop) msg : S msg -> adds stderr S (print_stderr msg).
Proof. intros H w. exists [msg]. split; [done|]. by constructor. Qed.

Lemma adds_emit (S : event -> Prop) e : S e -> adds events S (emit e).
Proof. intros H w. exists [e]. split; [done|]. by constructor. Qed.

Create HintDb keeps discriminated.

#[global] Hint Resolve keeps_ret keeps_raise keeps_sys_exit keeps_diverge keeps_lift
  keeps_get_world keeps_put_fs keeps_print keeps_path_exists keeps_mkdir
  keeps_open_for_writing keeps_copy2 keeps_time_now keeps_datetime_now
  keeps_write_text keeps_read_text keeps_loads keeps_elapsed
  keeps_stderr_emit keeps_events_print_stderr : keeps.

(** Goes through a computation made of binds, branches and loops, and
    leaves the steps that no hint covers. *)
Ltac keeps_step :=
  lazymatch goal with
  | |- Channel _ => apply _
  | |- keeps _ (@mbind M M_bind _ _ _ _) => apply keeps_bind; intros
  | |- keeps _ (if ?c then _ else _) => destruct c
  | |- keeps _ (match ?x with _ => _ end) => destruct x
  | |- keeps _ (try_except _ _) => apply keeps_try_except
  | |- keeps _ (for_each _ _ _) => apply keeps_for_each; intros
  | |- keeps _ _ => solve [auto with keeps typeclass_instances]
  end.

Ltac keeps_all := repeat keeps_step.

Section KeepsStderr.
Import video_to_plan.
Context (P : Platform).

Lemma keeps_stderr_files_upload client file : keeps stderr (client_files_upload P client file).
Proof. unfold client_files_upload. keeps_all. Qed.

Lemma keeps_stderr_files_get client name : keeps stderr (client_files_get P client name).
Proof. unfold client_files_get. keeps_all. Qed.

Lemma keeps_stderr_files_delete client name : keeps stderr (client_files_delete P client name).
Proof. unfold client_files_delete. keeps_all. Qed.

Lemma keeps_stderr_generate client model c t n :
  keeps stderr (client_models_generate_content_stream P client model c t n).
Proof. unfold client_models_generate_content_stream. keeps_all. Qed.

Lemma keeps_stderr_chat client model sc uc t n :
  keeps stderr (client_chat_completions_create P client model sc uc t n).
Proof. unfold client_chat_completions_create. keeps_all. Qed.

Hint Resolve keeps_stderr_files_upload keeps_stderr_files_get keeps_stderr_files_delete
  keeps_stderr_generate keeps_stderr_chat : keeps.

Lemma keeps_stderr_stream client model c label :
  keeps stderr (_stream_gemini P client model c label).
Proof. unfold _stream_gemini, _progress, stream_body. keeps_all. Qed.

Lemma keeps_stderr_poll fuel client poll_start video_file :
  keeps stderr (poll P fuel client poll_start video_file).
Proof.
  revert video_file. induction fuel as [|fuel IH]; intros video_file; cbn [poll].
  - keeps_all.
  - unfold _progress. keeps_all.
Qed.

Hint Resolve keeps_stderr_stream keeps_stderr_poll : keeps.

Lemma keeps_stderr_run_phase1 fuel video_path srt_content gemini_key cache_dir :
  keeps stderr (run_phase1 P fuel video_path srt_content gemini_key cache_dir).
Proof. unfold run_phase1, _progress. keeps_all. Qed.

Lemma keeps_stderr_run_phase2 visual_analysis srt_content gemini_key cache_dir :
  keeps stderr (run_phase2 P visual_analysis srt_content gemini_key cache_dir).
Proof. unfold run_phase2. keeps_all. Qed.

Lemma keeps_stderr_run_phase3 synthesis openai_key output_path :
  keeps stderr (run_phase3 P synthesis openai_key output_path).
Proof. unfold run_phase3, _progress, completion_body. keeps_all. Qed.

End KeepsStderr.

Section AddsSteps.
Context {X : Type} (proj : World -> list X) `{!Channel proj}.

Lemma adds_if {A} (S : X -> Prop) (c : bool) (m1 m2 : M A) :
  adds proj S m1 -> adds proj S m2 -> adds proj S (if c then m1 else m2).
Proof. by destruct c. Qed.

End AddsSteps.

(** The same walk for [adds]: what keeps the channel adds nothing. *)
Ltac adds_step :=
  lazymatch goal with
  | |- Channel _ => apply _
  | |- adds _ _ (@mbind M M_bind _ _ _ _) => apply adds_bind; intros
  | |- adds _ _ (if ?c then _ else _) => destruct c
  | |- adds _ _ (match ?x with _ => _ end) => destruct x
  | |- adds _ _ _ =>
      first [ solve [apply keeps_adds; [apply _ | auto with keeps typeclass_instances]]
            | apply adds_print_stderr
            | apply adds_emit ]
  end.

Ltac adds_all := repeat adds_step.

(** ** The file system under [mkdir] *)

Lemma set_fs_same w : set_fs (fs w) w = w.
Proof. by destruct w. Qed.

Lemma prefixes_length (p q : path) : q ∈ prefixes p -> (0 < length q <= length p)%nat.
Proof.
  revert q. induction p as [|c p IH]; intros q Hq; cbn in Hq.
  - by apply elem_of_nil in Hq.
  - apply elem_of_cons in Hq as [->|Hq]; [cbn; lia|].
    apply list_elem_of_fmap in Hq as (q' & -> & Hq').
    apply IH in Hq'. cbn. lia.
Qed.

Lemma prefixes_last (p : path) : p <> [] -> p ∈ prefixes p.
Proof.
  induction p as [|c p IH]; [done|]. intros _. cbn.
  destruct p as [|d p]; [by left|].
  right. apply list_elem_of_fmap. exists (d :: p). split; [done|]. by apply IH.
Qed.

Lemma child_not_prefix (p : path) (c : str) : p ++ [c] ∉ prefixes p.
Proof.
  intros H. apply prefixes_length in H. rewrite length_app in H. cbn in H. lia.
Qed.

Lemma lookup_make_dirs (f : gmap path node) (l : list path) (q : path) :
  foldr (fun q f => <[q := Dir]> f) f l !! q
  = if decide (q ∈ l) then Some Dir else f !! q.
Proof.
  induction l as [|x l IH]; cbn.
  - by rewrite decide_False by apply not_elem_of_nil.
  - destruct (decide (x = q)) as [->|Hne].
    + rewrite lookup_insert_eq. rewrite decide_True; [done|by left].
    + rewrite lookup_insert_ne by done. rewrite IH.
      destruct (decide (q ∈ l)).
      * rewrite decide_True; [done|by right].
      * rewrite decide_False; [done|]. intros [?|?]%elem_of_cons; by subst.
Qed.

Lemma grown_refl f p : grown f f p.
Proof. split; [done|]. split; [by left|done]. Qed.

Lemma proper_prefixes_spec (p q : path) :
  q ∈ prefixes p -> q = p \/ q ∈ proper_prefixes p.
Proof.
  unfold proper_prefixes, parent. revert q.
  induction p as [|c p IH]; intros q Hq; cbn in Hq.
  - by apply elem_of_nil in Hq.
  - apply elem_of_cons in Hq as [->|Hq].
    + destruct p as [|d p]; [by left|]. right. cbn. by left.
    + apply list_elem_of_fmap in Hq as (q' & -> & Hq').
      destruct (IH _ Hq') as [->|Hq'']; [by left|].
      right. destruct p as [|d p]; [by apply elem_of_nil in Hq'|].
      change (removelast (c :: d :: p)) with (c :: removelast (d :: p)).
      cbn [prefixes]. right. apply list_elem_of_fmap. by exists q'.
Qed.

Lemma mkdir_run parents exist_ok (p : path) (w : World) :
  (exists e, mkdir parents exist_ok p w = (Raise e, w))
  \/ (exists f, mkdir parents exist_ok p w = (Return tt, set_fs f w)
                /\ grown (fs w) f p /\ node_at f p = Some Dir).
Proof.
  unfold mkdir. rewrite bind_run. cbn [get_world].
  destruct (node_at (fs w) p) as [[b|]|] eqn:Hp.
  - left. by eexists.
  - destruct exist_ok; [|left; by eexists].
    right. exists (fs w). rewrite set_fs_same. split; [done|].
    split; [apply grown_refl|done].
  - assert (p <> []) as Hne by (intros ->; done).
    destruct (existsb _ _) eqn:Hfile; [left; by eexists|].
    destruct (is_dir (fs w) (parent p)) eqn:Hpar.
    + right. exists (<[p := Dir]> (fs w)). split; [done|]. split; [split; [|split]|].
      * intros q n Hq. destruct q as [|c q]; [done|]. cbn [node_at] in *.
        destruct (decide (p = c :: q)) as [->|Hpq].
        -- cbn [node_at] in Hp. congruence.
        -- by rewrite lookup_insert_ne.
      * intros q Hq. destruct q as [|c q]; [done|]. cbn [node_at] in *.
        destruct (decide (p = c :: q)) as [->|Hpq].
        -- right. by apply prefixes_last.
        -- left. by rewrite lookup_insert_ne.
      * intros q b Hq. destruct q as [|c q]; [done|]. cbn [node_at] in *.
        destruct (decide (p = c :: q)) as [->|Hpq].
        -- by rewrite lookup_insert_eq in Hq.
        -- by rewrite lookup_insert_ne in Hq.
      * destruct p; [done|]. cbn. by rewrite lookup_insert_eq.
    + destruct parents; [|left; by eexists].
      right. eexists. split; [done|]. split; [split; [|split]|].
      * intros q n Hq. destruct q as [|c q]; [done|]. cbn [node_at] in *.
        rewrite lookup_make_dirs. case_decide as Hin; [|done].
        destruct (proper_prefixes_spec _ _ Hin) as [Heq|Hpp].
        -- subst p. cbn [node_at] in Hp. congruence.
        -- destruct n as [b|]; [|done].
           assert (is_file (fs w) (c :: q) = true) as Hf
             by (unfold is_file; cbn; by rewrite Hq).
           apply not_true_iff_false in Hfile. destruct Hfile.
           apply existsb_exists. exists (c :: q). split; [|done].
           by apply list_elem_of_In.
      * intros q Hq. destruct q as [|c q]; [done|]. cbn [node_at] in *.
        rewrite lookup_make_dirs. case_decide; [by right|by left].
      * intros q b Hq. destruct q as [|c q]; [done|]. cbn [node_at] in *.
        rewrite lookup_make_dirs in Hq. by case_decide.
      * destruct p; [done|]. cbn [node_at]. rewrite lookup_make_dirs.
        rewrite decide_True; [done|]. by apply prefixes_last.
Qed.

Lemma prefixes_snoc (p : path) (d : str) :
  prefixes (p ++ [d]) = prefixes p ++ [p ++ [d]].
Proof.
  induction p as [|c p IH]; [done|].
  cbn [app prefixes]. rewrite IH, fmap_app. done.
Qed.

Lemma sibling_not_prefix (p : path) (c d : str) :
  c <> d -> p ++ [c] ∉ prefixes (p ++ [d]).
Proof.
  intros Hcd. rewrite prefixes_snoc, elem_of_app, list_elem_of_singleton.
  intros [H|H].
  - by apply child_not_prefix in H.
  - by apply app_inj_tail in H as [_ ?].
Qed.

Lemma grown_is_file f f' p q :
  grown f f' p -> is_file f q = false -> is_file f' q = false.
Proof.
  intros (_ & _ & Hfiles) Hq. unfold is_file in *.
  destruct (node_at f' q) as [[b|]|] eqn:E; [|done|done].
  by rewrite (Hfiles _ _ E) in Hq.
Qed.

Lemma grown_absent f f' p q :
  grown f f' p -> q ∉ prefixes p -> node_at f q = None -> node_at f' q = None.
Proof. intros (_ & Hnew & _) Hq Hnone. by destruct (Hnew _ Hnone). Qed.

(** A path made with a plain name, as all the names of the scripts are. *)
Lemma joinpath_name (p : path) (s : str) :
  startswith s [47] = false -> parts s = [s] -> joinpath p s = p ++ [s].
Proof. unfold joinpath. by intros -> ->. Qed.

#[global] Hint Resolve keeps_stderr_files_upload keeps_stderr_files_get
  keeps_stderr_files_delete keeps_stderr_generate keeps_stderr_chat
  keeps_stderr_stream keeps_stderr_poll keeps_stderr_run_phase1
  keeps_stderr_run_phase2 keeps_stderr_run_phase3 : keeps.

(** ** The driver: credentials *)

Section Credentials.
Import video_to_plan.
Context (P : Platform).

(** [any(p in [1, 2] for p in phases_to_run)] asks whether phase 1 or
    phase 2 is requested. *)
Lemma any_phase_1_2 args :
  existsb (fun p => py_in p [1; 2]%Z) (phases_to_run_of args)
  = py_in 1 (phases_to_run_of args) || py_in 2 (phases_to_run_of args).
Proof. unfold phases_to_run_of. by destruct (phase args) as [[]|]. Qed.

Lemma not_a_key_error_prefix (line : str) :
  take 8 line <> take 8 gemini_key_error ->
  take 8 line <> take 8 openai_key_error ->
  not_a_key_error line.
Proof. intros Hg Ho. split; intros ->; done. Qed.

Lemma video_error_not_key p :
  not_a_key_error (lit "Error: Video file not found: " ++ str_of_path p).
Proof. apply not_a_key_error_prefix; vm_compute; discriminate. Qed.

Lemma subtitle_error_not_key p :
  not_a_key_error (lit "Error: Subtitle file not found: " ++ str_of_path p).
Proof. apply not_a_key_error_prefix; vm_compute; discriminate. Qed.

Lemma phase2_error_not_key p : not_a_key_error (phase2_needs_phase1_error p).
Proof. apply not_a_key_error_prefix; vm_compute; discriminate. Qed.

Lemma phase3_error_not_key p : not_a_key_error (phase3_needs_phase2_error p).
Proof. apply not_a_key_error_prefix; vm_compute; discriminate. Qed.

(** Once both key checks are passed, no key diagnostic is printed. *)
Lemma main_keys_present fuel args environ :
  (py_in 1 (phases_to_run_of args) || py_in 2 (phases_to_run_of args))
    && negb (truthy (py_or (gemini_key args) (GEMINI_API_KEY environ))) = false ->
  py_in 3 (phases_to_run_of args)
    && negb (truthy (py_or (openai_key args) (OPENAI_API_KEY environ))) = false ->
  adds stderr not_a_key_error (main P fuel args environ).
Proof.
  intros Hg Ho. unfold main. cbv zeta.
  rewrite any_phase_1_2, Hg, Ho.
  adds_all;
    auto using video_error_not_key, subtitle_error_not_key,
      phase2_error_not_key, phase3_error_not_key.
Qed.

(** C3.  The driver asks for the Gemini key exactly when phase 1 or
    phase 2 is requested and for the OpenAI key exactly when phase 3
    is.  When a needed key is missing the run ends with [sys.exit(1)]
    and has done nothing but print the diagnostic on [stderr]; when
    none is missing, no key diagnostic is printed at all. *)
Theorem C3_credentials_checked_first fuel args environ w :
  let gemini := py_or (gemini_key args) (GEMINI_API_KEY environ) in
  let openai := py_or (openai_key args) (OPENAI_API_KEY environ) in
  let phases := phases_to_run_of args in
  let gemini_missing := (py_in 1 phases || py_in 2 phases) && negb (truthy gemini) in
  let openai_missing := py_in 3 phases && negb (truthy openai) in
  let run := main P fuel args environ w in
  (gemini_missing = true -> run = (Exit 1%Z, with_stderr w [gemini_key_error]))
  /\ (gemini_missing = false -> openai_missing = true ->
      run = (Exit 1%Z, with_stderr w [openai_key_error]))
  /\ (gemini_missing = false -> openai_missing = false ->
      exists new, stderr (snd run) = stderr w ++ new
                  /\ (gemini_key_error ∉ new) /\ (openai_key_error ∉ new)).
Proof.
  cbv zeta. split; [|split].
  - intros Hg. unfold main. cbv zeta. rewrite any_phase_1_2, Hg. reflexivity.
  - intros Hg Ho. unfold main. cbv zeta. rewrite any_phase_1_2, Hg, Ho. reflexivity.
  - intros Hg Ho.
    destruct (main_keys_present fuel args environ Hg Ho w) as (new & Hnew & Hall).
    exists new. split; [done|].
    rewrite Forall_forall in Hall.
    split; intros Hin; apply Hall in Hin; destruct Hin; done.
Qed.

End Credentials.

(** Runs the steps that are binds of prints, tests and other
    elementary actions. *)
Lemma bind_eq {A B} (m : M A) (k : A -> M B) (w : World) :
  bind m k w =
    match m w with
    | (Return a, w') => k a w'
    | (Raise e, w') => (Raise e, w')
    | (Exit c, w') => (Exit c, w')
    | (Diverge, w') => (Diverge, w')
    end.
Proof. reflexivity. Qed.

Ltac mrun :=
  cbv beta iota zeta delta
    [mbind M_bind mret M_ret bind ret raise sys_exit diverge lift print
     print_stderr emit get_world put_fs path_exists negb];
  cbn [fs stdout stderr clock_reads events set_fs fst snd].

(** ** Promotion *)

Section Promotion.
Import promote_plan.
Context (P : Platform).

Lemma promote_existing name plan_path cache_dir output_root w :
  is_Some (node_at (fs w) (joinpath output_root name)) ->
  promote P name plan_path cache_dir output_root w
  = (Exit 1%Z, with_stderr w (exists_error (joinpath output_root name))).
Proof.
  intros Hex. unfold promote. cbv zeta. mrun.
  rewrite bool_decide_eq_true_2 by done. mrun.
  unfold with_stderr, exists_error. by rewrite <- app_assoc.
Qed.

Lemma is_dir_is_Some f p : is_dir f p = true -> is_Some (node_at f p).
Proof. unfold is_dir. destruct (node_at f p); [by eexists|done]. Qed.

(** C4.  When the destination directory exists, [promote] ends with
    [sys.exit(1)] after two lines on [stderr], and so does the script;
    the file system is the one it started with, nothing is printed on
    [stdout] by [promote] and no other effect takes place. *)
Theorem C4_promote_refuses_existing_destination :
  (forall name plan_path cache_dir output_root w,
      is_dir (fs w) (joinpath output_root name) = true ->
      promote P name plan_path cache_dir output_root w
      = (Exit 1%Z, with_stderr w (exists_error (joinpath output_root name))))
  /\ (forall args w,
        is_dir (fs w) (joinpath (resolve P (output_root args)) (name args)) = true ->
        exit_status (fst (main P args w)) = Some 1%Z
        /\ fs (snd (main P args w)) = fs w
        /\ events (snd (main P args w)) = events w).
Proof.
  split.
  - intros. apply promote_existing. by apply is_dir_is_Some.
  - intros args w Hdir. apply is_dir_is_Some in Hdir.
    unfold main. cbv zeta. mrun.
    destruct (bool_decide _); mrun; [|done].
    destruct (bool_decide _); mrun; rewrite promote_existing by done; done.
Qed.

End Promotion.

(** ** File actions, case by case *)

Section FileActions.
Context (P : Platform).

Lemma open_for_writing_run p w :
  (exists e, open_for_writing p w = (Raise e, w))
  \/ open_for_writing p w = (Return tt, w).
Proof.
  unfold open_for_writing. mrun.
  destruct (is_dir (fs w) p); [left; by eexists|].
  destruct (is_dir (fs w) (parent p)); [by right|].
  destruct (existsb _ _); left; by eexists.
Qed.

Lemma copy2_run src dst w :
  (exists e, copy2 src dst w = (Raise e, w))
  \/ (exists b,
        node_at (fs w) src = Some (File b)
        /\ copy2 src dst w
           = (Return tt,
              set_fs (<[(if is_dir (fs w) dst then dst ++ [List.last src []] else dst)
                        := File b]> (fs w)) w)).
Proof.
  unfold copy2. mrun.
  destruct (node_at (fs w) src) as [[b|]|]; [|left; by eexists|left; by eexists].
  case_bool_decide; [left; by eexists|].
  destruct (open_for_writing_run
              (if is_dir (fs w) dst then dst ++ [List.last src []] else dst) w)
    as [[e ->]| ->]; [left; by eexists|].
  right. by exists b.
Qed.

Lemma write_text_run p data encoding w :
  (exists e w', write_text P p data encoding w = (Raise e, w'))
  \/ (exists b,
        encode (default (locale_encoding P) encoding) (newlines_out (linesep P) data)
        = Some b
        /\ write_text P p data encoding w = (Return tt, set_fs (<[p := File b]> (fs w)) w)).
Proof.
  unfold write_text. mrun.
  destruct (open_for_writing_run p w) as [[e ->]| ->]; [left; by eexists _, _|].
  mrun. destruct (encode _ _) as [b|]; [right; by exists b|].
  left. mrun. by eexists _, _.
Qed.

End FileActions.

Lemma wf_fs_parent f p n :
  wf_fs f = true -> f !! p = Some n -> is_dir f (parent p) = true.
Proof.
  unfold wf_fs. rewrite forallb_forall. intros Hwf Hp.
  apply (Hwf (p, n)). apply list_elem_of_In. by apply elem_of_map_to_list.
Qed.

Lemma node_at_snoc f (p : path) c : node_at f (p ++ [c]) = f !! (p ++ [c]).
Proof. by destruct p. Qed.

(** In a well-formed file system the ancestors of a node exist. *)
Lemma wf_fs_ancestor f (p q : path) :
  wf_fs f = true -> is_Some (node_at f (p ++ q)) -> is_Some (node_at f p).
Proof.
  intros Hwf. induction q as [|c q IH] using rev_ind.
  - by rewrite app_nil_r.
  - rewrite app_assoc, node_at_snoc. intros [n Hn].
    apply IH, is_dir_is_Some.
    apply (wf_fs_parent _ _ _ Hwf) in Hn.
    unfold parent in Hn. by rewrite removelast_last in Hn.
Qed.

(** Nothing lies under a path that does not exist. *)
Lemma wf_fs_fresh f (p q : path) :
  wf_fs f = true -> node_at f p = None -> node_at f (p ++ q) = None.
Proof.
  intros Hwf Hp. destruct (node_at f (p ++ q)) as [m|] eqn:E; [|done].
  destruct (wf_fs_ancestor f p q Hwf) as [n Hn]; [by eexists|]. congruence.
Qed.

(** ** Promotion when the cache has no synthesis *)

Section PromotionWithoutSynthesis.
Import promote_plan.
Context (P : Platform).

(** No line of the README is the synthesis bullet unless the synthesis
    was copied; the first character tells the other lines apart. *)
Lemma readme_lines_without_synthesis name date copied_artifacts :
  lit "synthesis.json" ∉ copied_artifacts ->
  (synthesis_line ∉ readme_lines_of name date copied_artifacts)
  /\ (prd_line ∈ readme_lines_of name date copied_artifacts)
  /\ (metadata_line ∈ readme_lines_of name date copied_artifacts).
Proof.
  intros Hsyn. unfold readme_lines_of. cbv zeta.
  rewrite (bool_decide_eq_false_2 _ Hsyn).
  assert (forall x : str, take 1 x <> take 1 synthesis_line -> synthesis_line <> x)
    as Hfirst by (intros x Hx Heq; by rewrite <- Heq in Hx).
  split; [|split].
  - destruct (bool_decide _);
      rewrite !elem_of_app, !elem_of_cons, elem_of_nil;
      intros H; repeat destruct H as [H|H]; try done; revert H;
        first [ apply Hfirst; vm_compute; discriminate
              | vm_compute; discriminate ].
  - destruct (bool_decide _); rewrite !elem_of_app, !elem_of_cons; tauto.
  - destruct (bool_decide _); rewrite !elem_of_app, !elem_of_cons; tauto.
Qed.

(** The turn of the loop for an artifact the cache does not have
    returns at once: nothing is copied, printed or raised. *)
Lemma copy_artifact_absent cache_dir dest copied_artifacts filename w :
  node_at (fs w) (joinpath cache_dir filename) = None ->
  copy_artifact cache_dir dest copied_artifacts filename w
  = (Return copied_artifacts, w).
Proof.
  intros Habs. unfold copy_artifact. cbv zeta. mrun.
  rewrite bool_decide_eq_false_2; [done|]. rewrite Habs. by intros [? ?].
Qed.

Lemma on_return_bind {A B} (m : M A) (k : A -> M B) w (Q : B -> World -> Prop) :
  on_return (m w) (fun a w' => on_return (k a w') Q) -> on_return ((m ≫= k) w) Q.
Proof. rewrite bind_run. by destruct (m w) as [[a| | |] w']. Qed.

Lemma on_return_mono {A} (r : outcome A * World) (Q Q' : A -> World -> Prop) :
  on_return r Q -> (forall a w', Q a w' -> Q' a w') -> on_return r Q'.
Proof. destruct r as [[a| | |] w']; cbn; auto. Qed.

(** One turn of the loop: either nothing happens, or the artifact is a
    regular file of the cache, it is copied and its name recorded. *)
Lemma copy_artifact_turn cache_dir dest copied_artifacts filename w :
  on_return (copy_artifact cache_dir dest copied_artifacts filename w)
    (fun copied' w' =>
       (copied' = copied_artifacts /\ w' = w)
       \/ (copied' = copied_artifacts ++ [filename]
           /\ is_file (fs w) (joinpath cache_dir filename) = true
           /\ exists dst b,
               (dst = joinpath (joinpath dest (lit "artifacts")) filename
                \/ dst = joinpath (joinpath dest (lit "artifacts")) filename
                         ++ [List.last (joinpath cache_dir filename) []])
               /\ fs w' = <[dst := File b]> (fs w))).
Proof.
  unfold copy_artifact. cbv zeta. apply on_return_bind. cbn [path_exists on_return].
  case_bool_decide; [|by left].
  apply on_return_bind.
  match goal with
  | |- context [copy2 ?a ?b ?w0] =>
      destruct (copy2_run a b w0) as [[e ->]|(b0 & Hb & ->)]; [exact I|]
  end.
  cbn [on_return]. apply on_return_bind. cbn [print on_return mret M_ret ret].
  right. split; [done|]. split; [unfold is_file; by rewrite Hb|].
  eexists _, b0. split; [|done].
  destruct (is_dir (fs w) _); [by right|by left].
Qed.

(** The loop over the two artifact names, when the cache holds no
    regular file named [synthesis.json]: if it returns, the synthesis
    is not among the copied artifacts. *)
Lemma artifacts_loop_without_synthesis cache_dir dest w :
  is_file (fs w) (joinpath cache_dir (lit "synthesis.json")) = false ->
  on_return
    (for_each [lit "visual_analysis.json"; lit "synthesis.json"]
       (copy_artifact cache_dir dest) [] w)
    (fun copied_artifacts _ => lit "synthesis.json" ∉ copied_artifacts).
Proof.
  intros Hsyn. cbn [for_each].
  assert (lit "synthesis.json" ∉ [lit "visual_analysis.json"]) as Hne.
  { rewrite elem_of_cons, elem_of_nil. intros [H|[]]. vm_compute in H. discriminate. }
  apply on_return_bind.
  eapply on_return_mono; [apply copy_artifact_turn|].
  intros copied w1 Hfirst. cbv beta.
  assert (is_file (fs w1) (joinpath cache_dir (lit "synthesis.json")) = false
          /\ lit "synthesis.json" ∉ copied) as [Hsyn1 Hcopied].
  { destruct Hfirst as [[-> ->]|(-> & _ & dst & b & Hdst & ->)].
    - split; [done|apply not_elem_of_nil].
    - split; [|done].
      rewrite !joinpath_name in * by (vm_compute; reflexivity).
      unfold is_file in *. rewrite node_at_snoc in *.
      rewrite lookup_insert_ne; [done|].
      destruct Hdst as [-> | ->]; rewrite ?last_last;
        intros Heq; apply app_inj_tail in Heq as [_ Heq];
        vm_compute in Heq; discriminate. }
  apply on_return_bind.
  eapply on_return_mono; [apply copy_artifact_turn|].
  intros copied' w2 [[-> ->]|(_ & Hfile & _)]; [done|]. congruence.
Qed.

Lemma on_return_now {A} (m : M A) w a w' (Q : A -> World -> Prop) :
  m w = (Return a, w') -> Q a w' -> on_return (m w) Q.
Proof. by intros ->. Qed.

(** One step through a computation of which only the returning runs
    matter: a bind is entered, an action that cannot fail is run, an
    action on files is split in its two cases. *)
Ltac wp_step :=
  lazymatch goal with
  | |- on_return (@mbind M M_bind _ _ _ _ _) _ => apply on_return_bind
  | |- on_return (sys_exit _ _) _ => exact I
  | |- on_return (raise _ _) _ => exact I
  | |- on_return (mkdir ?a ?b ?p ?w0) _ =>
      let f := fresh "f" in
      let Hg := fresh "Hg" in
      let Hd := fresh "Hd" in
      destruct (mkdir_run a b p w0) as [[? ->]|(f & -> & Hg & Hd)];
      [exact I|cbn [on_return fs set_fs] in *]
  | |- on_return (copy2 ?a ?b ?w0) _ =>
      let b0 := fresh "b" in
      let Hb := fresh "Hb" in
      destruct (copy2_run a b w0) as [[? ->]|(b0 & Hb & ->)];
      [exact I|cbn [on_return fs set_fs] in *]
  | |- on_return (write_text ?P0 ?p ?d ?e ?w0) _ =>
      let b0 := fresh "b" in
      let Hb := fresh "Henc" in
      destruct (write_text_run P0 p d e w0) as [(? & ? & ->)|(b0 & Hb & ->)];
      [exact I|cbn [on_return fs set_fs] in *]
  | |- on_return ((if _ then _ else _) _) _ => fail "a test"
  | |- on_return _ _ =>
      eapply on_return_now; [reflexivity|cbv beta; cbn [fs set_fs] in *]
  end.

(** The two files [promote] writes last, when it returns and the cache
    had no [synthesis.json]. *)
Lemma promote_without_synthesis name plan_path cache_dir output_root w :
  wf_fs (fs w) = true ->
  node_at (fs w) (joinpath cache_dir (lit "synthesis.json")) = None ->
  on_return (promote P name plan_path cache_dir output_root w)
    (fun dest w' =>
       dest = joinpath output_root name
       /\ exists copied_artifacts promoted_at date,
           (lit "synthesis.json" ∉ copied_artifacts)
           /\ holds_text P (fs w')
                (joinpath (joinpath dest (lit "artifacts")) (lit "metadata.json"))
                (dumps P 2 true
                   (metadata_of P name promoted_at plan_path cache_dir
                      copied_artifacts) ++ [10])
           /\ holds_text P (fs w') (joinpath dest (lit "README.md"))
                (join [10] (readme_lines_of name date copied_artifacts))).
Proof.
  intros Hwf Hsyn. unfold promote. cbv zeta.
  remember (joinpath output_root name) as dest eqn:Hdest.
  do 2 wp_step. wp_step.
  case_bool_decide as Hex; [repeat wp_step|].
  assert (node_at (fs w) dest = None) as Hnone.
  { destruct (node_at (fs w) dest); [destruct Hex; by eexists|done]. }
  repeat wp_step.
  rewrite !joinpath_name in * by (vm_compute; reflexivity).
  assert (is_dir f0 (dest ++ [lit "PRD.md"]) = false) as ->.
  { unfold is_dir.
    rewrite (grown_absent _ _ _ _ Hg0); [done| |].
    - apply sibling_not_prefix. vm_compute. discriminate.
    - apply (grown_absent _ _ _ _ Hg); [apply child_not_prefix|].
      by apply wf_fs_fresh. }
  eapply on_return_mono.
  { apply artifacts_loop_without_synthesis.
    rewrite joinpath_name by (vm_compute; reflexivity).
    cbn [fs]. unfold is_file. rewrite node_at_snoc, lookup_insert_ne.
    - rewrite <- node_at_snoc.
      apply (grown_is_file _ _ _ _ Hg0), (grown_is_file _ _ _ _ Hg).
      unfold is_file. by rewrite Hsyn.
    - intros Heq. apply app_inj_tail in Heq as [_ Heq].
      vm_compute in Heq. discriminate. }
  intros copied_artifacts w3 Hcopied. cbv beta.
  repeat wp_step.
  split; [done|]. eexists copied_artifacts, _, _. split; [done|].
  rewrite !joinpath_name by (vm_compute; reflexivity).
  split; eexists; (split; [|eassumption]); rewrite node_at_snoc.
  - rewrite lookup_insert_ne, lookup_insert_eq; [done|].
    intros Heq. apply (f_equal length) in Heq. rewrite !length_app in Heq.
    cbn in Heq. lia.
  - by rewrite lookup_insert_eq.
Qed.

(** *** When the promotion runs to its end *)

Lemma returns_bind {A B} (m : M A) (k : A -> M B) w (Q : B -> World -> Prop) :
  returns (m w) (fun a w' => returns (k a w') Q) -> returns ((m ≫= k) w) Q.
Proof. rewrite bind_run. by destruct (m w) as [[a| | |] w']. Qed.

Lemma returns_now {A} (m : M A) w a w' (Q : A -> World -> Prop) :
  m w = (Return a, w') -> Q a w' -> returns (m w) Q.
Proof. by intros ->. Qed.

Lemma returns_mono {A} (r : outcome A * World) (Q Q' : A -> World -> Prop) :
  returns r Q -> (forall a w', Q a w' -> Q' a w') -> returns r Q'.
Proof. destruct r as [[a| | |] w']; cbn; auto. Qed.

Lemma returns_on_return {A} (r : outcome A * World) (Q : A -> World -> Prop) :
  returns r Q -> on_return r Q.
Proof. by destruct r as [[a| | |] w']. Qed.

Lemma returns_run {A} (r : outcome A * World) (Q : A -> World -> Prop) :
  returns r Q -> exists a w', r = (Return a, w') /\ Q a w'.
Proof. destruct r as [[a| | |] w']; [by exists a, w'|done..]. Qed.

(** [mkdir] succeeds on a new path that no file blocks, when its parent
    is a directory or [parents=True]. *)
Lemma mkdir_returns parents (p : path) w :
  node_at (fs w) p = None ->
  existsb (is_file (fs w)) (proper_prefixes p) = false ->
  parents = true \/ is_dir (fs w) (parent p) = true ->
  exists f, mkdir parents false p w = (Return tt, set_fs f w)
            /\ grown (fs w) f p /\ node_at f p = Some Dir.
Proof.
  intros Hp Hfile Hpar.
  destruct (mkdir_run parents false p w) as [[e He]|H]; [exfalso|done].
  revert He. unfold mkdir. rewrite bind_run. cbn [get_world]. rewrite Hp, Hfile.
  destruct (is_dir (fs w) (parent p)); [done|]. by destruct Hpar as [->|?].
Qed.

Lemma copy2_returns src dst b w :
  node_at (fs w) src = Some (File b) ->
  node_at (fs w) dst = None ->
  is_dir (fs w) (parent dst) = true ->
  copy2 src dst w = (Return tt, set_fs (<[dst := File b]> (fs w)) w).
Proof.
  intros Hs Hd Hp.
  assert (is_dir (fs w) dst = false) as Hnd by (unfold is_dir; by rewrite Hd).
  unfold copy2, open_for_writing. mrun. rewrite Hs, Hnd.
  rewrite bool_decide_eq_false_2 by (intros ->; congruence).
  mrun. by rewrite Hnd, Hp.
Qed.

Lemma write_text_returns p data encoding b w :
  node_at (fs w) p = None ->
  is_dir (fs w) (parent p) = true ->
  encode (default (locale_encoding P) encoding) (newlines_out (linesep P) data) = Some b ->
  write_text P p data encoding w = (Return tt, set_fs (<[p := File b]> (fs w)) w).
Proof.
  intros Hp Hpar Henc.
  assert (is_dir (fs w) p = false) as Hnd by (unfold is_dir; by rewrite Hp).
  unfold write_text, open_for_writing. mrun. by rewrite Hnd, Hpar, Henc.
Qed.

(** ASCII text is its own UTF-8 encoding. *)
Lemma utf8_encode_ascii (s : str) :
  Forall (fun c => c < 128) s -> Utf8.encode s = Some s.
Proof.
  induction 1 as [|c s Hc _ IH]; [done|]. cbn [Utf8.encode].
  unfold Utf8.encode_char. rewrite (proj2 (N.ltb_lt c 128) Hc), IH. done.
Qed.

Lemma utf8_encode_app (a b : str) :
  is_Some (Utf8.encode a) -> is_Some (Utf8.encode b) -> is_Some (Utf8.encode (a ++ b)).
Proof.
  intros [x Hx] Hb. revert x Hx. induction a as [|c a IH]; intros x Hx; [done|].
  cbn [app Utf8.encode] in *.
  destruct (Utf8.encode_char c); [|done].
  destruct (Utf8.encode a) as [y|]; [|done].
  destruct (IH y eq_refl) as [z ->]. by eexists.
Qed.

Lemma utf8_encode_concat (l : list str) :
  Forall (fun s => is_Some (Utf8.encode s)) l -> is_Some (Utf8.encode (concat l)).
Proof.
  induction 1 as [|s l Hs _ IH]; [by eexists|]. by apply utf8_encode_app.
Qed.

Lemma utf8_encode_chars (s : str) :
  is_Some (Utf8.encode s) -> Forall (fun c => is_Some (Utf8.encode [c])) s.
Proof.
  intros [x Hx]. revert x Hx.
  induction s as [|c s IH]; intros x Hx; [constructor|].
  cbn [Utf8.encode] in Hx.
  destruct (Utf8.encode_char c) eqn:Ec; [|done].
  destruct (Utf8.encode s) as [y|]; [|done].
  constructor; [cbn [Utf8.encode]; rewrite Ec; by eexists|by eapply IH].
Qed.

Lemma utf8_encode_newlines_out (sep s : str) :
  is_Some (Utf8.encode sep) -> is_Some (Utf8.encode s) ->
  is_Some (Utf8.encode (newlines_out sep s)).
Proof.
  intros Hsep Hs. unfold newlines_out. apply utf8_encode_concat, Forall_fmap.
  eapply Forall_impl; [apply (utf8_encode_chars _ Hs)|].
  intros c Hc. unfold compose. by destruct (c =? 10).
Qed.

Lemma hex_digit_ascii d : hex_digit (N.land d 15) < 128.
Proof.
  change 15 with (N.ones 4). rewrite N.land_ones.
  pose proof (N.mod_lt d (2 ^ 4)) as H. unfold hex_digit.
  destruct (_ <? 10); lia.
Qed.

Lemma hex4_ascii c : Forall (fun c => c < 128) (hex4 c).
Proof. unfold hex4. repeat constructor; apply hex_digit_ascii. Qed.

Lemma escape_char_ascii c : Forall (fun c => c < 128) (escape_char true c).
Proof.
  unfold escape_char. cbn [negb].
  repeat lazymatch goal with
         | |- context [if ?x =? ?y then _ else _] =>
             destruct (x =? y); [by repeat constructor|]
         end.
  destruct (c <? 32); [apply Forall_app; split; [by repeat constructor|apply hex4_ascii]|].
  destruct (c <? 127) eqn:E.
  { apply N.ltb_lt in E. constructor; [lia|constructor]. }
  destruct (c <? 65536).
  - apply Forall_app; split; [by repeat constructor|apply hex4_ascii].
  - cbv zeta. repeat (apply Forall_app; split);
      first [apply hex4_ascii | by repeat constructor].
Qed.

(** With [ensure_ascii=True] a string literal of a document is ASCII. *)
Lemma encode_basestring_ascii (s : str) :
  Forall (fun c => c < 128) (encode_basestring true s).
Proof.
  unfold encode_basestring. apply Forall_app. split; [by repeat constructor|].
  apply Forall_app. split; [|by repeat constructor].
  apply Forall_concat, Forall_fmap, Forall_forall. intros c _.
  apply escape_char_ascii.
Qed.

Lemma ascii_forallb (s : str) :
  forallb (fun c => c <? 128) s = true -> Forall (fun c => c < 128) s.
Proof.
  rewrite forallb_forall, Forall_forall. intros H c Hc.
  apply N.ltb_lt, H. by apply list_elem_of_In.
Qed.

Lemma join_ascii (sep : str) (l : list str) :
  Forall (fun c => c < 128) sep -> Forall (Forall (fun c => c < 128)) l ->
  Forall (fun c => c < 128) (join sep l).
Proof.
  intros Hsep. induction 1 as [|x l Hx Hl IH]; [constructor|].
  destruct l as [|y l]; [done|].
  change (join sep (x :: y :: l)) with (x ++ sep ++ join sep (y :: l)).
  by repeat (apply Forall_app; split).
Qed.

(** The pieces of a text that is ASCII by construction. *)
Ltac ascii_step :=
  lazymatch goal with
  | |- Forall _ (encode_basestring true _) => apply encode_basestring_ascii
  | |- Forall _ (lit _) => apply ascii_forallb; vm_compute; reflexivity
  | |- Forall _ (newline_indent _ _) => apply ascii_forallb; vm_compute; reflexivity
  | |- Forall _ [_] => apply ascii_forallb; vm_compute; reflexivity
  | |- Forall _ (_ ++ _) => apply Forall_app; split
  end.

(** The metadata document is written with [ensure_ascii=True]: its text
    is ASCII whatever the name and the paths are. *)
Lemma metadata_ascii name promoted_at plan_path cache_dir copied_artifacts :
  Forall (fun c => c < 128)
    (dumps P 2 true (metadata_of P name promoted_at plan_path cache_dir copied_artifacts)).
Proof.
  unfold dumps, json_dumps, metadata_of. cbn [iterencode map join].
  repeat ascii_step.
  destruct copied_artifacts as [|a l]; cbn [map iterencode]; repeat ascii_step.
  apply (join_ascii _ (_ :: _)); [repeat ascii_step|].
  constructor; [apply encode_basestring_ascii|].
  apply Forall_fmap, Forall_fmap, Forall_forall. intros s _.
  apply encode_basestring_ascii.
Qed.
Lemma newlines_out_ascii (sep s : str) :
  Forall (fun c => c < 128) sep -> Forall (fun c => c < 128) s ->
  Forall (fun c => c < 128) (newlines_out sep s).
Proof.
  intros Hsep Hs. unfold newlines_out. apply Forall_concat, Forall_fmap.
  eapply Forall_impl; [exact Hs|]. intros c Hc. unfold compose.
  destruct (c =? 10); [done|by repeat constructor].
Qed.

Ltac utf8_step :=
  lazymatch goal with
  | |- is_Some (Utf8.encode (lit _)) => vm_compute; by eexists
  | |- is_Some (Utf8.encode []) => by eexists
  | |- is_Some (Utf8.encode [_]) => vm_compute; by eexists
  | |- is_Some (Utf8.encode (?c :: ?s)) => apply (utf8_encode_app [c] s)
  | |- is_Some (Utf8.encode (_ ++ _)) => apply utf8_encode_app
  | |- is_Some (Utf8.encode _) => assumption
  end.

(** The README can be written as UTF-8 when the name and the date can. *)
Lemma readme_encodable name date copied_artifacts :
  is_Some (Utf8.encode (linesep P)) ->
  is_Some (Utf8.encode name) -> is_Some (Utf8.encode date) ->
  is_Some (Utf8.encode
             (newlines_out (linesep P)
                (join [10] (readme_lines_of name date copied_artifacts)))).
Proof.
  intros Hsep Hname Hdate. apply utf8_encode_newlines_out; [done|].
  unfold readme_lines_of, prd_line, visual_analysis_line, synthesis_line, metadata_line.
  cbv zeta.
  do 2 destruct (bool_decide _); cbn [app join]; repeat utf8_step.
Qed.
Lemma node_at_insert_ne (f : gmap path node) (p q : path) n :
  p <> q -> node_at (<[p := n]> f) q = node_at f q.
Proof. intros Hpq. destruct q; [done|]. cbn [node_at]. by rewrite lookup_insert_ne. Qed.

(** Below a path come only longer paths. *)
Lemma descendant_not_prefix (p q : path) : q <> [] -> p ++ q ∉ prefixes p.
Proof.
  intros Hq H. apply prefixes_length in H. rewrite length_app in H.
  destruct q; [done|]. cbn in H. lia.
Qed.

(** One turn of the loop returns when the artifact is a regular file of
    the cache or is missing, and its place in [artifacts] is free; the
    file system changes at that place at most. *)
Lemma copy_artifact_returns cache_dir dest copied_artifacts filename w :
  startswith filename [47] = false -> parts filename = [filename] ->
  is_file (fs w) (cache_dir ++ [filename]) = true
  \/ node_at (fs w) (cache_dir ++ [filename]) = None ->
  node_at (fs w) ((dest ++ [lit "artifacts"]) ++ [filename]) = None ->
  is_dir (fs w) (dest ++ [lit "artifacts"]) = true ->
  returns (copy_artifact cache_dir dest copied_artifacts filename w)
    (fun _ w' =>
       forall q, q <> (dest ++ [lit "artifacts"]) ++ [filename] ->
                 node_at (fs w') q = node_at (fs w) q).
Proof.
  intros H1 H2 Hsrc Hdst Hdir. unfold copy_artifact. cbv zeta.
  rewrite (joinpath_name dest (lit "artifacts")) by (vm_compute; reflexivity).
  rewrite !(joinpath_name _ filename) by done.
  apply returns_bind. cbn [path_exists returns].
  destruct Hsrc as [Hsrc|Hsrc].
  - unfold is_file in Hsrc.
    destruct (node_at (fs w) (cache_dir ++ [filename])) as [[b|]|] eqn:E; try done.
    rewrite bool_decide_eq_true_2 by (by eexists).
    apply returns_bind. erewrite copy2_returns; [|exact E|exact Hdst|].
    + cbn [returns]. apply returns_bind. cbn [print returns mret M_ret ret fs set_fs].
      intros q Hq. by apply node_at_insert_ne.
    + unfold parent. by rewrite removelast_last.
  - rewrite bool_decide_eq_false_2 by (rewrite Hsrc; by intros [? ?]).
    by cbn [mret M_ret ret returns].
Qed.

Lemma is_file_node f p : is_file f p = true -> exists b, node_at f p = Some (File b).
Proof. unfold is_file. destruct (node_at f p) as [[b|]|]; [by exists b|done..]. Qed.

Lemma grown_node f f' p q n : grown f f' p -> node_at f q = Some n -> node_at f' q = Some n.
Proof. intros (Hkeep & _). apply Hkeep. Qed.

(** The same artifact, after [mkdir] made the destination: a regular
    file stays one, and a missing one is still missing. *)
Lemma grown_artifact f f' (dest src : path) :
  grown f f' dest ->
  is_file f src = true \/ (node_at f src = None /\ src ∉ prefixes dest) ->
  is_file f' src = true \/ node_at f' src = None.
Proof.
  intros Hg [Hfile|[Hnone Hnot]].
  - left. apply is_file_node in Hfile as [b Hb].
    unfold is_file. by rewrite (grown_node _ _ _ _ _ Hg Hb).
  - right. by apply (grown_absent _ _ _ _ Hg).
Qed.

(** Two paths differ by their last component or by their length. *)
Ltac path_ne :=
  solve [ intros [_ Heq]%app_inj_tail; vm_compute in Heq; discriminate
        | let Heq := fresh in
          intros Heq%(f_equal length);
          repeat match goal with x := _ : path |- _ => unfold x in Heq end;
          rewrite !length_app in Heq; cbn in Heq; lia ].

(** [promote] returns its destination when nothing stands in its way. *)
Lemma promote_returns name plan_path cache_dir output_root w :
  wf_fs (fs w) = true ->
  promotable P name plan_path cache_dir output_root w ->
  returns (promote P name plan_path cache_dir output_root w)
    (fun dest _ => dest = joinpath output_root name).
Proof.
  intros Hwf (Hnone & Hfiles & Hplan & Harts & Hloc & Hsep & Hname & Hdate).
  unfold promote. cbv zeta.
  remember (joinpath output_root name) as dest eqn:Hdest.
  apply Forall_cons in Harts as [Hva Harts]. apply Forall_cons in Harts as [Hsyn _].
  cbv zeta in Hva, Hsyn.
  rewrite !joinpath_name in * by (vm_compute; reflexivity).
  set (art := dest ++ [lit "artifacts"]).
  apply is_file_node in Hplan as [b Hplan].
  (* the destination is new *)
  apply returns_bind. cbn [path_exists returns].
  rewrite bool_decide_eq_false_2 by (rewrite Hnone; by intros [? ?]).
  apply returns_bind. cbn [mret M_ret ret returns].
  (* the two directories *)
  destruct (mkdir_returns true dest w Hnone Hfiles (or_introl eq_refl))
    as (f1 & Hm1 & Hg1 & Hd1).
  apply returns_bind. rewrite Hm1. cbn [returns].
  assert (forall q : path, q <> [] -> node_at f1 (dest ++ q) = None) as Hfresh1.
  { intros q Hq. apply (grown_absent _ _ _ _ Hg1); [by apply descendant_not_prefix|].
    by apply wf_fs_fresh. }
  destruct (mkdir_returns false art (set_fs f1 w)) as (f2 & Hm2 & Hg2 & Hd2).
  { cbn [fs set_fs]. by apply Hfresh1. }
  { cbn [fs set_fs]. unfold proper_prefixes, parent, art. rewrite removelast_last.
    apply not_true_iff_false. intros (q & Hq & Hfile)%existsb_exists.
    apply list_elem_of_In, proper_prefixes_spec in Hq as [->|Hq].
    - unfold is_file in Hfile. by rewrite Hd1 in Hfile.
    - apply not_true_iff_false in Hfiles. apply Hfiles, existsb_exists.
      exists q. split; [by apply list_elem_of_In|].
      destruct (is_file (fs w) q) eqn:E; [done|].
      by rewrite (grown_is_file _ _ _ _ Hg1 E) in Hfile. }
  { right. cbn [fs set_fs]. unfold parent, art, is_dir.
    by rewrite removelast_last, Hd1. }
  apply returns_bind. rewrite Hm2. cbn [returns fs set_fs] in *.
  assert (node_at f2 dest = Some Dir) as Hd by (by apply (grown_node _ _ _ _ _ Hg2)).
  assert (forall c : str, c <> lit "artifacts" -> node_at f2 (dest ++ [c]) = None)
    as Hchild.
  { intros c Hc. apply (grown_absent _ _ _ _ Hg2); [by apply sibling_not_prefix|].
    by apply Hfresh1. }
  assert (forall c : str, node_at f2 (art ++ [c]) = None) as Hunder.
  { intros c. apply (grown_absent _ _ _ _ Hg2); [apply child_not_prefix|].
    unfold art. rewrite <- app_assoc. by apply Hfresh1. }
  (* the plan *)
  apply returns_bind. erewrite (copy2_returns plan_path (dest ++ [lit "PRD.md"]) b).
  2: { cbn [fs set_fs]. apply (grown_node _ _ _ _ _ Hg2), (grown_node _ _ _ _ _ Hg1), Hplan. }
  2: { cbn [fs set_fs]. apply Hchild. vm_compute. discriminate. }
  2: { cbn [fs set_fs]. unfold parent, is_dir. by rewrite removelast_last, Hd. }
  cbn [returns fs set_fs]. apply returns_bind.
  cbn [print returns fs set_fs stdout stderr clock_reads events].
  match goal with |- returns (_ ?w0) _ => set (w3 := w0) end.
  assert (fs w3 = <[dest ++ [lit "PRD.md"] := File b]> f2) as Hf3 by reflexivity.
  clearbody w3.
  assert (is_dir (fs w3) art = true) as Hart3.
  { rewrite Hf3. unfold is_dir. rewrite node_at_insert_ne, Hd2; [done|].
    intros [_ Heq]%app_inj_tail. vm_compute in Heq. discriminate. }
  assert (forall c : str, node_at (fs w3) (art ++ [c]) = None) as Hunder3.
  { intros c. rewrite Hf3, node_at_insert_ne; [apply Hunder|].
    intros Heq%(f_equal length). unfold art in Heq. rewrite !length_app in Heq.
    cbn in Heq. lia. }
  assert (forall n : str,
             n <> lit "artifacts" -> n <> lit "PRD.md" ->
             is_file (fs w) (cache_dir ++ [n]) = true
             \/ (node_at (fs w) (cache_dir ++ [n]) = None
                 /\ cache_dir ++ [n] ∉ prefixes dest) ->
             is_file (fs w3) (cache_dir ++ [n]) = true
             \/ node_at (fs w3) (cache_dir ++ [n]) = None) as Hstatus.
  { intros n Hn1 Hn2 Hn. rewrite Hf3. unfold is_file.
    rewrite node_at_insert_ne by (intros [_ Heq]%app_inj_tail; congruence).
    destruct Hn as [[bn Hn]%is_file_node|[Hn Hnot]].
    - left. by rewrite (grown_node _ _ _ _ _ Hg2 (grown_node _ _ _ _ _ Hg1 Hn)).
    - right. apply (grown_absent _ _ _ _ Hg2).
      + unfold art. rewrite prefixes_snoc, elem_of_app, list_elem_of_singleton.
        intros [?|[_ Heq]%app_inj_tail]; done.
      + by apply (grown_absent _ _ _ _ Hg1). }
  (* the artifacts *)
  apply returns_bind. cbn [for_each]. apply returns_bind.
  eapply returns_mono.
  { apply copy_artifact_returns;
      [vm_compute; reflexivity | vm_compute; reflexivity | | apply Hunder3 | exact Hart3].
    apply Hstatus; [vm_compute; discriminate..|exact Hva]. }
  intros copied1 w4 Hsame4. cbv beta. apply returns_bind.
  eapply returns_mono.
  { apply copy_artifact_returns; [vm_compute; reflexivity | vm_compute; reflexivity | | |].
    - unfold is_file. rewrite Hsame4.
      + apply Hstatus; [vm_compute; discriminate..|exact Hsyn].
      + intros [_ Heq]%app_inj_tail. vm_compute in Heq. discriminate.
    - rewrite Hsame4; [apply Hunder3|].
      intros [_ Heq]%app_inj_tail. vm_compute in Heq. discriminate.
    - unfold is_dir. rewrite Hsame4; [exact Hart3|].
      intros Heq%(f_equal length). rewrite !length_app in Heq. cbn in Heq. lia. }
  intros copied2 w5 Hsame5. cbv beta. cbn [for_each mret M_ret ret returns].
  assert (forall q : path,
             q <> art ++ [lit "visual_analysis.json"] ->
             q <> art ++ [lit "synthesis.json"] ->
             node_at (fs w5) q = node_at (fs w3) q) as Hsame.
  { intros q Hq1 Hq2. by rewrite Hsame5, Hsame4. }
  (* the metadata *)
  apply returns_bind. cbn [datetime_now returns]. apply returns_bind.
  erewrite write_text_returns; cbn [fs].
  2: { rewrite Hsame by path_ne. apply Hunder3. }
  2: { unfold parent, is_dir. rewrite removelast_last, Hsame by path_ne. exact Hart3. }
  2: { rewrite Hloc. cbn [default encode].
       apply utf8_encode_ascii, newlines_out_ascii; [done|].
       apply Forall_app. split; [apply metadata_ascii|by repeat constructor]. }
  (* the README *)
  cbn [returns]. apply returns_bind. cbn [datetime_now returns]. apply returns_bind.
  lazymatch goal with
  | |- context [readme_lines_of name ?d ?c] =>
      destruct (readme_encodable name d c) as [readme Hreadme];
      [by rewrite utf8_encode_ascii|done|done|]
  end.
  erewrite write_text_returns; cbn [fs set_fs].
  2: { rewrite node_at_insert_ne, Hsame, Hf3, node_at_insert_ne by path_ne.
       apply Hchild. vm_compute. discriminate. }
  2: { unfold parent, is_dir.
       rewrite removelast_last, node_at_insert_ne, Hsame, Hf3, node_at_insert_ne
         by path_ne.
       by rewrite Hd. }
  2: { rewrite Hloc. exact Hreadme. }
  cbn [returns]. apply returns_bind. by cbn [print returns mret M_ret ret].
Qed.

(** C6.  In a cache without [synthesis.json] the turn of the loop for
    that name returns at once, and a promotion that returns has written
    a README without the synthesis bullet but with the PRD and metadata
    bullets, and a metadata document whose [artifacts] are the copied
    names, [synthesis.json] not among them.  The promotion does return
    when nothing else stands in its way: a new destination, a plan that
    is a regular file, and a locale that writes UTF-8. *)
Theorem C6_promotion_without_synthesis name plan_path cache_dir output_root w :
  wf_fs (fs w) = true ->
  node_at (fs w) (joinpath cache_dir (lit "synthesis.json")) = None ->
  (forall dest copied_artifacts,
      copy_artifact cache_dir dest copied_artifacts (lit "synthesis.json") w
      = (Return copied_artifacts, w))
  /\ (forall dest w',
        promote P name plan_path cache_dir output_root w = (Return dest, w') ->
        exists copied_artifacts promoted_at date,
          let readme_lines := readme_lines_of name date copied_artifacts in
          let metadata :=
            metadata_of P name promoted_at plan_path cache_dir copied_artifacts in
          holds_text P (fs w') (joinpath dest (lit "README.md")) (join [10] readme_lines)
          /\ (synthesis_line ∉ readme_lines)
          /\ (prd_line ∈ readme_lines)
          /\ (metadata_line ∈ readme_lines)
          /\ holds_text P (fs w')
               (joinpath (joinpath dest (lit "artifacts")) (lit "metadata.json"))
               (dumps P 2 true metadata ++ [10])
          /\ json_get_or_empty metadata (lit "artifacts")
             = Ok (JList (map JStr copied_artifacts))
          /\ (lit "synthesis.json" ∉ copied_artifacts))
  /\ (promotable P name plan_path cache_dir output_root w ->
      exists w',
        promote P name plan_path cache_dir output_root w
        = (Return (joinpath output_root name), w')).
Proof.
  intros Hwf Hsyn. split; [|split].
  - intros dest copied_artifacts. by apply copy_artifact_absent.
  - intros dest w' Hrun.
    pose proof (promote_without_synthesis name plan_path cache_dir output_root w
                  Hwf Hsyn) as Hpromote.
    rewrite Hrun in Hpromote. cbn [on_return] in Hpromote.
    destruct Hpromote as (-> & copied & promoted_at & date & Hcopied & Hmeta & Hreadme).
    exists copied, promoted_at, date. cbv zeta.
    destruct (readme_lines_without_synthesis name date copied Hcopied)
      as (Hno & Hprd & Hmd).
    repeat split; try done.
  - intros Hready.
    destruct (returns_run _ _ (promote_returns name plan_path cache_dir output_root w
                                 Hwf Hready)) as (dest & w' & Hrun & ->).
    by exists w'.
Qed.

End PromotionWithoutSynthesis.

(** ** The driver: from the start to the phases *)

Section Driver.
Import video_to_plan.
Context (P : Platform).

Lemma read_text_run p encoding w :
  (exists s, readable P encoding (fs w) p = Some s
             /\ read_text P p encoding w = (Return s, w))
  \/ (readable P encoding (fs w) p = None
      /\ exists e, read_text P p encoding w = (Raise e, w)).
Proof.
  unfold read_text, readable. mrun.
  destruct (node_at (fs w) p) as [[b|]|]; [|right; split; [done|by eexists]..].
  destruct (decode _ b) as [s|]; [left; by eexists|right; split; [done|by eexists]].
Qed.

Lemma loads_run s w :
  loads P s w
  = (match json_loads P s with
     | Some o => Return o
     | None => Raise JSONDecodeError
     end, w).
Proof. unfold loads. by destruct (json_loads P s). Qed.

Lemma grown_readable encoding f f' p q s :
  grown f f' p -> readable P encoding f q = Some s -> readable P encoding f' q = Some s.
Proof.
  intros (Hkeep & _ & _). unfold readable.
  destruct (node_at f q) as [[b|]|] eqn:E; [|done|done].
  by rewrite (Hkeep _ _ E).
Qed.

Lemma grown_is_Some f f' p q :
  grown f f' p -> is_Some (node_at f q) -> is_Some (node_at f' q).
Proof. intros (Hkeep & _ & _) [n Hn]. exists n. by apply Hkeep. Qed.

(** [mkdir(parents=True, exist_ok=True)] fails only on a regular file
    at the path or above it. *)
Lemma mkdir_parents_raises p w e w' :
  mkdir true true p w = (Raise e, w') ->
  existsb (is_file (fs w)) (prefixes p) = true.
Proof.
  unfold mkdir. mrun. intros H.
  destruct (node_at (fs w) p) as [[b|]|] eqn:Hp; [|done|].
  - apply existsb_exists. exists p. split.
    + apply list_elem_of_In, prefixes_last. by intros ->.
    + unfold is_file. by rewrite Hp.
  - destruct (existsb (is_file (fs w)) (proper_prefixes p)) eqn:Hfile.
    + apply existsb_exists in Hfile as (q & Hq & Hf).
      apply existsb_exists. exists q. split; [|done].
      apply list_elem_of_In in Hq. apply list_elem_of_In.
      unfold proper_prefixes, parent in Hq.
      destruct p as [|c p] using rev_ind; [by apply elem_of_nil in Hq|].
      rewrite removelast_last in Hq. rewrite prefixes_snoc, elem_of_app. by left.
    + by destruct (is_dir (fs w) (parent p)).
Qed.

(** [main] is its checks, the banner, and then [main_phases]. *)
Lemma main_eq fuel args environ :
  main P fuel args environ =
    ((if existsb (fun p => py_in p [1; 2]%Z) (phases_to_run_of args)
         && negb (truthy (gemini_key_of args environ))
      then print_stderr gemini_key_error;; sys_exit 1
      else ret tt);;
     (if py_in 3 (phases_to_run_of args) && negb (truthy (openai_key_of args environ))
      then print_stderr openai_key_error;; sys_exit 1
      else ret tt);;
     mkdir true true (cache_dir_of P args);;
     ex ← path_exists (video_path_of P args);
     (if negb ex
      then print_stderr (lit "Error: Video file not found: "
                         ++ str_of_path (video_path_of P args));;
           sys_exit 1
      else ret tt);;
     ex ← path_exists (srt_path_of P args);
     (if negb ex
      then print_stderr (lit "Error: Subtitle file not found: "
                         ++ str_of_path (srt_path_of P args));;
           sys_exit 1
      else ret tt);;
     srt_content ← read_text P (srt_path_of P args) (Some UTF_8);
     total_start ← time_now P;
     print (lit "Video:     " ++ str_of_path (video_path_of P args));;
     print (lit "Subtitles: " ++ str_of_path (srt_path_of P args));;
     print (lit "Output:    " ++ str_of_path (output_path_of P args));;
     print (lit "Cache:     " ++ str_of_path (cache_dir_of P args));;
     print (lit "Phases:    " ++ repr_int_list (phases_to_run_of args));;
     print [];;
     main_phases P fuel (phases_to_run_of args) (gemini_key_of args environ)
       (openai_key_of args environ) (video_path_of P args) (output_path_of P args)
       (cache_dir_of P args) srt_content total_start).
Proof. reflexivity. Qed.

End Driver.

Section DriverPreamble.
Import video_to_plan.
Context (P : Platform).

Lemma readable_node encoding f p s :
  readable P encoding f p = Some s -> is_Some (node_at f p).
Proof. unfold readable. destruct (node_at f p); [by eexists|done]. Qed.

(** A run either stops before its phases, with status 1 and without
    any request to a provider, because its inputs are not ready; or it
    reaches the phases, in a world where the cache directory exists
    and files are as they were. *)
Lemma main_preamble fuel args environ w :
  (exists o w',
      main P fuel args environ w = (o, w')
      /\ exit_status o = Some 1%Z /\ events w' = events w
      /\ ~ inputs_ready P args environ w)
  \/ (exists w1 srt_content,
        main P fuel args environ w
        = main_phases P fuel (phases_to_run_of args) (gemini_key_of args environ)
            (openai_key_of args environ) (video_path_of P args) (output_path_of P args)
            (cache_dir_of P args) srt_content (time_time P (clock_reads w)) w1
        /\ grown (fs w) (fs w1) (cache_dir_of P args)
        /\ readable P (Some UTF_8) (fs w1) (srt_path_of P args) = Some srt_content
        /\ events w1 = events w /\ stderr w1 = stderr w).
Proof.
  rewrite main_eq, any_phase_1_2.
  destruct (_ && negb (truthy (gemini_key_of args environ))) eqn:Hg.
  { left. eexists _, _. split; [reflexivity|]. repeat split. intros (H & _). congruence. }
  destruct (_ && negb (truthy (openai_key_of args environ))) eqn:Ho.
  { left. eexists _, _. split; [reflexivity|]. repeat split. intros (_ & H & _). congruence. }
  mrun.
  destruct (mkdir_run true true (cache_dir_of P args) w)
    as [[e He]|(f1 & -> & Hgrown & _)].
  { left. rewrite He. eexists _, _. split; [reflexivity|]. repeat split.
    intros (_ & _ & Hmk & _). apply mkdir_parents_raises in He. congruence. }
  mrun. case_bool_decide as Hvideo; mrun; cycle 1.
  { left. eexists _, _. split; [reflexivity|]. repeat split.
    intros (_ & _ & _ & Hv & _). by apply Hvideo, (grown_is_Some _ _ _ _ Hgrown). }
  case_bool_decide as Hsrt; mrun; cycle 1.
  { left. eexists _, _. split; [reflexivity|]. repeat split.
    intros (_ & _ & _ & _ & [s Hs]).
    apply Hsrt, (grown_is_Some _ _ _ _ Hgrown). by eapply readable_node. }
  match goal with
  | |- context [read_text P ?p ?e ?w0] =>
      destruct (read_text_run P p e w0) as [(s & Hs & ->)|(Hnone & e0 & ->)]
  end.
  - right. mrun. cbn [time_now]. mrun. eexists _, s.
    split; [reflexivity|]. cbn [fs events stderr]. done.
  - left. eexists _, _. split; [reflexivity|]. repeat split.
    intros (_ & _ & _ & _ & [s Hs]).
    cbn [fs set_fs] in Hnone.
    by rewrite (grown_readable P _ _ _ _ _ _ Hgrown Hs) in Hnone.
Qed.

End DriverPreamble.

(** ** The requests of phase 2 *)

Section PhaseTwoRequests.
Import video_to_plan.
Context (P : Platform).

Lemma stream_gemini_events client model c label w :
  exists text w',
    _stream_gemini P client model c label w = (Return text, w')
    /\ events w' = events w ++ [Generate_content_stream client model c (lit "0.2") 65536].
Proof.
  unfold _stream_gemini, _progress, client_models_generate_content_stream.
  mrun. cbn [time_now]. mrun.
  match goal with
  | |- context [for_each ?r (stream_body P label ?st) ?s ?w0] =>
      destruct (stream_loop_run P label st r [] 0%Z 0%Z w0) as (lr & w1 & Hloop);
      pose proof (keeps_for_each events r (stream_body P label st) s) as Hkeep;
      specialize (Hkeep ltac:(intros; unfold stream_body, _progress; keeps_all) w0);
      rewrite Hloop in *
  end.
  cbn [snd events] in Hkeep. rewrite elapsed_run. mrun.
  eexists _, _. split; [reflexivity|]. cbn [events]. done.
Qed.

Lemma run_phase2_events visual_analysis srt_content gemini_key cache_dir w :
  events (snd (run_phase2 P visual_analysis srt_content gemini_key cache_dir w))
  = events w ++ [phase2_request P gemini_key visual_analysis srt_content].
Proof.
  unfold run_phase2. cbv zeta.
  do 4 (erewrite bind_return by reflexivity).
  match goal with
  | |- events (snd (@mbind _ _ _ _ _ (_stream_gemini P ?a ?b ?c ?d) ?w0)) = _ =>
      destruct (stream_gemini_events a b c d w0) as (text & w1 & Hrun & Hev)
  end.
  rewrite (bind_return _ _ _ _ _ Hrun). cbn [events] in Hev.
  match goal with
  | |- events (snd (?K ?w0)) = _ =>
      transitivity (events w0); [|exact Hev];
      generalize w0; change (keeps events K)
  end.
  keeps_all.
Qed.

End PhaseTwoRequests.

(** ** The driver: a single phase and its cached prerequisite *)

Section SinglePhase.
Import video_to_plan.
Context (P : Platform).

Lemma events_bind_keeps {A B} (m : M A) (k : A -> M B) w :
  (forall a, keeps events (k a)) ->
  events (snd ((m ≫= k) w)) = events (snd (m w)).
Proof.
  intros Hk. rewrite bind_run.
  destruct (m w) as [[a| | |] w1]; cbn [snd]; [apply Hk|done..].
Qed.

(** Phase 3 alone, without a cached synthesis. *)
Lemma main_phases_3_stops fuel gk ok video out cache srt ts w1 :
  node_at (fs w1) (joinpath cache (lit "synthesis.json")) = None ->
  exists o w',
    main_phases P fuel [3%Z] gk ok video out cache srt ts w1 = (o, w')
    /\ exit_status o = Some 1%Z /\ events w' = events w1
    /\ ((node_at (fs w1) (joinpath cache (lit "visual_analysis.json")) = None
         \/ is_Some (cached_document P (fs w1) (joinpath cache (lit "visual_analysis.json"))))
        -> o = Exit 1%Z
           /\ stderr w' = stderr w1 ++ [phase3_needs_phase2_error cache]).
Proof.
  intros Hsyn. unfold main_phases, cached_document. cbv zeta.
  change (py_in 1 [3%Z]) with false. change (py_in 2 [3%Z]) with false.
  change (py_in 3 [3%Z]) with true.
  change (existsb (fun p => py_in p [2%Z]) [3%Z]) with false.
  assert (bool_decide (is_Some (node_at (fs w1) (joinpath cache (lit "synthesis.json"))))
          = false) as Hno.
  { apply bool_decide_eq_false_2. rewrite Hsyn. by intros [? ?]. }
  mrun.
  destruct (decide (is_Some (node_at (fs w1) (joinpath cache (lit "visual_analysis.json")))))
    as [Hva|Hva];
    [rewrite (bool_decide_eq_true_2 _ Hva)|rewrite (bool_decide_eq_false_2 _ Hva)]; mrun.
  - destruct (read_text_run P (joinpath cache (lit "visual_analysis.json")) None w1)
      as [(s & Hs & ->)|(Hnone & e & ->)].
    + rewrite loads_run. destruct (json_loads P s) as [va|] eqn:Hloads; mrun.
      * rewrite Hno.
        eexists _, _. split; [reflexivity|]. cbn [events stderr]. done.
      * eexists _, _. split; [reflexivity|]. do 2 (split; [done|]).
        intros [Habs|[va Hdoc]].
        -- rewrite Habs in Hva. by destruct Hva.
        -- rewrite Hs in Hdoc. cbn in Hdoc. congruence.
    + eexists _, _. split; [reflexivity|]. do 2 (split; [done|]).
      intros [Habs|[va Hdoc]].
      * rewrite Habs in Hva. by destruct Hva.
      * by rewrite Hnone in Hdoc.
  - rewrite Hno.
    eexists _, _. split; [reflexivity|]. cbn [events stderr]. done.
Qed.

(** Phase 2 alone, without a cached visual analysis. *)
Lemma main_phases_2_stops fuel gk ok video out cache srt ts w1 :
  node_at (fs w1) (joinpath cache (lit "visual_analysis.json")) = None ->
  main_phases P fuel [2%Z] gk ok video out cache srt ts w1
  = (Exit 1%Z, with_stderr w1 [phase2_needs_phase1_error cache]).
Proof.
  intros Hva. unfold main_phases. cbv zeta.
  change (py_in 1 [2%Z]) with false.
  change (existsb (fun p => py_in p [2%Z]) [2%Z]) with true.
  mrun. rewrite bool_decide_eq_false_2; [done|]. rewrite Hva. by intros [? ?].
Qed.

(** Phase 2 alone, with a cached visual analysis: the only request a
    run can make is the one of phase 2, built from the cached document;
    and it makes it when the cached file can be read and parsed. *)
Lemma main_phases_2_requests fuel gk ok video out cache srt ts w1 :
  is_Some (node_at (fs w1) (joinpath cache (lit "visual_analysis.json"))) ->
  let run := main_phases P fuel [2%Z] gk ok video out cache srt ts w1 in
  match cached_document P (fs w1) (joinpath cache (lit "visual_analysis.json")) with
  | Some visual_analysis =>
      events (snd run) = events w1 ++ [phase2_request P gk visual_analysis srt]
  | None => events (snd run) = events w1 /\ exit_status (fst run) = Some 1%Z
  end.
Proof.
  intros Hva. unfold main_phases, cached_document. cbv zeta.
  change (py_in 1 [2%Z]) with false. change (py_in 2 [2%Z]) with true.
  change (py_in 3 [2%Z]) with false.
  rewrite bind_run.
  assert (forall va (w2 : World), events w2 = events w1 ->
            events (snd ((run_phase2 P va srt gk cache ≫= fun synthesis : json (pyfloat P) =>
              (ret tt : M unit) ≫= fun _ =>
              print ([10] ++ repeat 61 60) ≫= fun _ =>
              _elapsed P ts ≫= fun e =>
              print (lit "DONE — total time: " ++ e) ≫= fun _ =>
              print (repeat 61 60) ≫= fun _ => (ret tt : M unit)) w2))
            = events w1 ++ [phase2_request P gk va srt]) as Htail.
  { intros va w2 Hw2. rewrite events_bind_keeps by (intros; keeps_all).
    by rewrite run_phase2_events, Hw2. }
  erewrite bind_return by reflexivity. rewrite bool_decide_eq_true_2 by done.
  rewrite bind_run.
  destruct (read_text_run P (joinpath cache (lit "visual_analysis.json")) None w1)
    as [(s & Hs & Hrun)|(Hnone & e & Hrun)]; rewrite Hrun.
  - rewrite Hs. cbn [mbind option_bind]. rewrite bind_run, loads_run.
    destruct (json_loads P s) as [va|]; [|done].
    erewrite bind_return by reflexivity. cbn [mret M_ret ret].
    by apply Htail.
  - by rewrite Hnone.
Qed.

End SinglePhase.

Section CachedPrerequisites.
Import video_to_plan.
Context (P : Platform).

Lemma grown_readable_same encoding f f' p q :
  grown f f' p -> is_Some (node_at f q) ->
  readable P encoding f' q = readable P encoding f q.
Proof.
  intros (Hkeep & _ & _) [n Hn]. unfold readable. by rewrite (Hkeep _ _ Hn), Hn.
Qed.

Lemma grown_child_absent f f' (p : path) (c : str) :
  startswith c [47] = false -> parts c = [c] ->
  grown f f' p -> node_at f (joinpath p c) = None -> node_at f' (joinpath p c) = None.
Proof.
  intros H1 H2 Hg. rewrite (joinpath_name p c H1 H2).
  apply (grown_absent _ _ _ _ Hg), child_not_prefix.
Qed.

Lemma grown_synthesis_absent f f' (p : path) :
  grown f f' p ->
  node_at f (joinpath p (lit "synthesis.json")) = None ->
  node_at f' (joinpath p (lit "synthesis.json")) = None.
Proof. by apply grown_child_absent. Qed.

Lemma grown_visual_analysis_absent f f' (p : path) :
  grown f f' p ->
  node_at f (joinpath p (lit "visual_analysis.json")) = None ->
  node_at f' (joinpath p (lit "visual_analysis.json")) = None.
Proof. by apply grown_child_absent. Qed.

Lemma only_phase_3 args :
  py_in 3 (phases_to_run_of args) = true -> py_in 2 (phases_to_run_of args) = false ->
  phases_to_run_of args = [3%Z].
Proof. unfold phases_to_run_of. by destruct (phase args) as [[]|]. Qed.

Lemma only_phase_2 args :
  py_in 2 (phases_to_run_of args) = true -> py_in 1 (phases_to_run_of args) = false ->
  phases_to_run_of args = [2%Z].
Proof. unfold phases_to_run_of. by destruct (phase args) as [[]|]. Qed.

(** C2, with the checks that come first spelled out.  A run that asks
    for phase 3 and not phase 2 while the cache has no [synthesis.json]
    ends with status 1 and makes no request; when its inputs are ready
    (keys, video, subtitles, cache directory) and the cached visual analysis,
    if any, can be parsed, it ends by [sys.exit(1)] after the line
    "Error: Phase 3 requires synthesis.json in <cache>. Run phase 2
    first." on [stderr].  The same holds for phase 2 without phase 1
    and without [visual_analysis.json], with the line that names
    phase 1. *)
Theorem C2_missing_prerequisite_is_fatal fuel args environ w :
  let run := main P fuel args environ w in
  (py_in 3 (phases_to_run_of args) = true ->
   py_in 2 (phases_to_run_of args) = false ->
   node_at (fs w) (synthesis_cache P args) = None ->
   exit_status (fst run) = Some 1%Z
   /\ events (snd run) = events w
   /\ (inputs_ready P args environ w ->
       node_at (fs w) (visual_analysis_cache P args) = None
       \/ is_Some (cached_document P (fs w) (visual_analysis_cache P args)) ->
       fst run = Exit 1%Z
       /\ stderr (snd run)
          = stderr w ++ [lit "Error: Phase 3 requires synthesis.json in "
                         ++ str_of_path (cache_dir_of P args)
                         ++ lit ". Run phase 2 first."]))
  /\ (py_in 2 (phases_to_run_of args) = true ->
      py_in 1 (phases_to_run_of args) = false ->
      node_at (fs w) (visual_analysis_cache P args) = None ->
      exit_status (fst run) = Some 1%Z
      /\ events (snd run) = events w
      /\ (inputs_ready P args environ w ->
          fst run = Exit 1%Z
          /\ stderr (snd run)
             = stderr w ++ [lit "Error: Phase 2 requires visual_analysis.json in "
                            ++ str_of_path (cache_dir_of P args)
                            ++ lit ". Run phase 1 first."])).
Proof.
  cbv zeta. unfold synthesis_cache, visual_analysis_cache. split.
  - intros H3 H2 Hsyn.
    destruct (main_preamble P fuel args environ w)
      as [(o & w' & -> & Hst & Hev & Hnot)|(w1 & srt & -> & Hg & Hsrt & Hev & Herr)].
    { cbn [fst snd]. do 2 (split; [done|]). intros Hready. by destruct Hnot. }
    rewrite (only_phase_3 args H3 H2).
    apply (grown_synthesis_absent _ _ _ Hg) in Hsyn.
    destruct (main_phases_3_stops P fuel (gemini_key_of args environ)
                (openai_key_of args environ) (video_path_of P args)
                (output_path_of P args) (cache_dir_of P args) srt
                (time_time P (clock_reads w)) w1 Hsyn)
      as (o & w' & -> & Hst & Hev' & Hmsg).
    cbn [fst snd]. split; [done|]. split; [congruence|].
    intros _ Hva. rewrite <- Herr. apply Hmsg.
    destruct Hva as [Hva|Hva].
    + left. by apply (grown_visual_analysis_absent _ _ _ Hg).
    + right. unfold cached_document in *.
      rewrite (grown_readable_same _ _ _ _ _ Hg); [done|].
      destruct Hva as [va Hva].
      destruct (readable P None (fs w) _) eqn:E; [by eapply readable_node|done].
  - intros H2 H1 Hva.
    destruct (main_preamble P fuel args environ w)
      as [(o & w' & -> & Hst & Hev & Hnot)|(w1 & srt & -> & Hg & Hsrt & Hev & Herr)].
    { cbn [fst snd]. do 2 (split; [done|]). intros Hready. by destruct Hnot. }
    rewrite (only_phase_2 args H2 H1).
    apply (grown_visual_analysis_absent _ _ _ Hg) in Hva.
    rewrite (main_phases_2_stops P _ _ _ _ _ _ _ _ _ Hva).
    cbn [fst snd with_stderr events stderr]. rewrite Herr. done.
Qed.

(** C5, with the checks that come first spelled out.  A run that asks
    for phase 2 alone while [visual_analysis.json] is in the cache
    makes no request of phase 1 (upload, polling, deletion, stream);
    whatever request it makes is the one of phase 2 built from the
    document parsed from the cached file.  When its inputs are ready
    and the cached file parses, it does make that request. *)
Theorem C5_phase2_uses_cached_visual_analysis fuel args environ w :
  let run := main P fuel args environ w in
  py_in 2 (phases_to_run_of args) = true ->
  py_in 1 (phases_to_run_of args) = false ->
  is_Some (node_at (fs w) (visual_analysis_cache P args)) ->
  (exists new,
      events (snd run) = events w ++ new
      /\ Forall (fun e => phase1_call e = false) new
      /\ Forall (fun e =>
                   exists visual_analysis srt_content,
                     cached_document P (fs w) (visual_analysis_cache P args)
                     = Some visual_analysis
                     /\ e = phase2_request P (gemini_key_of args environ)
                              visual_analysis srt_content) new)
  /\ (inputs_ready P args environ w ->
      forall visual_analysis srt_content,
        cached_document P (fs w) (visual_analysis_cache P args) = Some visual_analysis ->
        readable P (Some UTF_8) (fs w) (srt_path_of P args) = Some srt_content ->
        events (snd run)
        = events w ++ [phase2_request P (gemini_key_of args environ)
                         visual_analysis srt_content]).
Proof.
  cbv zeta. unfold visual_analysis_cache. intros H2 H1 Hva.
  destruct (main_preamble P fuel args environ w)
    as [(o & w' & -> & Hst & Hev & Hnot)|(w1 & srt & -> & Hg & Hsrt & Hev & Herr)].
  { cbn [fst snd]. split.
    - exists []. rewrite app_nil_r. by repeat split.
    - intros Hready. by destruct Hnot. }
  rewrite (only_phase_2 args H2 H1).
  pose proof (main_phases_2_requests P fuel (gemini_key_of args environ)
                (openai_key_of args environ) (video_path_of P args)
                (output_path_of P args) (cache_dir_of P args) srt
                (time_time P (clock_reads w)) w1
                (grown_is_Some _ _ _ _ Hg Hva)) as Hreq.
  cbv zeta in Hreq. unfold cached_document in *.
  rewrite (grown_readable_same _ _ _ _ _ Hg Hva) in Hreq.
  destruct (readable P None (fs w) _ ≫= json_loads P) as [va|] eqn:Hdoc.
  - rewrite Hreq, Hev. split.
    + eexists. split; [done|]. split; (constructor; [|constructor]).
      * vm_compute. reflexivity.
      * by exists va, srt.
    + intros Hready va' srt' Hva' Hsrt'. injection Hva' as <-.
      apply (grown_readable _ _ _ _ _ _ _ Hg) in Hsrt'. congruence.
  - destruct Hreq as [Hreq _]. rewrite Hreq, Hev. split.
    + exists []. rewrite app_nil_r. by repeat split.
    + intros _ va' srt' Hva'. done.
Qed.

End CachedPrerequisites.

(** ** What the phases leave in the cache *)

Section CacheFiles.
Import video_to_plan.
Context (P : Platform).

Lemma on_return_skip {A B} (m : M A) (k : A -> M B) w (Q : B -> World -> Prop) :
  (forall a w', on_return (k a w') Q) -> on_return ((m ≫= k) w) Q.
Proof. intros Hk. rewrite bind_run. by destruct (m w) as [[a| | |] w']. Qed.

Lemma node_at_insert_eq (f : gmap path node) (p : path) n :
  p <> [] -> node_at (<[p := n]> f) p = Some n.
Proof. intros Hp. destruct p; [done|]. cbn [node_at]. by rewrite lookup_insert_eq. Qed.

(** Steps to the first [write_text], whatever happens before it. *)
Ltac to_the_write :=
  repeat lazymatch goal with
         | |- on_return (@mbind M M_bind _ _ _ (write_text _ _ _ _) _) _ => fail
         | |- on_return (@mbind M M_bind _ _ _ _ _) _ =>
             apply on_return_skip; intros ? ?
         end.

(** Steps through what follows the write: none of it touches a file. *)
Ltac after_the_write :=
  repeat lazymatch goal with
         | |- on_return (@mbind M M_bind _ _ _ _ _) _ => apply on_return_bind
         | |- on_return (print _ _) _ => cbn [print on_return]
         | |- on_return (lift ?x _) _ =>
             destruct x; cbn [lift on_return raise ret]; [|exact I]
         | |- on_return (_elapsed _ _ _) _ =>
             rewrite elapsed_run; cbv zeta; cbn [on_return]
         end.

(** Phase 2 leaves in [synthesis.json] the text of
    [json.dumps(result, indent=2, ensure_ascii=False)], in the encoding
    the locale selects. *)
Lemma run_phase2_cache_file visual_analysis srt_content gemini_key cache_dir w :
  on_return (run_phase2 P visual_analysis srt_content gemini_key cache_dir w)
    (fun result w' =>
       holds_text P (fs w') (joinpath cache_dir (lit "synthesis.json"))
         (dumps P 2 false result)).
Proof.
  unfold run_phase2. cbv zeta.
  rewrite !joinpath_name by (vm_compute; reflexivity).
  to_the_write. apply on_return_bind.
  lazymatch goal with
  | |- on_return (write_text ?P0 ?p ?d ?e ?w0) _ =>
      destruct (write_text_run P0 p d e w0) as [(? & ? & ->)|(b & Hb & ->)]; [exact I|]
  end.
  cbn [on_return]. after_the_write.
  cbn [ret on_return fs set_fs]. exists b. split; [|exact Hb].
  apply node_at_insert_eq. by destruct cache_dir.
Qed.

(** Deleting the uploaded video, whether or not the service accepts
    it, leaves the files alone. *)
Lemma cleanup_run client name msg w :
  exists w',
    try_except (client_files_delete P client name;; print msg) (ret tt) w = (Return tt, w')
    /\ fs w' = fs w.
Proof.
  unfold try_except, client_files_delete. mrun.
  destruct (files_delete_fails P (events w) name); mrun; by eexists.
Qed.

(** Phase 1 does the same in [visual_analysis.json]. *)
Lemma run_phase1_cache_file fuel video_path srt_content gemini_key cache_dir w :
  on_return (run_phase1 P fuel video_path srt_content gemini_key cache_dir w)
    (fun result w' =>
       holds_text P (fs w') (joinpath cache_dir (lit "visual_analysis.json"))
         (dumps P 2 false result)).
Proof.
  unfold run_phase1. cbv zeta.
  rewrite !joinpath_name by (vm_compute; reflexivity).
  to_the_write. apply on_return_bind.
  lazymatch goal with
  | |- on_return (write_text ?P0 ?p ?d ?e ?w0) _ =>
      destruct (write_text_run P0 p d e w0) as [(? & ? & ->)|(b & Hb & ->)]; [exact I|]
  end.
  cbn [on_return]. after_the_write.
  lazymatch goal with
  | |- on_return
         (try_except (@mbind M M_bind _ _ _ (client_files_delete _ ?c ?n)) _ ?w0) _ =>
      destruct (cleanup_run c n (lit "  Cleaned up uploaded video file.") w0)
        as (w1 & -> & Hfs)
  end.
  cbn [on_return]. after_the_write.
  cbn [ret on_return fs set_fs] in *. rewrite Hfs. exists b. split; [|exact Hb].
  apply node_at_insert_eq. by destruct cache_dir.
Qed.

(** With [ensure_ascii=False] a character is written as it is, unless
    it is a control character, a quote or a backslash. *)
Lemma escape_char_literal (c : N) :
  32 <= c -> c <> 34 -> c <> 92 -> escape_char false c = [c].
Proof.
  intros H32 H34 H92. unfold escape_char.
  repeat lazymatch goal with
         | |- context [if c =? ?y then _ else _] =>
             destruct (N.eqb_spec c y); [lia|]
         end.
  destruct (N.ltb_spec c 32); [lia|done].
Qed.

Lemma newlines_out_unix (s : str) : newlines_out [10] s = s.
Proof.
  unfold newlines_out. induction s as [|c s IH]; [done|]. cbn [map concat].
  rewrite IH. destruct (N.eqb_spec c 10) as [->|_]; done.
Qed.

(** So the cache files are UTF-8 where the locale selects UTF-8 (and
    lines end with a line feed), and only there in general. *)
Lemma holds_text_utf8 (f : gmap path node) (p : path) (text : str) :
  locale_encoding P = UTF_8 -> linesep P = [10] ->
  holds_text P f p text ->
  exists b, node_at f p = Some (File b) /\ Utf8.encode text = Some b.
Proof.
  intros Hloc Hsep (b & Hb & Henc). exists b. split; [done|].
  by rewrite Hloc, Hsep, newlines_out_unix in Henc.
Qed.

End CacheFiles.

(** ** Fence stripping: errors and edges *)

Section StripFencesEdges.
Import video_to_plan.

(** X1.  [_strip_fences] raises exactly on the texts that, trimmed,
    open with a fence and have no line break, and what it raises is
    [IndexError]: no other exception leaves it. *)
Theorem X1_strip_fences_raises_iff text :
  (_strip_fences text = Err IndexError
   <-> startswith (strip text) fence = true /\ no_newline (strip text) = true)
  /\ (forall e, _strip_fences text = Err e -> e = IndexError).
Proof.
  assert (forall e, _strip_fences text = Err e ->
            e = IndexError
            /\ startswith (strip text) fence = true /\ no_newline (strip text) = true)
    as Herr.
  { intros e He.
    destruct (startswith (strip text) fence) eqn:Hopen.
    - destruct (no_newline (strip text)) eqn:Hnl.
      + rewrite (strip_fences_no_newline _ Hopen Hnl) in He. by injection He as <-.
      + destruct (proj2 (strip_fences_returns_iff text)) as [r Hr]; [by right|].
        congruence.
    - rewrite strip_fences_not_opened in He by done. done. }
  split; [split|].
  - intros He. by destruct (Herr _ He) as (_ & ? & ?).
  - intros [Hopen Hnl]. by apply strip_fences_no_newline.
  - intros e He. by destruct (Herr _ He).
Qed.

(** X2.  An opening fence without a closing one: the first line goes
    and the rest is kept, trimmed. *)
Theorem X2_strip_fences_unclosed text line rest :
  strip text = fence ++ line ++ [10] ++ rest ->
  no_newline line = true ->
  endswith rest fence = false ->
  _strip_fences text = Ok (strip rest).
Proof.
  intros Htext Hline Hend.
  by rewrite (strip_fences_opened text line rest Htext Hline), Hend.
Qed.

(** X3.  Whatever [_strip_fences] returns is trimmed: it neither
    starts nor ends with white space. *)
Theorem X3_strip_fences_result_trimmed text r :
  _strip_fences text = Ok r -> strip r = r.
Proof.
  unfold _strip_fences. destruct (startswith (strip text) fence).
  - destruct (index _ 1) as [t|]; cbn [mbind except_bind]; [|done].
    destruct (if endswith t fence then _ else _) as [t'|]; cbn [mbind except_bind]; [|done].
    intros [= <-]. apply strip_idem.
  - intros [= <-]. apply strip_idem.
Qed.

End StripFencesEdges.

(** ** The streaming call: what it does to the world *)

Section StreamEffects.
Import video_to_plan.
Context (P : Platform).

(** One turn of the loop: the files, [stderr] and the requests are
    left alone; a progress line is printed when 2000 characters or more
    arrived since the last one, and [last_report] moves to the count. *)
Lemma stream_body_world label start chunks char_count last_report c w :
  (last_report <= char_count)%Z ->
  exists last_report' reports w',
    let char_count' := (char_count + Z.of_nat (length (concat (kept [c]))))%Z in
    stream_body P label start (chunks, char_count, last_report) c w
    = (Return (chunks ++ kept [c], char_count', last_report'), w')
    /\ fs w' = fs w /\ stderr w' = stderr w /\ events w' = events w
    /\ stdout w' = stdout w ++ reports
    /\ (last_report + 2000 * Z.of_nat (length reports) <= last_report' <= char_count')%Z
    /\ Forall (fun line => exists n e,
                 line = report_line label n e
                 /\ (last_report + 2000 <= n <= char_count')%Z) reports.
Proof.
  intros Hle. unfold stream_body. rewrite kept_cons_text, kept_nil.
  destruct c as [[[|x t]|]]; cbn [truthy chunk_text default concat]; unfold id.
  - exists last_report, [], w. cbv zeta. rewrite !app_nil_r, Z.add_0_r.
    repeat split; try done; cbn; lia.
  - rewrite app_nil_r.
    destruct (_ >=? 2000)%Z eqn:E; cbn [length] in E.
    + rewrite Z.geb_leb in E. apply Z.leb_le in E.
      rewrite bind_run, elapsed_run. cbv zeta.
      cbn [mbind M_bind bind _progress print mret M_ret ret].
      eexists _, [_], _. cbv zeta. split; [reflexivity|].
      cbn [fs stderr events stdout length].
      repeat split; try done; try lia.
      constructor; [|constructor]. eexists _, _. split; [reflexivity|]. lia.
    + rewrite Z.geb_leb in E. apply Z.leb_gt in E.
      exists last_report, [], w. cbv zeta. rewrite app_nil_r.
      repeat split; try done; cbn [length]; lia.
  - exists last_report, [], w. cbv zeta. rewrite !app_nil_r, Z.add_0_r.
    repeat split; try done; cbn; lia.
Qed.

Lemma stream_loop_world label start response chunks char_count last_report w :
  (last_report <= char_count)%Z ->
  exists last_report' reports w',
    let char_count' := (char_count + Z.of_nat (length (concat (kept response))))%Z in
    for_each response (stream_body P label start) (chunks, char_count, last_report) w
    = (Return (chunks ++ kept response, char_count', last_report'), w')
    /\ fs w' = fs w /\ stderr w' = stderr w /\ events w' = events w
    /\ stdout w' = stdout w ++ reports
    /\ (last_report + 2000 * Z.of_nat (length reports) <= last_report' <= char_count')%Z
    /\ Forall (fun line => exists n e,
                 line = report_line label n e
                 /\ (last_report + 2000 <= n <= char_count')%Z) reports.
Proof.
  revert chunks char_count last_report w.
  induction response as [|c r IH]; intros chunks char_count last_report w Hle.
  - exists last_report, [], w. cbv zeta. cbn [for_each kept fragments omap list_omap].
    rewrite kept_nil, !app_nil_r. cbn [concat length]. rewrite Z.add_0_r.
    repeat split; try done; lia.
  - cbn [for_each].
    destruct (stream_body_world label start chunks char_count last_report c w Hle)
      as (lr1 & rep1 & w1 & H1 & Hfs1 & Herr1 & Hev1 & Hout1 & Hb1 & Hall1).
    cbv zeta in *. rewrite (bind_return _ _ _ _ _ H1).
    destruct (IH (chunks ++ kept [c])
                (char_count + Z.of_nat (length (concat (kept [c]))))%Z lr1 w1)
      as (lr2 & rep2 & w2 & H2 & Hfs2 & Herr2 & Hev2 & Hout2 & Hb2 & Hall2); [lia|].
    exists lr2, (rep1 ++ rep2), w2.
    rewrite H2, (kept_cons c r), concat_app, !length_app, app_assoc.
    rewrite !Nat2Z.inj_add, !Z.add_assoc in *.
    split; [done|]. split; [congruence|]. split; [congruence|]. split; [congruence|].
    split; [by rewrite Hout2, Hout1, app_assoc|]. split; [lia|].
    apply Forall_app. split; eapply Forall_impl; try eassumption;
      intros line (n & e & -> & Hn); exists n, e; (split; [done|lia]).
Qed.


(** X5.  What [_stream_gemini] prints: the opening line, the progress
    lines and the closing line, which gives the length of the text
    returned.  Every progress line stands for 2000 characters or more
    that no earlier line counted, so 2000 times their number is at most
    that length. *)
Theorem X5_stream_gemini_progress client model c label w :
  exists text elapsed reports w',
    _stream_gemini P client model c label w = (Return text, w')
    /\ stdout w'
       = stdout w ++ [lit "  Streaming from " ++ model ++ lit "..."] ++ reports
         ++ [total_line label (Z.of_nat (length text)) elapsed]
    /\ (2000 * Z.of_nat (length reports) <= Z.of_nat (length text))%Z
    /\ Forall (fun line => exists n e,
                 line = report_line label n e
                 /\ (2000 <= n <= Z.of_nat (length text))%Z) reports.
Proof.
  unfold _stream_gemini, _progress, client_models_generate_content_stream.
  mrun. cbn [time_now]. mrun.
  match goal with
  | |- context [for_each ?r (stream_body P label ?st) ?s ?w0] =>
      destruct (stream_loop_world label st r [] 0%Z 0%Z w0)
        as (lr & reports & w1 & Hloop & _ & _ & _ & Hout & Hb & Hall); [lia|]
  end.
  cbv zeta in *. rewrite Hloop. cbn [stdout] in Hout.
  rewrite elapsed_run. mrun.
  eexists _, _, reports, _. split; [reflexivity|]. cbn [stdout].
  rewrite join_nil. cbn [app]. rewrite Z.add_0_l in *.
  split; [by rewrite Hout, <- !app_assoc|]. split; [lia|].
  eapply Forall_impl; [exact Hall|]. intros line (n & e & -> & Hn).
  exists n, e. split; [done|lia].
Qed.

End StreamEffects.

(** ** Phase 3 *)

Section PhaseThree.
Import video_to_plan.
Context (P : Platform).

(** What a text file holds after [write_text] returned, and what the
    call left alone. *)
Lemma write_text_holds p data encoding w w' :
  write_text P p data encoding w = (Return tt, w') ->
  exists b,
    encode (default (locale_encoding P) encoding) (newlines_out (linesep P) data) = Some b
    /\ node_at (fs w') p = Some (File b)
    /\ (forall q, q <> p -> node_at (fs w') q = node_at (fs w) q)
    /\ stdout w' = stdout w /\ stderr w' = stderr w /\ events w' = events w.
Proof.
  unfold write_text, open_for_writing. mrun.
  destruct (is_dir (fs w) p) eqn:Hdir; [done|].
  assert (p <> []) as Hp by (by intros ->).
  destruct (is_dir (fs w) (parent p)); [|by destruct (existsb _ _)].
  mrun. destruct (encode _ _) as [b|]; mrun; [|done].
  intros [= <-]. exists b. cbn [fs set_fs stdout stderr events].
  split; [done|]. split; [by apply node_at_insert_eq|].
  split; [|done]. intros q Hq. by apply node_at_insert_ne.
Qed.

(** The chunk a completion event stands for in the accumulator. *)
Let chunk_of (event : completion_event) : chunk := mk_chunk (first_delta event).

Lemma fragments_chunk_of stream : fragments (map chunk_of stream) = deltas stream.
Proof.
  unfold fragments, deltas. induction stream as [|ev r IH]; [done|].
  cbn [map omap list_omap chunk_of chunk_text]. by rewrite IH.
Qed.

(** One turn of the loop of phase 3: an event without a choice raises
    [IndexError]; any other adds its text, if it has one. *)
Lemma completion_body_run start chunks char_count last_report ev w :
  match event_choices ev with
  | [] =>
      completion_body P start (chunks, char_count, last_report) ev w
      = (Raise IndexError, w)
  | _ :: _ =>
      exists char_count' last_report' w',
        completion_body P start (chunks, char_count, last_report) ev w
        = (Return (chunks ++ kept [chunk_of ev], char_count', last_report'), w')
        /\ fs w' = fs w /\ stderr w' = stderr w /\ events w' = events w
  end.
Proof.
  unfold completion_body. rewrite kept_cons_text, kept_nil.
  unfold chunk_of, first_delta. cbn [chunk_text].
  destruct (event_choices ev) as [|c0 cs]; [done|].
  cbn [index nth_error lift]. rewrite bind_run. cbn [ret].
  destruct (match choice_delta c0 with Some d => delta_content d | None => None end)
    as [[|x t]|]; cbn [truthy default].
  - exists char_count, last_report, w. by rewrite app_nil_r.
  - destruct (_ >=? 2000)%Z.
    + rewrite bind_run, elapsed_run. cbv zeta.
      cbn [mbind M_bind bind _progress print mret M_ret ret].
      eexists _, _, _. split; [reflexivity|]. done.
    + eexists _, _, _. split; [reflexivity|]. done.
  - exists char_count, last_report, w. by rewrite app_nil_r.
Qed.

Lemma completion_loop_run start stream chunks char_count last_report w :
  exists o w',
    for_each stream (completion_body P start) (chunks, char_count, last_report) w
    = (o, w')
    /\ fs w' = fs w /\ stderr w' = stderr w /\ events w' = events w
    /\ (Forall (fun ev => event_choices ev <> []) stream ->
        exists char_count' last_report',
          o = Return (chunks ++ kept (map chunk_of stream), char_count', last_report'))
    /\ (Exists (fun ev => event_choices ev = []) stream -> o = Raise IndexError).
Proof.
  revert chunks char_count last_report w.
  induction stream as [|ev r IH]; intros chunks char_count last_report w.
  - eexists _, w. split; [reflexivity|]. do 3 (split; [done|]). split.
    + intros _. eexists _, _. cbn [map]. by rewrite kept_nil, app_nil_r.
    + intros H. by apply Exists_nil in H.
  - cbn [for_each].
    pose proof (completion_body_run start chunks char_count last_report ev w) as Hbody.
    destruct (event_choices ev) as [|c0 cs] eqn:Hev.
    + rewrite (bind_raise _ _ _ _ _ Hbody). eexists _, w. split; [reflexivity|].
      do 3 (split; [done|]). split; [|done].
      intros Hall. apply Forall_cons in Hall as [Hne _]. congruence.
    + destruct Hbody as (cc1 & lr1 & w1 & H1 & Hfs1 & Herr1 & Hev1).
      rewrite (bind_return _ _ _ _ _ H1).
      destruct (IH (chunks ++ kept [chunk_of ev]) cc1 lr1 w1)
        as (o & w2 & H2 & Hfs2 & Herr2 & Hev2 & Hret & Hraise).
      exists o, w2. split; [done|].
      split; [congruence|]. split; [congruence|]. split; [congruence|]. split.
      * intros Hall. apply Forall_cons in Hall as [_ Hall].
        destruct (Hret Hall) as (cc' & lr' & ->). exists cc', lr'.
        change (map chunk_of (ev :: r)) with (chunk_of ev :: map chunk_of r).
        by rewrite (kept_cons (chunk_of ev) (map chunk_of r)), app_assoc.
      * intros Hex. apply Exists_cons in Hex as [Hex|Hex]; [congruence|by apply Hraise].
Qed.

Lemma choices_or_not (stream : list completion_event) :
  Forall (fun ev => event_choices ev <> []) stream
  \/ Exists (fun ev => event_choices ev = []) stream.
Proof.
  induction stream as [|ev r [IH|IH]]; [by left| |right; by right].
  destruct (event_choices ev) eqn:E; [right; by left|].
  left. constructor; [congruence|done].
Qed.

(** A run of phase 3, case by case. *)
Lemma run_phase3_run synthesis openai_key output_path w :
  let stream := completion_of P synthesis w in
  exists o w',
    run_phase3 P synthesis openai_key output_path w = (o, w')
    /\ events w' = events w ++ [phase3_request P openai_key synthesis]
    /\ stderr w' = stderr w
    /\ (Exists (fun ev => event_choices ev = []) stream ->
        o = Raise IndexError /\ fs w' = fs w)
    /\ (forall prd, o = Return prd ->
        Forall (fun ev => event_choices ev <> []) stream
        /\ prd = concat (deltas stream)
        /\ exists b,
            node_at (fs w') output_path = Some (File b)
            /\ Utf8.encode (newlines_out (linesep P) prd) = Some b
            /\ forall q, q <> output_path -> node_at (fs w') q = node_at (fs w) q).
Proof.
  cbv zeta. unfold run_phase3, _progress, client_chat_completions_create, completion_of.
  cbv zeta. mrun. cbn [time_now]. mrun.
  match goal with
  | |- context [for_each ?r (completion_body P ?st) ?s ?w0] =>
      destruct (completion_loop_run st r [] 0%Z 0%Z w0)
        as (o & w1 & Hloop & Hfs & Herr & Hev & Hret & Hraise)
  end.
  rewrite Hloop. cbn [fs stderr events] in *.
  destruct (choices_or_not (chat_completions_create P (events w)
                              (PHASE3_PROMPT_format (dumps P 2 false synthesis))))
    as [Hall|Hex].
  - destruct (Hret Hall) as (cc & lr & ->). rewrite elapsed_run. mrun.
    match goal with
    | |- context [write_text P ?p ?d ?e ?w0] =>
        pose proof (keeps_write_text stderr P p d e w0) as Hkerr;
        pose proof (keeps_write_text events P p d e w0) as Hkev;
        pose proof (write_text_holds p d e w0) as Hholds;
        destruct (write_text P p d e w0) as [[[]| | |] w2]
    end; cbn [snd stderr events] in Hkerr, Hkev.
    + destruct (Hholds w2 eq_refl) as (b & Henc & Hb & Hsame & _).
      rewrite elapsed_run. mrun. eexists _, _. split; [reflexivity|].
      cbn [stderr events fs]. split; [by rewrite Hkev, Hev|]. split; [by rewrite Hkerr|].
      split.
      * intros Hex. exfalso. clear -Hall Hex.
        induction Hex as [ev r Hev|ev r _ IH]; apply Forall_cons in Hall as [? ?]; auto.
      * intros prd [= <-]. split; [done|].
        rewrite join_nil. cbn [app]. rewrite concat_kept, fragments_chunk_of.
        split; [done|]. exists b. split; [done|]. cbn [default encode] in Henc.
        rewrite join_nil in Henc. cbn [app] in Henc.
        rewrite concat_kept, fragments_chunk_of in Henc. split; [done|].
        intros q Hq. rewrite (Hsame q Hq). cbn [fs]. by rewrite Hfs.
    + eexists _, _. split; [reflexivity|].
      split; [by rewrite Hkev, Hev|]. split; [by rewrite Hkerr|]. split; [|done].
      intros Hex. exfalso. clear -Hall Hex.
      induction Hex as [ev r Hev|ev r _ IH]; apply Forall_cons in Hall as [? ?]; auto.
    + eexists _, _. split; [reflexivity|].
      split; [by rewrite Hkev, Hev|]. split; [by rewrite Hkerr|]. split; [|done].
      intros Hex. exfalso. clear -Hall Hex.
      induction Hex as [ev r Hev|ev r _ IH]; apply Forall_cons in Hall as [? ?]; auto.
    + eexists _, _. split; [reflexivity|].
      split; [by rewrite Hkev, Hev|]. split; [by rewrite Hkerr|]. split; [|done].
      intros Hex. exfalso. clear -Hall Hex.
      induction Hex as [ev r Hev|ev r _ IH]; apply Forall_cons in Hall as [? ?]; auto.
  - rewrite (Hraise Hex). eexists _, _. split; [reflexivity|].
    split; [done|]. split; [done|]. split; [done|]. done.
Qed.

(** X6.  Phase 3 always makes one request, to [gpt-5.2] with
    temperature 0.3 and at most 16384 tokens, and never writes on
    [stderr].  When it returns, every event of the stream had a choice,
    the text returned is the concatenation of their pieces, and the
    output file holds that text in UTF-8 whatever the locale is; no
    other file changed. *)
Theorem X6_run_phase3_result synthesis openai_key output_path w :
  let stream := completion_of P synthesis w in
  let run := run_phase3 P synthesis openai_key output_path w in
  events (snd run) = events w ++ [phase3_request P openai_key synthesis]
  /\ stderr (snd run) = stderr w
  /\ (forall prd w',
        run = (Return prd, w') ->
        prd = concat (deltas stream)
        /\ exists b,
            node_at (fs w') output_path = Some (File b)
            /\ Utf8.encode (newlines_out (linesep P) prd) = Some b
            /\ forall q, q <> output_path -> node_at (fs w') q = node_at (fs w) q).
Proof.
  cbv zeta.
  destruct (run_phase3_run synthesis openai_key output_path w)
    as (o & w1 & -> & Hev & Herr & _ & Hret).
  cbn [fst snd]. do 2 (split; [done|]).
  intros prd w' [= -> ->]. by destruct (Hret prd eq_refl) as (_ & ? & ?).
Qed.

(** X7.  An event without a choice anywhere in the stream stops phase
    3 with [IndexError]; the request was made, and no file is written. *)
Theorem X7_run_phase3_empty_choices synthesis openai_key output_path w :
  Exists (fun ev => event_choices ev = []) (completion_of P synthesis w) ->
  let run := run_phase3 P synthesis openai_key output_path w in
  fst run = Raise IndexError /\ fs (snd run) = fs w.
Proof.
  intros Hex. cbv zeta.
  destruct (run_phase3_run synthesis openai_key output_path w)
    as (o & w1 & -> & _ & _ & Hraise & _).
  cbn [fst snd]. by apply Hraise.
Qed.

End PhaseThree.

(** ** Text encodings: what is written can be read back *)

Section Utf8RoundTrip.

(** Arithmetic with quotients and remainders by constants. *)
Ltac div_lia := zify; Z.to_euclidean_division_equations; lia.

Lemma land_mul_pow2_low (h x k : N) : x < 2 ^ k -> N.land (h * 2 ^ k) x = 0.
Proof.
  intros Hx. apply N.bits_inj_0. intros n. rewrite N.land_spec.
  destruct (N.lt_ge_cases n k) as [Hn|Hn].
  - by rewrite N.mul_pow2_bits_low.
  - rewrite <- (N.mod_small x (2 ^ k)) by done.
    rewrite N.mod_pow2_bits_high by done. apply andb_false_r.
Qed.

(** Setting bits above the ones of [x] adds. *)
Lemma lor_mul_pow2 (h x k : N) : x < 2 ^ k -> N.lor (h * 2 ^ k) x = h * 2 ^ k + x.
Proof.
  intros Hx. pose proof (land_mul_pow2_low h x k Hx) as Hland.
  by rewrite <- (N.lxor_lor _ _ Hland), (N.add_nocarry_lxor _ _ Hland).
Qed.

Lemma land_low (x k : N) : N.land x (N.ones k) = x mod 2 ^ k.
Proof. apply N.land_ones. Qed.

(** The bytes of one code point, as sums. *)
Lemma encode_char_bytes (c : N) :
  Utf8.encode_char c =
    if c <? 128 then Some [c]
    else if c <? 2048 then Some [192 + c / 64; 128 + c mod 64]
    else if c <? 65536 then
      if Utf8.is_surrogate c then None
      else Some [224 + c / 4096; 128 + (c / 64) mod 64; 128 + c mod 64]
    else if c <=? 1114111 then
      Some [240 + c / 262144; 128 + (c / 4096) mod 64; 128 + (c / 64) mod 64;
            128 + c mod 64]
    else None.
Proof.
  unfold Utf8.encode_char.
  assert (forall y, N.lor 128 (N.land y 63) = 128 + y mod 64) as Hcont.
  { intros y. change 63 with (N.ones 6). rewrite land_low.
    change 128 with (2 * 2 ^ 6). apply lor_mul_pow2. by apply N.mod_lt. }
  rewrite !N.shiftr_div_pow2, !Hcont.
  change (2 ^ 6) with 64. change (2 ^ 12) with 4096. change (2 ^ 18) with 262144.
  destruct (N.ltb_spec c 128); [done|].
  destruct (N.ltb_spec c 2048).
  { change 192 with (3 * 2 ^ 6) at 1. rewrite lor_mul_pow2; [done|].
    change (2 ^ 6) with 64. div_lia. }
  destruct (N.ltb_spec c 65536).
  { destruct (Utf8.is_surrogate c); [done|].
    change 224 with (14 * 2 ^ 4) at 1. rewrite lor_mul_pow2; [done|].
    change (2 ^ 4) with 16. div_lia. }
  destruct (N.leb_spec c 1114111); [|done].
  change 240 with (30 * 2 ^ 3) at 1. rewrite lor_mul_pow2; [done|].
  change (2 ^ 3) with 8. div_lia.
Qed.

(** The steps of the decoder, on bytes given by their range. *)
Lemma decode_ascii (x : N) (r : bytes) (acc low : N) :
  x < 128 ->
  Utf8.decode_from 0 acc low (x :: r) = option_map (cons x) (Utf8.decode_from 0 0 0 r).
Proof. intros Hx. cbn [Utf8.decode_from]. by rewrite (proj2 (N.ltb_lt x 128) Hx). Qed.

Lemma decode_lead (x : N) (r : bytes) (acc low : N) :
  128 <= x ->
  Utf8.decode_from 0 acc low (x :: r) =
    if (194 <=? x) && (x <=? 223) then Utf8.decode_from 1 (x mod 32) 128 r
    else if (224 <=? x) && (x <=? 239) then Utf8.decode_from 2 (x mod 16) 2048 r
    else if (240 <=? x) && (x <=? 244) then Utf8.decode_from 3 (x mod 8) 65536 r
    else None.
Proof.
  intros Hx. cbn [Utf8.decode_from]. rewrite (proj2 (N.ltb_ge x 128) Hx).
  change 31 with (N.ones 5). change 15 with (N.ones 4). change 7 with (N.ones 3).
  by rewrite !land_low.
Qed.

Lemma decode_cont (n : nat) (x : N) (r : bytes) (acc low : N) :
  128 <= x <= 191 ->
  Utf8.decode_from (S n) acc low (x :: r) =
    let acc' := acc * 64 + x mod 64 in
    match n with
    | O =>
        if (low <=? acc') && negb (Utf8.is_surrogate acc') && (acc' <=? 1114111)
        then option_map (cons acc') (Utf8.decode_from 0 0 0 r)
        else None
    | S _ => Utf8.decode_from n acc' low r
    end.
Proof.
  intros [Hlo Hhi]. cbn [Utf8.decode_from]. unfold Utf8.is_cont.
  rewrite (proj2 (N.leb_le 128 x) Hlo), (proj2 (N.leb_le x 191) Hhi). cbn [andb].
  rewrite N.shiftl_mul_pow2. change 63 with (N.ones 6). rewrite land_low.
  rewrite lor_mul_pow2 by (by apply N.mod_lt). done.
Qed.

Ltac test_true := rewrite (proj2 (N.leb_le _ _)) by div_lia.
Ltac test_false := rewrite (proj2 (N.leb_gt _ _)) by div_lia.

(** Decoding the bytes of a code point gives the code point, and goes
    on with what follows. *)
Lemma decode_encode_char (c : N) (bs r : bytes) :
  Utf8.encode_char c = Some bs ->
  Utf8.decode_from 0 0 0 (bs ++ r) = option_map (cons c) (Utf8.decode_from 0 0 0 r).
Proof.
  rewrite encode_char_bytes.
  destruct (N.ltb_spec c 128) as [H1|H1].
  { intros [= <-]. by apply decode_ascii. }
  destruct (N.ltb_spec c 2048) as [H2|H2].
  { intros [= <-]. cbn [app].
    rewrite decode_lead by div_lia.
    replace ((194 <=? 192 + c / 64) && (192 + c / 64 <=? 223)) with true
      by (symmetry; apply andb_true_iff; split; apply N.leb_le; div_lia).
    rewrite decode_cont by div_lia. cbv zeta.
    replace ((192 + c / 64) mod 32 * 64 + (128 + c mod 64) mod 64) with c by div_lia.
    replace (128 <=? c) with true by (symmetry; apply N.leb_le; lia).
    replace (Utf8.is_surrogate c) with false
      by (symmetry; unfold Utf8.is_surrogate; apply andb_false_iff; left;
          apply N.leb_gt; lia).
    replace (c <=? 1114111) with true by (symmetry; apply N.leb_le; lia).
    done. }
  destruct (N.ltb_spec c 65536) as [H3|H3].
  { destruct (Utf8.is_surrogate c) eqn:Hsur; [done|]. intros [= <-]. cbn [app].
    rewrite decode_lead by div_lia.
    replace ((194 <=? 224 + c / 4096) && (224 + c / 4096 <=? 223)) with false
      by (symmetry; apply andb_false_iff; right; apply N.leb_gt; div_lia).
    replace ((224 <=? 224 + c / 4096) && (224 + c / 4096 <=? 239)) with true
      by (symmetry; apply andb_true_iff; split; apply N.leb_le; div_lia).
    rewrite decode_cont by div_lia. cbv zeta.
    rewrite decode_cont by div_lia. cbv zeta.
    replace (((224 + c / 4096) mod 16 * 64 + (128 + (c / 64) mod 64) mod 64) * 64
             + (128 + c mod 64) mod 64) with c by div_lia.
    replace (2048 <=? c) with true by (symmetry; apply N.leb_le; lia).
    replace (c <=? 1114111) with true by (symmetry; apply N.leb_le; lia).
    by rewrite Hsur. }
  destruct (N.leb_spec c 1114111) as [H4|H4]; [|done].
  intros [= <-]. cbn [app].
  rewrite decode_lead by div_lia.
  replace ((194 <=? 240 + c / 262144) && (240 + c / 262144 <=? 223)) with false
    by (symmetry; apply andb_false_iff; right; apply N.leb_gt; div_lia).
  replace ((224 <=? 240 + c / 262144) && (240 + c / 262144 <=? 239)) with false
    by (symmetry; apply andb_false_iff; right; apply N.leb_gt; div_lia).
  replace ((240 <=? 240 + c / 262144) && (240 + c / 262144 <=? 244)) with true
    by (symmetry; apply andb_true_iff; split; apply N.leb_le; div_lia).
  rewrite decode_cont by div_lia. cbv zeta.
  rewrite decode_cont by div_lia. cbv zeta.
  rewrite decode_cont by div_lia. cbv zeta.
  replace ((((240 + c / 262144) mod 8 * 64 + (128 + (c / 4096) mod 64) mod 64) * 64
            + (128 + (c / 64) mod 64) mod 64) * 64 + (128 + c mod 64) mod 64)
    with c by div_lia.
  replace (65536 <=? c) with true by (symmetry; apply N.leb_le; lia).
  replace (c <=? 1114111) with true by (symmetry; apply N.leb_le; lia).
  replace (Utf8.is_surrogate c) with false
    by (symmetry; unfold Utf8.is_surrogate; apply andb_false_iff; right;
        apply N.leb_gt; lia).
  done.
Qed.

(** [s.encode("utf-8").decode("utf-8") == s] *)
Lemma utf8_decode_encode (s : str) (b : bytes) :
  Utf8.encode s = Some b -> Utf8.decode b = Some s.
Proof.
  unfold Utf8.decode. revert b. induction s as [|c s IH]; intros b.
  - by intros [= <-].
  - cbn [Utf8.encode].
    destruct (Utf8.encode_char c) as [bc|] eqn:Hc; [|done].
    destruct (Utf8.encode s) as [bs|]; [|done].
    intros [= <-]. by rewrite (decode_encode_char c bc bs Hc), (IH bs eq_refl).
Qed.

End Utf8RoundTrip.

Section TextRoundTrip.

(** [s.encode(c).decode(c) == s] for each encoding a locale selects. *)
Lemma decode_encode (c : codec) (s : str) (b : bytes) :
  encode c s = Some b -> decode c b = Some s.
Proof.
  destruct c; cbn [encode decode].
  - apply utf8_decode_encode.
  - unfold encode_below. destruct (forallb _ s); [|done]. by intros [= <-].
  - unfold encode_below. destruct (forallb _ s) eqn:E; [|done].
    intros [= <-]. by rewrite E.
Qed.

(** A text without carriage returns comes back from a file as it was
    written, on a platform that ends lines with a line feed or with a
    carriage return and a line feed. *)
Lemma newlines_in_out (sep s : str) :
  sep = [10] \/ sep = [13; 10] ->
  Forall (fun c => c <> 13) s ->
  newlines_in (newlines_out sep s) = s.
Proof.
  intros Hsep. unfold newlines_out.
  induction 1 as [|c s Hc _ IH]; [done|]. cbn [map concat].
  destruct (N.eqb_spec c 10) as [->|Hne].
  - destruct Hsep as [-> | ->]; cbn [app newlines_in].
    + change (10 =? 13) with false. cbv iota. by rewrite IH.
    + change (13 =? 13) with true. change (10 =? 10) with true. cbv iota.
      by rewrite IH.
  - cbn [app newlines_in]. destruct (N.eqb_spec c 13); [done|]. by rewrite IH.
Qed.

End TextRoundTrip.

(** ** The text of [json.dumps] has no carriage return *)

Section DumpsText.
Context {F : Type} (floatstr : F -> str).

(** Induction on documents, through the lists they hold. *)
Lemma json_induction (Q : json F -> Prop) :
  Q JNull -> (forall b, Q (JBool b)) -> (forall z, Q (JInt z)) ->
  (forall f, Q (JFloat f)) -> (forall s, Q (JStr s)) ->
  (forall l, Forall Q l -> Q (JList l)) ->
  (forall d, Forall (fun kv => Q (snd kv)) d -> Q (JDict d)) ->
  forall o, Q o.
Proof.
  intros Hnull Hbool Hint Hfloat Hstr Hlist Hdict.
  fix IH 1. intros [ |b|z|f|s|l|d]; [done..| |].
  - apply Hlist. induction l as [|x l IHl]; constructor; [apply IH|exact IHl].
  - apply Hdict. induction d as [|[k v] d IHd]; constructor; [apply IH|exact IHd].
Qed.

Abbreviation no_cr := (Forall (fun c : N => c <> 13)).

Lemma no_cr_forallb (s : str) : forallb (fun c => negb (c =? 13)) s = true -> no_cr s.
Proof.
  rewrite forallb_forall, Forall_forall. intros H c Hc.
  apply list_elem_of_In, H, negb_true_iff, N.eqb_neq in Hc. done.
Qed.

Lemma uint_digits_no_cr u : no_cr (uint_digits u).
Proof. induction u; cbn [uint_digits]; constructor; done. Qed.

Lemma str_of_int_no_cr z : no_cr (str_of_int z).
Proof.
  unfold str_of_int. destruct (Z.to_int z); [|constructor; [done|]];
    apply uint_digits_no_cr.
Qed.

Lemma hex4_no_cr c : no_cr (hex4 c).
Proof.
  unfold hex4, hex_digit. repeat constructor; destruct (_ <? 10); lia.
Qed.

Lemma escape_char_no_cr ensure_ascii c : no_cr (escape_char ensure_ascii c).
Proof.
  unfold escape_char.
  repeat lazymatch goal with
         | |- context [if c =? ?y then _ else _] =>
             destruct (N.eqb_spec c y); [by repeat constructor|]
         end.
  destruct (c <? 32); [apply Forall_app; split; [by repeat constructor|apply hex4_no_cr]|].
  destruct (negb ensure_ascii); [by repeat constructor|].
  destruct (c <? 127); [by repeat constructor|].
  destruct (c <? 65536).
  - apply Forall_app; split; [by repeat constructor|apply hex4_no_cr].
  - cbv zeta. repeat (apply Forall_app; split);
      first [apply hex4_no_cr | by repeat constructor].
Qed.

Lemma encode_basestring_no_cr ensure_ascii s : no_cr (encode_basestring ensure_ascii s).
Proof.
  unfold encode_basestring. apply Forall_app. split; [by repeat constructor|].
  apply Forall_app. split; [|by repeat constructor].
  apply Forall_concat, Forall_fmap, Forall_forall. intros c _.
  apply escape_char_no_cr.
Qed.

Lemma newline_indent_no_cr indent level : no_cr (newline_indent indent level).
Proof.
  unfold newline_indent. constructor; [done|].
  apply Forall_forall. intros c Hc%list_elem_of_In%repeat_spec. by subst.
Qed.

Lemma join_no_cr (sep : str) (l : list str) :
  no_cr sep -> Forall no_cr l -> no_cr (join sep l).
Proof.
  intros Hsep. induction 1 as [|x l Hx Hl IH]; [constructor|].
  destruct l as [|y l]; [done|].
  change (join sep (x :: y :: l)) with (x ++ sep ++ join sep (y :: l)).
  by repeat (apply Forall_app; split).
Qed.

Hypothesis floatstr_no_cr : forall f, no_cr (floatstr f).

Lemma iterencode_no_cr indent ensure_ascii o :
  forall level, no_cr (iterencode floatstr indent ensure_ascii level o).
Proof.
  induction o as [ |b|z|f|s|l IH|d IH] using json_induction; intros level;
    cbn [iterencode].
  - by apply no_cr_forallb.
  - destruct b; by apply no_cr_forallb.
  - apply str_of_int_no_cr.
  - apply floatstr_no_cr.
  - apply encode_basestring_no_cr.
  - destruct l as [|x l]; [by apply no_cr_forallb|].
    repeat (apply Forall_app; split);
      try apply newline_indent_no_cr; try (by repeat constructor).
    apply join_no_cr.
    + apply Forall_app. split; [by repeat constructor|apply newline_indent_no_cr].
    + apply Forall_fmap. eapply Forall_impl; [exact IH|]. intros o Ho. apply Ho.
  - destruct d as [|kv d]; [by apply no_cr_forallb|].
    repeat (apply Forall_app; split);
      try apply newline_indent_no_cr; try (by repeat constructor).
    apply join_no_cr.
    + apply Forall_app. split; [by repeat constructor|apply newline_indent_no_cr].
    + apply Forall_fmap. eapply Forall_impl; [exact IH|]. intros [k v] Hv.
      unfold compose. apply Forall_app. split; [apply encode_basestring_no_cr|].
      apply Forall_app. split; [by apply no_cr_forallb|apply Hv].
Qed.

Lemma json_dumps_no_cr indent ensure_ascii o :
  no_cr (json_dumps floatstr indent ensure_ascii o).
Proof. apply iterencode_no_cr. Qed.

End DumpsText.

(** ** The cache read back *)

Section CacheRoundTrip.
Import video_to_plan.
Context (P : Platform).

(** A text held by a file is the text [read_text] gives back, when it
    has no carriage return. *)
Lemma holds_text_readable (f : gmap path node) (p : path) (text : str) :
  linesep P = [10] \/ linesep P = [13; 10] ->
  Forall (fun c => c <> 13) text ->
  holds_text P f p text -> readable P None f p = Some text.
Proof.
  intros Hsep Htext (b & Hb & Henc). unfold readable. rewrite Hb. cbn [default].
  rewrite (decode_encode _ _ _ Henc). cbn [fmap option_fmap option_map].
  by rewrite newlines_in_out.
Qed.

(** X8.  What a phase caches, a later run reads back: after phase 1 or
    phase 2 returned a document, reading the cache file as [main] does
    gives the very text of [json.dumps(result, indent=2,
    ensure_ascii=False)], whatever encoding the locale selects; so the
    document [main] loads from the cache is what [json.loads] makes of
    that text. *)
Theorem X8_cache_round_trip :
  linesep P = [10] \/ linesep P = [13; 10] ->
  (forall f, Forall (fun c => c <> 13) (floatstr P f)) ->
  (forall fuel video_path srt_content gemini_key cache_dir w result w',
      run_phase1 P fuel video_path srt_content gemini_key cache_dir w = (Return result, w') ->
      let cached := joinpath cache_dir (lit "visual_analysis.json") in
      readable P None (fs w') cached = Some (dumps P 2 false result)
      /\ cached_document P (fs w') cached = json_loads P (dumps P 2 false result))
  /\ (forall visual_analysis srt_content gemini_key cache_dir w result w',
        run_phase2 P visual_analysis srt_content gemini_key cache_dir w
        = (Return result, w') ->
        let cached := joinpath cache_dir (lit "synthesis.json") in
        readable P None (fs w') cached = Some (dumps P 2 false result)
        /\ cached_document P (fs w') cached = json_loads P (dumps P 2 false result)).
Proof.
  intros Hsep Hfloat.
  assert (forall f p result,
             holds_text P f p (dumps P 2 false result) ->
             readable P None f p = Some (dumps P 2 false result)
             /\ cached_document P f p = json_loads P (dumps P 2 false result)) as Hback.
  { intros f p result Hholds.
    assert (readable P None f p = Some (dumps P 2 false result)) as Hread.
    { apply holds_text_readable; [done| |done]. by apply json_dumps_no_cr. }
    split; [done|]. unfold cached_document. by rewrite Hread. }
  split.
  - intros fuel video_path srt_content gemini_key cache_dir w result w' Hrun. cbv zeta.
    apply Hback.
    pose proof (run_phase1_cache_file P fuel video_path srt_content gemini_key
                  cache_dir w) as H.
    by rewrite Hrun in H.
  - intros visual_analysis srt_content gemini_key cache_dir w result w' Hrun. cbv zeta.
    apply Hback.
    pose proof (run_phase2_cache_file P visual_analysis srt_content gemini_key
                  cache_dir w) as H.
    by rewrite Hrun in H.
Qed.

End CacheRoundTrip.

(** ** The driver: phase 3 alone *)

Section PhaseThreeAlone.
Import video_to_plan.
Context (P : Platform).

Lemma phase_3_alone args : phase args = Some Phase_3 -> phases_to_run_of args = [3%Z].
Proof. unfold phases_to_run_of. by intros ->. Qed.

(** Phase 3 alone, with a cached synthesis: the visual analysis is
    loaded when it is cached, and must then parse; the request of phase
    3 is built from the cached synthesis. *)
Lemma main_phases_3_requests fuel gk ok video out cache srt ts w1 :
  let run := main_phases P fuel [3%Z] gk ok video out cache srt ts w1 in
  let va_path := joinpath cache (lit "visual_analysis.json") in
  is_Some (node_at (fs w1) (joinpath cache (lit "synthesis.json"))) ->
  match node_at (fs w1) va_path, cached_document P (fs w1) va_path with
  | Some _, None => (exists e, fst run = Raise e) /\ events (snd run) = events w1
                    /\ fs (snd run) = fs w1
  | _, _ =>
      match cached_document P (fs w1) (joinpath cache (lit "synthesis.json")) with
      | Some synthesis => events (snd run) = events w1 ++ [phase3_request P ok synthesis]
      | None => (exists e, fst run = Raise e) /\ events (snd run) = events w1
                /\ fs (snd run) = fs w1
      end
  end.
Proof.
  cbv zeta. intros Hsyn. unfold main_phases, cached_document. cbv zeta.
  change (py_in 1 [3%Z]) with false. change (py_in 2 [3%Z]) with false.
  change (py_in 3 [3%Z]) with true.
  change (existsb (fun p => py_in p [2%Z]) [3%Z]) with false.
  mrun.
  destruct (node_at (fs w1) (joinpath cache (lit "visual_analysis.json")))
    as [n|] eqn:Hva.
  - rewrite bool_decide_eq_true_2 by (by eexists). mrun.
    destruct (read_text_run P (joinpath cache (lit "visual_analysis.json")) None w1)
      as [(s & Hs & ->)|(Hnone & e & ->)].
    + rewrite Hs. cbn [mbind option_bind]. rewrite loads_run.
      destruct (json_loads P s) as [va|]; mrun; [|by eauto].
      rewrite (bool_decide_eq_true_2 _ Hsyn). mrun.
      match goal with
      | |- context [read_text P ?p ?e ?w0] =>
          destruct (read_text_run P p e w0) as [(t & Ht & ->)|(Hnone & e0 & ->)];
          cbn [fs] in *
      end.
      * rewrite Ht. cbn [mbind option_bind]. rewrite loads_run.
        destruct (json_loads P t) as [syn|]; mrun; [|by eauto].
        match goal with
        | |- context [run_phase3 P syn ok out ?w0] =>
            destruct (run_phase3_run P syn ok out w0) as (o & w3 & -> & Hev3 & _)
        end.
        cbn [events] in Hev3.
        destruct o; mrun; [|done..]. rewrite elapsed_run. mrun. cbn [events]. done.
      * rewrite Hnone. cbn [mbind option_bind]. by eauto.
    + rewrite Hnone. cbn [mbind option_bind]. by eauto.
  - rewrite bool_decide_eq_false_2 by (by intros [? ?]). mrun.
    rewrite (bool_decide_eq_true_2 _ Hsyn). mrun.
    match goal with
    | |- context [read_text P ?p ?e ?w0] =>
        destruct (read_text_run P p e w0) as [(t & Ht & ->)|(Hnone & e0 & ->)];
        cbn [fs] in *
    end.
    + rewrite Ht. cbn [mbind option_bind]. rewrite loads_run.
      destruct (json_loads P t) as [syn|]; mrun; [|by eauto].
      match goal with
      | |- context [run_phase3 P syn ok out ?w0] =>
          destruct (run_phase3_run P syn ok out w0) as (o & w3 & -> & Hev3 & _)
      end.
      cbn [events] in Hev3.
      destruct o; mrun; [|done..]. rewrite elapsed_run. mrun. cbn [events]. done.
    + rewrite Hnone. cbn [mbind option_bind]. by eauto.
Qed.

(** The cached documents after the cache directory was made. *)
Lemma grown_cached_document f f' (p q : path) :
  grown f f' p -> is_Some (node_at f q) ->
  cached_document P f' q = cached_document P f q.
Proof.
  intros Hg Hq. unfold cached_document. by rewrite (grown_readable_same P _ _ _ _ _ Hg Hq).
Qed.

Lemma cached_document_node f (q : path) d :
  cached_document P f q = Some d -> is_Some (node_at f q).
Proof.
  unfold cached_document. destruct (readable P None f q) eqn:E; [|done].
  intros _. by eapply readable_node.
Qed.

(** X9.  A run of phase 3 alone whose inputs are ready and whose cache
    holds a synthesis that parses makes one request, the one of phase 3
    built from the cached synthesis, and none to Gemini; a cached visual
    analysis is not needed, but one that is there must parse. *)
Theorem X9_phase3_uses_cached_synthesis fuel args environ w synthesis :
  phase args = Some Phase_3 ->
  inputs_ready P args environ w ->
  node_at (fs w) (visual_analysis_cache P args) = None
  \/ is_Some (cached_document P (fs w) (visual_analysis_cache P args)) ->
  cached_document P (fs w) (synthesis_cache P args) = Some synthesis ->
  events (snd (main P fuel args environ w))
  = events w ++ [phase3_request P (openai_key_of args environ) synthesis].
Proof.
  unfold visual_analysis_cache, synthesis_cache. intros Hphase Hready Hva Hsyn.
  destruct (main_preamble P fuel args environ w)
    as [(o & w' & _ & _ & _ & Hnot)|(w1 & srt & -> & Hg & _ & Hev & _)]; [done|].
  rewrite (phase_3_alone args Hphase).
  pose proof (cached_document_node _ _ _ Hsyn) as Hnode.
  pose proof (main_phases_3_requests fuel (gemini_key_of args environ)
                (openai_key_of args environ) (video_path_of P args)
                (output_path_of P args) (cache_dir_of P args) srt
                (time_time P (clock_reads w)) w1 (grown_is_Some _ _ _ _ Hg Hnode))
    as Hrun.
  cbv zeta in Hrun. rewrite (grown_cached_document _ _ _ _ Hg Hnode), Hsyn, Hev in Hrun.
  destruct Hva as [Hva|[va Hva]].
  - by rewrite (grown_visual_analysis_absent _ _ _ Hg Hva) in Hrun.
  - pose proof (cached_document_node _ _ _ Hva) as Hnva.
    rewrite (grown_cached_document _ _ _ _ Hg Hnva), Hva in Hrun.
    by destruct (node_at (fs w1) _).
Qed.

(** X10.  A run of phase 3 alone reads [visual_analysis.json] when it
    is in the cache, although phase 3 does not use it: if that file
    cannot be decoded or parsed the run dies with an exception before
    any request, even with a synthesis in the cache. *)
Theorem X10_phase3_reads_visual_analysis fuel args environ w :
  phase args = Some Phase_3 ->
  inputs_ready P args environ w ->
  is_Some (node_at (fs w) (visual_analysis_cache P args)) ->
  cached_document P (fs w) (visual_analysis_cache P args) = None ->
  is_Some (node_at (fs w) (synthesis_cache P args)) ->
  (exists e, fst (main P fuel args environ w) = Raise e)
  /\ events (snd (main P fuel args environ w)) = events w.
Proof.
  unfold visual_analysis_cache, synthesis_cache. intros Hphase Hready Hnva Hva Hnode.
  destruct (main_preamble P fuel args environ w)
    as [(o & w' & _ & _ & _ & Hnot)|(w1 & srt & -> & Hg & _ & Hev & _)]; [done|].
  rewrite (phase_3_alone args Hphase).
  pose proof (main_phases_3_requests fuel (gemini_key_of args environ)
                (openai_key_of args environ) (video_path_of P args)
                (output_path_of P args) (cache_dir_of P args) srt
                (time_time P (clock_reads w)) w1 (grown_is_Some _ _ _ _ Hg Hnode))
    as Hrun.
  cbv zeta in Hrun. rewrite (grown_cached_document _ _ _ _ Hg Hnva), Hva, Hev in Hrun.
  destruct (grown_is_Some _ _ _ _ Hg Hnva) as [n Hn]. rewrite Hn in Hrun.
  by destruct Hrun as (? & ? & _).
Qed.

End PhaseThreeAlone.

(** ** The driver: the inputs are checked after the cache directory is made *)

Section InputChecks.
Import video_to_plan.
Context (P : Platform).

(** X11.  [main] creates the cache directory before it looks for the
    video and the subtitles: a run that has its keys and stops because
    the video, or else the subtitles, are missing ends with
    [sys.exit(1)] and the matching line on [stderr], has made no
    request and printed nothing on [stdout], and leaves the cache
    directory behind. *)
Theorem X11_inputs_checked_after_mkdir fuel args environ w :
  (py_in 1 (phases_to_run_of args) || py_in 2 (phases_to_run_of args))
    && negb (truthy (gemini_key_of args environ)) = false ->
  py_in 3 (phases_to_run_of args) && negb (truthy (openai_key_of args environ)) = false ->
  existsb (is_file (fs w)) (prefixes (cache_dir_of P args)) = false ->
  let run := main P fuel args environ w in
  let missing (p : path) :=
    node_at (fs w) p = None /\ p ∉ prefixes (cache_dir_of P args) in
  let stopped (line : str) :=
    fst run = Exit 1%Z
    /\ stderr (snd run) = stderr w ++ [line]
    /\ stdout (snd run) = stdout w
    /\ events (snd run) = events w
    /\ is_dir (fs (snd run)) (cache_dir_of P args) = true
    /\ grown (fs w) (fs (snd run)) (cache_dir_of P args) in
  (missing (video_path_of P args) ->
   stopped (lit "Error: Video file not found: " ++ str_of_path (video_path_of P args)))
  /\ (is_Some (node_at (fs w) (video_path_of P args)) ->
      missing (srt_path_of P args) ->
      stopped (lit "Error: Subtitle file not found: "
               ++ str_of_path (srt_path_of P args))).
Proof.
  intros Hg Ho Hcache. cbv zeta.
  rewrite main_eq, any_phase_1_2, Hg, Ho. mrun.
  destruct (mkdir_run true true (cache_dir_of P args) w)
    as [[e He]|(f1 & -> & Hgrown & Hdir)].
  { apply mkdir_parents_raises in He. congruence. }
  mrun. split.
  - intros [Hnone Hnot].
    rewrite bool_decide_eq_false_2; cycle 1.
    { rewrite (grown_absent _ _ _ _ Hgrown Hnot Hnone). by intros [? ?]. }
    mrun. unfold is_dir. by rewrite Hdir.
  - intros Hvideo [Hnone Hnot].
    rewrite bool_decide_eq_true_2 by (by apply (grown_is_Some _ _ _ _ Hgrown)).
    mrun. rewrite bool_decide_eq_false_2; cycle 1.
    { rewrite (grown_absent _ _ _ _ Hgrown Hnot Hnone). by intros [? ?]. }
    mrun. unfold is_dir. by rewrite Hdir.
Qed.

End InputChecks.

(** ** Promotion: what is copied, and what is left alone *)

Section PromotionCopies.
Import promote_plan.
Context (P : Platform).

Ltac path_differs :=
  solve [ intros [_ Heq]%app_inj_tail; vm_compute in Heq; discriminate
        | let Heq := fresh in
          intros Heq%(f_equal length);
          repeat match goal with x := _ : path |- _ => unfold x in Heq end;
          rewrite !length_app in Heq; cbn in Heq; lia ].

Ltac run_step :=
  lazymatch goal with
  | |- on_return (@mbind M M_bind _ _ _ _ _) _ => apply on_return_bind
  | |- on_return (sys_exit _ _) _ => exact I
  | |- on_return (raise _ _) _ => exact I
  | |- on_return (mkdir ?a ?b ?p ?w0) _ =>
      let f := fresh "f" in
      let Hg := fresh "Hg" in
      let Hd := fresh "Hd" in
      destruct (mkdir_run a b p w0) as [[? ->]|(f & -> & Hg & Hd)];
      [exact I|cbn [on_return fs set_fs] in *]
  | |- on_return (copy2 ?a ?b ?w0) _ =>
      let b0 := fresh "b" in
      let Hb := fresh "Hb" in
      destruct (copy2_run a b w0) as [[? ->]|(b0 & Hb & ->)];
      [exact I|cbn [on_return fs set_fs] in *]
  | |- on_return (write_text ?P0 ?p ?d ?e ?w0) _ =>
      let b0 := fresh "b" in
      let Hb := fresh "Henc" in
      destruct (write_text_run P0 p d e w0) as [(? & ? & ->)|(b0 & Hb & ->)];
      [exact I|cbn [on_return fs set_fs] in *]
  | |- on_return ((if _ then _ else _) _) _ => fail "a test"
  | |- on_return _ _ =>
      eapply on_return_now; [reflexivity|cbv beta; cbn [fs set_fs] in *]
  end.

Lemma snoc_not_nil (p : path) (c : str) : p ++ [c] <> [].
Proof. by destruct p. Qed.

(** One turn of the loop over the artifacts, when the place of the
    artifact in the destination is free. *)
Lemma copy_artifact_on_return cache_dir dest copied_artifacts filename w :
  startswith filename [47] = false -> parts filename = [filename] ->
  node_at (fs w) ((dest ++ [lit "artifacts"]) ++ [filename]) = None ->
  on_return (copy_artifact cache_dir dest copied_artifacts filename w)
    (fun copied' w' =>
       (node_at (fs w) (cache_dir ++ [filename]) = None
        /\ copied' = copied_artifacts /\ fs w' = fs w)
       \/ (exists b,
             node_at (fs w) (cache_dir ++ [filename]) = Some (File b)
             /\ copied' = copied_artifacts ++ [filename]
             /\ fs w' = <[(dest ++ [lit "artifacts"]) ++ [filename] := File b]> (fs w))).
Proof.
  intros H1 H2 Hfree. unfold copy_artifact. cbv zeta.
  rewrite (joinpath_name dest (lit "artifacts")) by (vm_compute; reflexivity).
  rewrite !(joinpath_name _ filename) by done.
  apply on_return_bind. cbn [path_exists on_return].
  case_bool_decide as Hex.
  - apply on_return_bind.
    destruct (copy2_run (cache_dir ++ [filename])
                ((dest ++ [lit "artifacts"]) ++ [filename]) w)
      as [[e ->]|(b & Hb & ->)]; [exact I|].
    cbn [on_return]. apply on_return_bind. cbn [print on_return mret M_ret ret fs set_fs].
    right. exists b. split; [done|]. split; [done|].
    unfold is_dir. by rewrite Hfree.
  - left. split; [|done].
    destruct (node_at (fs w) (cache_dir ++ [filename])); [destruct Hex; by eexists|done].
Qed.

Lemma promote_copies name plan_path cache_dir output_root w :
  wf_fs (fs w) = true ->
  on_return (promote P name plan_path cache_dir output_root w)
    (fun dest w' =>
       dest = joinpath output_root name
       /\ (exists b, node_at (fs w) plan_path = Some (File b)
                     /\ node_at (fs w') (dest ++ [lit "PRD.md"]) = Some (File b))
       /\ (forall filename b,
              filename ∈ [lit "visual_analysis.json"; lit "synthesis.json"] ->
              node_at (fs w) (cache_dir ++ [filename]) = Some (File b) ->
              node_at (fs w') ((dest ++ [lit "artifacts"]) ++ [filename]) = Some (File b))
       /\ (forall q n, node_at (fs w) q = Some n -> node_at (fs w') q = Some n)
       /\ (exists promoted_at date,
             let copied_artifacts :=
               filter (fun filename => is_file (fs w) (cache_dir ++ [filename]) = true)
                 [lit "visual_analysis.json"; lit "synthesis.json"] in
             holds_text P (fs w') ((dest ++ [lit "artifacts"]) ++ [lit "metadata.json"])
               (dumps P 2 true
                  (metadata_of P name promoted_at plan_path cache_dir copied_artifacts)
                ++ [10])
             /\ holds_text P (fs w') (dest ++ [lit "README.md"])
                  (join [10] (readme_lines_of name date copied_artifacts)))).
Proof.
  intros Hwf. unfold promote. cbv zeta.
  remember (joinpath output_root name) as dest eqn:Hdest.
  do 2 run_step. run_step.
  case_bool_decide as Hex; [repeat run_step|].
  assert (node_at (fs w) dest = None) as Hnone.
  { destruct (node_at (fs w) dest); [destruct Hex; by eexists|done]. }
  repeat run_step.
  rewrite !joinpath_name in * by (vm_compute; reflexivity).
  set (art := dest ++ [lit "artifacts"]) in *.
  assert (forall q : path, q <> [] -> node_at (fs w) (dest ++ q) = None) as Hfresh.
  { intros q _. by apply wf_fs_fresh. }
  assert (forall c : str, c <> lit "artifacts" -> node_at f0 (dest ++ [c]) = None)
    as Hchild.
  { intros c Hc. apply (grown_absent _ _ _ _ Hg0); [by apply sibling_not_prefix|].
    apply (grown_absent _ _ _ _ Hg); [apply child_not_prefix|]. by apply Hfresh. }
  assert (forall c : str, node_at f0 (art ++ [c]) = None) as Hunder.
  { intros c. apply (grown_absent _ _ _ _ Hg0); [apply child_not_prefix|].
    unfold art. rewrite <- app_assoc.
    apply (grown_absent _ _ _ _ Hg); [|by apply Hfresh].
    intros H%prefixes_length. rewrite length_app in H. cbn in H. lia. }
  assert (is_dir f0 (dest ++ [lit "PRD.md"]) = false) as Hprd.
  { unfold is_dir. rewrite Hchild; [done|]. vm_compute. discriminate. }
  rewrite Hprd.
  assert (forall q n, node_at (fs w) q = Some n -> node_at f0 q = Some n) as Hkeep.
  { intros q n Hq. by apply (grown_node _ _ _ _ _ Hg0), (grown_node _ _ _ _ _ Hg). }
  assert (node_at (fs w) plan_path = Some (File b)) as Hplan.
  { destruct Hg as (_ & _ & Hfile). destruct Hg0 as (_ & _ & Hfile0).
    by apply Hfile, Hfile0. }
  cbn [for_each]. apply on_return_bind.
  eapply on_return_mono.
  { apply copy_artifact_on_return; [vm_compute; reflexivity..|]. cbn [fs].
    rewrite node_at_insert_ne by path_differs. apply Hunder. }
  cbn [fs]. intros copied1 w4 Hturn1. apply on_return_bind.
  eapply on_return_mono.
  { apply copy_artifact_on_return; [vm_compute; reflexivity..|].
    destruct Hturn1 as [(_ & _ & ->)|(bv & _ & _ & ->)];
      rewrite ?node_at_insert_ne by path_differs; apply Hunder. }
  intros copied2 w5 Hturn2. cbn [mret M_ret ret on_return].
  repeat run_step.
  split; [done|].
  split; [|split; [|split]].
  - exists b. split; [done|].
    rewrite !node_at_insert_ne by path_differs.
    destruct Hturn2 as [(_ & _ & ->)|(bs & _ & _ & ->)];
      destruct Hturn1 as [(_ & _ & ->)|(bv & _ & _ & ->)];
      rewrite ?node_at_insert_ne by path_differs;
      apply node_at_insert_eq, snoc_not_nil.
  - intros filename bf Hin Hfile.
    rewrite !node_at_insert_ne by path_differs.
    apply elem_of_cons in Hin as [->|Hin]; [|apply list_elem_of_singleton in Hin as ->].
    + (* the visual analysis *)
      destruct Hturn1 as [(Hn1 & _ & Hfs4)|(bv & Hv & _ & Hfs4)].
      { cbn [fs] in Hn1. rewrite node_at_insert_ne in Hn1 by path_differs.
        by rewrite (Hkeep _ _ Hfile) in Hn1. }
      cbn [fs] in Hv. rewrite node_at_insert_ne in Hv by path_differs.
      rewrite (Hkeep _ _ Hfile) in Hv. injection Hv as <-.
      destruct Hturn2 as [(_ & _ & ->)|(bs & _ & _ & ->)]; rewrite Hfs4;
        rewrite ?node_at_insert_ne by path_differs;
        apply node_at_insert_eq, snoc_not_nil.
    + (* the synthesis *)
      destruct Hturn2 as [(Hn2 & _ & Hfs5)|(bs & Hs & _ & Hfs5)].
      { destruct Hturn1 as [(_ & _ & Hfs4)|(bv & _ & _ & Hfs4)]; rewrite Hfs4 in Hn2;
          rewrite ?node_at_insert_ne in Hn2 by path_differs;
          by rewrite (Hkeep _ _ Hfile) in Hn2. }
      rewrite Hfs5, node_at_insert_ne by path_differs.
      rewrite node_at_insert_eq by apply snoc_not_nil. f_equal. f_equal.
      destruct Hturn1 as [(_ & _ & Hfs4)|(bv & _ & _ & Hfs4)]; rewrite Hfs4 in Hs;
        rewrite ?node_at_insert_ne in Hs by path_differs;
        rewrite (Hkeep _ _ Hfile) in Hs; by injection Hs.
  - intros q n Hq.
    assert (forall r : path, r <> [] -> dest ++ r <> q) as Hq'.
    { intros r Hr <-. by rewrite Hfresh in Hq. }
    rewrite (node_at_insert_ne _ (dest ++ [lit "README.md"])) by (by apply Hq').
    rewrite (node_at_insert_ne _ (art ++ [lit "metadata.json"]))
      by (unfold art; rewrite <- app_assoc; by apply Hq').
    assert (node_at (<[dest ++ [lit "PRD.md"] := File b]> f0) q = Some n) as H3.
    { rewrite node_at_insert_ne by (by apply Hq'). by apply Hkeep. }
    destruct Hturn2 as [(_ & _ & ->)|(bs & _ & _ & ->)];
      destruct Hturn1 as [(_ & _ & ->)|(bv & _ & _ & ->)];
      rewrite ?(node_at_insert_ne _ (art ++ [_]))
        by (unfold art; rewrite <- app_assoc; by apply Hq');
      exact H3.
  - assert (forall (q : path) n, node_at (fs w) q = Some n ->
              node_at (<[dest ++ [lit "PRD.md"] := File b]> f0) q = Some n) as Hkeep3.
    { intros q n Hq. rewrite node_at_insert_ne; [by apply Hkeep|].
      intros <-. by rewrite Hfresh in Hq. }
    assert (forall (q : path) c,
              q <> dest ++ [lit "PRD.md"] ->
              node_at (<[dest ++ [lit "PRD.md"] := File b]> f0) q = Some (File c) ->
              is_file (fs w) q = true) as Hback.
    { intros q c Hq Hc. rewrite node_at_insert_ne in Hc by done.
      destruct Hg as (_ & _ & Hfile). destruct Hg0 as (_ & _ & Hfile0).
      unfold is_file. by rewrite (Hfile _ _ (Hfile0 _ _ Hc)). }
    assert (forall q : path,
              node_at (<[dest ++ [lit "PRD.md"] := File b]> f0) q = None ->
              is_file (fs w) q = false) as Hnot.
    { intros q Hq. unfold is_file.
      destruct (node_at (fs w) q) as [n|] eqn:E; [|done].
      by rewrite (Hkeep3 _ _ E) in Hq. }
    assert (copied1
            = filter (fun filename => is_file (fs w) (cache_dir ++ [filename]) = true)
                [lit "visual_analysis.json"]) as Hc1.
    { destruct Hturn1 as [(Hn1 & -> & _)|(bv & Hv & -> & _)]; cbn [fs] in *.
      - rewrite filter_cons_False; [done|]. by rewrite (Hnot _ Hn1).
      - rewrite filter_cons_True; [done|]. apply (Hback _ bv); [path_differs|done]. }
    assert (copied2
            = copied1
              ++ filter (fun filename => is_file (fs w) (cache_dir ++ [filename]) = true)
                   [lit "synthesis.json"]) as Hc2.
    { assert (node_at (fs w4) (cache_dir ++ [lit "synthesis.json"])
              = node_at (<[dest ++ [lit "PRD.md"] := File b]> f0)
                  (cache_dir ++ [lit "synthesis.json"])) as Hsame.
      { destruct Hturn1 as [(_ & _ & ->)|(bv & _ & _ & ->)]; [done|].
        by rewrite node_at_insert_ne by path_differs. }
      destruct Hturn2 as [(Hn2 & -> & _)|(bs & Hs & -> & _)]; rewrite Hsame in *.
      - rewrite filter_cons_False; [by rewrite app_nil_r|]. by rewrite (Hnot _ Hn2).
      - rewrite filter_cons_True; [done|]. apply (Hback _ bs); [path_differs|done]. }
    assert (copied2
            = filter (fun filename => is_file (fs w) (cache_dir ++ [filename]) = true)
                [lit "visual_analysis.json"; lit "synthesis.json"]) as Hcopied.
    { rewrite Hc2, Hc1.
      change [lit "visual_analysis.json"; lit "synthesis.json"]
        with ([lit "visual_analysis.json"] ++ [lit "synthesis.json"]).
      by rewrite filter_app. }
    rewrite <- Hcopied. eexists _, _. cbv zeta.
    split; eexists; (split; [|eassumption]).
    + rewrite node_at_insert_ne by path_differs. apply node_at_insert_eq, snoc_not_nil.
    + apply node_at_insert_eq, snoc_not_nil.
Qed.

End PromotionCopies.

Section PromotionFacts.
Import promote_plan.
Context (P : Platform).

Lemma artifact_name_plain (filename : str) :
  filename ∈ [lit "visual_analysis.json"; lit "synthesis.json"] ->
  forall p : path, joinpath p filename = p ++ [filename].
Proof.
  intros Hin p. apply joinpath_name;
    apply elem_of_cons in Hin as [->|Hin];
    try apply list_elem_of_singleton in Hin as ->; vm_compute; reflexivity.
Qed.

Lemma filter_agree {A} (P1 P2 : A -> Prop)
    `{!forall x, Decision (P1 x), !forall x, Decision (P2 x)} (l : list A) :
  Forall (fun x => P1 x <-> P2 x) l -> filter P1 l = filter P2 l.
Proof.
  induction 1 as [|x l Hx _ IH]; [done|].
  destruct (decide (P1 x)).
  - rewrite !filter_cons_True by tauto. by rewrite IH.
  - rewrite !filter_cons_False by tauto. done.
Qed.

(** X12.  A promotion that returns has copied the plan to [PRD.md] and
    every artifact that is a regular file of the cache to [artifacts],
    byte for byte, and has left every file and directory that was
    there as it was: nothing is overwritten, moved or removed. *)
Theorem X12_promote_copies_faithfully name plan_path cache_dir output_root w dest w' :
  wf_fs (fs w) = true ->
  promote P name plan_path cache_dir output_root w = (Return dest, w') ->
  (exists b, node_at (fs w) plan_path = Some (File b)
             /\ node_at (fs w') (joinpath dest (lit "PRD.md")) = Some (File b))
  /\ (forall filename b,
         filename ∈ [lit "visual_analysis.json"; lit "synthesis.json"] ->
         node_at (fs w) (joinpath cache_dir filename) = Some (File b) ->
         node_at (fs w') (joinpath (joinpath dest (lit "artifacts")) filename)
         = Some (File b))
  /\ (forall q n, node_at (fs w) q = Some n -> node_at (fs w') q = Some n).
Proof.
  intros Hwf Hrun.
  pose proof (promote_copies P name plan_path cache_dir output_root w Hwf) as H.
  rewrite Hrun in H. cbn [on_return] in H.
  destruct H as (_ & Hplan & Harts & Hkeep & _).
  rewrite !joinpath_name by (vm_compute; reflexivity).
  split; [done|]. split; [|done].
  intros filename b Hin. rewrite !(artifact_name_plain filename Hin). by apply Harts.
Qed.

(** The lines of the README that name an artifact are there for the
    artifacts copied, and for no other. *)
Lemma readme_bullets name date copied_artifacts :
  (visual_analysis_line ∈ readme_lines_of name date copied_artifacts
   <-> lit "visual_analysis.json" ∈ copied_artifacts)
  /\ (synthesis_line ∈ readme_lines_of name date copied_artifacts
      <-> lit "synthesis.json" ∈ copied_artifacts).
Proof.
  unfold readme_lines_of. cbv zeta.
  assert (forall (line x : str), take 1 x <> take 1 line -> line <> x) as Hfirst
    by (intros line x Hx Heq; by rewrite <- Heq in Hx).
  split; do 2 case_bool_decide;
    rewrite !elem_of_app, !elem_of_cons, elem_of_nil;
    (split; [|tauto]);
    intros Hl; repeat destruct Hl as [Hl|Hl]; try done; exfalso; revert Hl;
      first [ apply Hfirst; vm_compute; discriminate
            | vm_compute; discriminate ].
Qed.

(** X13.  A promotion that returns has listed, in [metadata.json] and
    as lines of the README, exactly the artifacts that were regular
    files of the cache, in the order of the loop. *)
Theorem X13_promote_lists_what_it_copied name plan_path cache_dir output_root w dest w' :
  wf_fs (fs w) = true ->
  promote P name plan_path cache_dir output_root w = (Return dest, w') ->
  let cached filename := is_file (fs w) (joinpath cache_dir filename) = true in
  let copied_artifacts :=
    filter cached [lit "visual_analysis.json"; lit "synthesis.json"] in
  exists promoted_at date,
    let metadata :=
      metadata_of P name promoted_at plan_path cache_dir copied_artifacts in
    let readme_lines := readme_lines_of name date copied_artifacts in
    holds_text P (fs w')
      (joinpath (joinpath dest (lit "artifacts")) (lit "metadata.json"))
      (dumps P 2 true metadata ++ [10])
    /\ json_get_or_empty metadata (lit "artifacts") = Ok (JList (map JStr copied_artifacts))
    /\ holds_text P (fs w') (joinpath dest (lit "README.md")) (join [10] readme_lines)
    /\ (visual_analysis_line ∈ readme_lines <-> cached (lit "visual_analysis.json"))
    /\ (synthesis_line ∈ readme_lines <-> cached (lit "synthesis.json")).
Proof.
  intros Hwf Hrun. cbv zeta.
  pose proof (promote_copies P name plan_path cache_dir output_root w Hwf) as H.
  rewrite Hrun in H. cbn [on_return] in H.
  destruct H as (_ & _ & _ & _ & promoted_at & date & Hmeta & Hreadme).
  cbv zeta in Hmeta, Hreadme.
  assert (filter (fun filename => is_file (fs w) (joinpath cache_dir filename) = true)
            [lit "visual_analysis.json"; lit "synthesis.json"]
          = filter (fun filename => is_file (fs w) (cache_dir ++ [filename]) = true)
              [lit "visual_analysis.json"; lit "synthesis.json"]) as ->.
  { apply filter_agree. apply Forall_forall. intros filename Hin.
    by rewrite (artifact_name_plain filename Hin). }
  rewrite !joinpath_name by (vm_compute; reflexivity).
  exists promoted_at, date. split; [done|]. split; [done|]. split; [done|].
  destruct (readme_bullets name date
              (filter (fun filename => is_file (fs w) (cache_dir ++ [filename]) = true)
                 [lit "visual_analysis.json"; lit "synthesis.json"])) as [Hva Hsyn].
  rewrite Hva, Hsyn, !list_elem_of_filter, !elem_of_cons. split; split; tauto.
Qed.

Lemma encode_ascii (c : codec) (s : str) :
  Forall (fun x => x < 128) s -> encode c s = Some s.
Proof.
  intros Hs. destruct c; cbn [encode]; [by apply utf8_encode_ascii| |];
    unfold encode_below;
    (replace (forallb _ s) with true; [done|]);
    symmetry; apply forallb_forall; intros x Hx%list_elem_of_In;
    rewrite Forall_forall in Hs; apply N.ltb_lt; specialize (Hs x Hx); lia.
Qed.

(** X14.  The metadata document is written with [ensure_ascii] left
    at its default: after a promotion that returns, [metadata.json]
    holds ASCII bytes only, whatever the name and the paths contain and
    whatever encoding the locale selects. *)
Theorem X14_metadata_is_ascii name plan_path cache_dir output_root w dest w' :
  Forall (fun c => c < 128) (linesep P) ->
  wf_fs (fs w) = true ->
  promote P name plan_path cache_dir output_root w = (Return dest, w') ->
  exists b,
    node_at (fs w') (joinpath (joinpath dest (lit "artifacts")) (lit "metadata.json"))
    = Some (File b)
    /\ Forall (fun c => c < 128) b.
Proof.
  intros Hsep Hwf Hrun.
  pose proof (promote_copies P name plan_path cache_dir output_root w Hwf) as H.
  rewrite Hrun in H. cbn [on_return] in H.
  destruct H as (_ & _ & _ & _ & promoted_at & date & (b & Hb & Henc) & _).
  rewrite !joinpath_name by (vm_compute; reflexivity).
  exists b. split; [done|].
  assert (Forall (fun c => c < 128)
            (newlines_out (linesep P)
               (dumps P 2 true
                  (metadata_of P name promoted_at plan_path cache_dir
                     (filter (fun filename => is_file (fs w) (cache_dir ++ [filename]) = true)
                        [lit "visual_analysis.json"; lit "synthesis.json"])) ++ [10])))
    as Hascii.
  { apply newlines_out_ascii; [done|]. apply Forall_app.
    split; [apply metadata_ascii|by repeat constructor]. }
  cbv zeta in Henc. rewrite (encode_ascii _ _ Hascii) in Henc.
  by injection Henc as <-.
Qed.

Lemma encode_below_none (bound x : N) (s : str) :
  x ∈ s -> bound <= x -> encode_below bound s = None.
Proof.
  intros Hx Hb. unfold encode_below. destruct (forallb _ s) eqn:E; [|done].
  rewrite forallb_forall in E. apply list_elem_of_In, E, N.ltb_lt in Hx. lia.
Qed.

Lemma elem_of_newlines_out (sep s : str) (x : N) :
  x ∈ s -> x <> 10 -> x ∈ newlines_out sep s.
Proof.
  intros Hx Hne. unfold newlines_out. induction s as [|c s IH]; [by apply elem_of_nil in Hx|].
  cbn [map concat]. apply elem_of_app. apply elem_of_cons in Hx as [<-|Hx].
  - left. destruct (N.eqb_spec x 10); [done|]. by left.
  - right. by apply IH.
Qed.

Lemma elem_of_join (sep : str) (l : list str) (line : str) (x : N) :
  line ∈ l -> x ∈ line -> x ∈ join sep l.
Proof.
  intros Hline Hx. induction l as [|y l IH]; [by apply elem_of_nil in Hline|].
  destruct l as [|z l].
  - apply list_elem_of_singleton in Hline as ->. done.
  - change (join sep (y :: z :: l)) with (y ++ sep ++ join sep (z :: l)).
    rewrite !elem_of_app. apply elem_of_cons in Hline as [->|Hline]; [by left|].
    right. right. by apply IH.
Qed.

(** The README has an em dash, which neither Latin-1 nor ASCII has. *)
Lemma readme_not_encodable (c : codec) name date copied_artifacts :
  c = ISO_8859_1 \/ c = ASCII ->
  encode c (newlines_out (linesep P)
              (join [10] (readme_lines_of name date copied_artifacts))) = None.
Proof.
  intros Hc.
  assert (8212 ∈ newlines_out (linesep P)
                   (join [10] (readme_lines_of name date copied_artifacts))) as Hdash.
  { apply elem_of_newlines_out; [|done]. apply (elem_of_join _ _ prd_line).
    - unfold readme_lines_of. cbv zeta.
      do 2 destruct (bool_decide _); rewrite !elem_of_app, !elem_of_cons; tauto.
    - apply (bool_decide_unpack _). vm_compute. exact I. }
  destruct Hc as [-> | ->]; cbn [encode]; by apply (encode_below_none _ 8212).
Qed.

(** X15.  Under a locale whose encoding is Latin-1 or ASCII no
    promotion returns: the README has an em dash, and [write_text] is
    given no encoding. *)
Theorem X15_promote_needs_a_locale_with_dashes name plan_path cache_dir output_root w :
  locale_encoding P = ISO_8859_1 \/ locale_encoding P = ASCII ->
  forall dest, fst (promote P name plan_path cache_dir output_root w) <> Return dest.
Proof.
  intros Hloc dest Hret.
  assert (on_return (promote P name plan_path cache_dir output_root w)
            (fun _ _ => False)) as H.
  { unfold promote. cbv zeta.
    repeat lazymatch goal with
           | |- on_return
                  (@mbind M M_bind _ _ _ (write_text _ _ (join _ _) _) _) _ => fail
           | |- on_return (@mbind M M_bind _ _ _ _ _) _ =>
               apply on_return_skip; intros ? ?
           end.
    apply on_return_bind.
    lazymatch goal with
    | |- on_return (write_text ?P0 ?p ?d ?e ?w0) _ =>
        destruct (write_text_run P0 p d e w0) as [(? & ? & ->)|(b & Hb & ->)];
        [exact I|]
    end.
    cbn [default] in Hb. by rewrite readme_not_encodable in Hb. }
  destruct (promote P name plan_path cache_dir output_root w) as [o w'].
  cbn [fst] in Hret. subst o. exact H.
Qed.

End PromotionFacts.

(** ** The documents of phases 1 and 2 *)

Section PhaseDocuments.
Import video_to_plan.
Context (P : Platform).

Lemma stream_gemini_world client model c label w :
  exists w',
    _stream_gemini P client model c label w
    = (Return (concat (fragments (response_of P model c w))), w')
    /\ events w' = events w ++ [Generate_content_stream client model c (lit "0.2") 65536]
    /\ fs w' = fs w /\ stderr w' = stderr w.
Proof.
  destruct (stream_gemini_run P client model c label w) as [w' Hrun].
  exists w'. split; [exact Hrun|]. revert Hrun.
  unfold _stream_gemini, _progress, client_models_generate_content_stream.
  mrun. cbn [time_now]. mrun.
  match goal with
  | |- context [for_each ?r (stream_body P label ?st) ?s ?w0] =>
      destruct (stream_loop_world P label st r [] 0%Z 0%Z w0)
        as (lr & reports & w1 & Hloop & Hfs & Herr & Hev & _); [lia|]
  end.
  cbv zeta in Hloop. rewrite Hloop. cbn [fs stderr events] in *.
  rewrite elapsed_run. mrun. intros [= _ <-]. cbn [fs stderr events]. done.
Qed.

(** Steps to the first [write_text], whatever happens before it. *)
Ltac before_the_write :=
  repeat lazymatch goal with
         | |- on_return (@mbind M M_bind _ _ _ (write_text _ _ _ _) _) _ => fail
         | |- on_return (@mbind M M_bind _ _ _ _ _) _ =>
             apply on_return_skip; intros ? ?
         end.

(** Steps through what follows the write, and keeps what the tests of
    the document found. *)
Ltac after_the_write_with_tests :=
  repeat lazymatch goal with
         | |- on_return (@mbind M M_bind _ _ _ _ _) _ => apply on_return_bind
         | |- on_return (print _ _) _ => cbn [print on_return]
         | |- on_return (lift ?x _) _ =>
             let E := fresh "Hlen" in
             destruct x eqn:E; cbn [lift on_return raise ret]; [|exact I]
         | |- on_return (_elapsed _ _ _) _ =>
             rewrite elapsed_run; cbv zeta; cbn [on_return]
         end.

Lemma get_of_object {F} (o : json F) (key : str) n :
  json_get_or_empty o key ≫= json_len = Ok n -> exists d, o = JDict d.
Proof. destruct o; try discriminate. by eexists. Qed.

Lemma run_phase2_object visual_analysis srt_content gemini_key cache_dir w :
  on_return (run_phase2 P visual_analysis srt_content gemini_key cache_dir w)
    (fun result _ =>
       (exists d, result = JDict d)
       /\ Forall (fun key => exists n, json_get_or_empty result key ≫= json_len = Ok n)
            [lit "pain_points"; lit "current_workflows"; lit "user_personas"]).
Proof.
  unfold run_phase2. cbv zeta.
  before_the_write. apply on_return_bind.
  lazymatch goal with
  | |- on_return (write_text ?P0 ?p ?d ?e ?w0) _ =>
      destruct (write_text_run P0 p d e w0) as [(? & ? & ->)|(b & Hb & ->)]; [exact I|]
  end.
  cbn [on_return]. after_the_write_with_tests. cbn [ret on_return].
  split; [by eapply get_of_object|]. repeat constructor; by eexists.
Qed.

Lemma run_phase1_object fuel video_path srt_content gemini_key cache_dir w :
  on_return (run_phase1 P fuel video_path srt_content gemini_key cache_dir w)
    (fun result _ =>
       (exists d, result = JDict d)
       /\ exists n, json_get_or_empty result (lit "observations") ≫= json_len = Ok n).
Proof.
  unfold run_phase1. cbv zeta.
  before_the_write. apply on_return_bind.
  lazymatch goal with
  | |- on_return (write_text ?P0 ?p ?d ?e ?w0) _ =>
      destruct (write_text_run P0 p d e w0) as [(? & ? & ->)|(b & Hb & ->)]; [exact I|]
  end.
  cbn [on_return]. after_the_write_with_tests.
  lazymatch goal with
  | |- on_return
         (try_except (@mbind M M_bind _ _ _ (client_files_delete _ ?c ?n)) _ ?w0) _ =>
      destruct (cleanup_run P c n (lit "  Cleaned up uploaded video file.") w0)
        as (w1 & -> & Hfs)
  end.
  cbn [on_return]. after_the_write_with_tests. cbn [ret on_return].
  split; [by eapply get_of_object|]. by eexists.
Qed.

(** X16.  A document that phase 1 or phase 2 returns is a JSON object,
    and the fields the phase counts ([observations]; [pain_points],
    [current_workflows] and [user_personas]) are absent from it or have
    a length: a list, a string or an object.  No other document comes
    out of a phase. *)
Theorem X16_phases_return_objects :
  (forall fuel video_path srt_content gemini_key cache_dir w result w',
      run_phase1 P fuel video_path srt_content gemini_key cache_dir w = (Return result, w') ->
      (exists d, result = JDict d)
      /\ exists n, json_get_or_empty result (lit "observations") ≫= json_len = Ok n)
  /\ (forall visual_analysis srt_content gemini_key cache_dir w result w',
         run_phase2 P visual_analysis srt_content gemini_key cache_dir w = (Return result, w') ->
         (exists d, result = JDict d)
         /\ Forall (fun key => exists n, json_get_or_empty result key ≫= json_len = Ok n)
              [lit "pain_points"; lit "current_workflows"; lit "user_personas"]).
Proof.
  split.
  - intros fuel video_path srt_content gemini_key cache_dir w result w' Hrun.
    pose proof (run_phase1_object fuel video_path srt_content gemini_key cache_dir w) as H.
    by rewrite Hrun in H.
  - intros visual_analysis srt_content gemini_key cache_dir w result w' Hrun.
    pose proof (run_phase2_object visual_analysis srt_content gemini_key cache_dir w) as H.
    by rewrite Hrun in H.
Qed.

(** X17.  Phase 2 writes the cache before it looks at the document:
    when the answer parses to a document that is not an object and the
    cache file can be written, the phase ends with [AttributeError]
    (from [result.get]) and [synthesis.json] holds that document. *)
Theorem X17_run_phase2_caches_before_checking
    visual_analysis srt_content gemini_key cache_dir w raw_text result b :
  let request :=
    Prompt_text (PHASE2_PROMPT_format (dumps P 2 false visual_analysis) srt_content) in
  let out_path := joinpath cache_dir (lit "synthesis.json") in
  _strip_fences (concat (fragments (response_of P (lit "gemini-2.5-flash") request w)))
  = Ok raw_text ->
  json_loads P raw_text = Some result ->
  (forall d, result <> JDict d) ->
  is_dir (fs w) out_path = false ->
  is_dir (fs w) (parent out_path) = true ->
  encode (locale_encoding P) (newlines_out (linesep P) (dumps P 2 false result)) = Some b ->
  let run := run_phase2 P visual_analysis srt_content gemini_key cache_dir w in
  fst run = Raise AttributeError
  /\ fs (snd run) = <[out_path := File b]> (fs w).
Proof.
  cbv zeta. intros Hstrip Hloads Hshape Hnd Hpar Henc.
  unfold run_phase2. cbv zeta. mrun. cbn [time_now]. mrun.
  match goal with
  | |- context [_stream_gemini P ?a ?m ?c ?l ?w0] =>
      destruct (stream_gemini_world a m c l w0) as (w1 & Hrun & _ & Hfs & _);
      unfold response_of in Hrun; cbn [events fs] in Hrun, Hfs
  end.
  unfold response_of in Hstrip. rewrite Hrun, Hstrip. mrun.
  rewrite loads_run, Hloads. mrun.
  unfold write_text, open_for_writing. mrun.
  rewrite Hfs, Hnd, Hpar. mrun. cbn [default]. rewrite Henc. mrun.
  destruct result; try (exfalso; by eapply Hshape);
    cbn [json_get_or_empty except_bind]; mrun; by rewrite Hfs.
Qed.

End PhaseDocuments.

(** ** The deletion of the uploaded video *)

Section Cleanup.
Import video_to_plan.
Context (P : Platform).

Let kept_files (e : event) : Prop := deletion e = false.

Lemma deletes_on_return_bind {A B} client (m : M A) (k : A -> M B) w :
  adds events kept_files m ->
  (forall a w1, deletes_on_return client w1 (k a w1)) ->
  deletes_on_return client w ((m ≫= k) w).
Proof.
  intros Hm Hk. rewrite bind_run. destruct (Hm w) as (new & Hw & Hnew).
  destruct (m w) as [[a|e|n|] w1]; cbn [snd] in Hw; try by exists new.
  destruct (Hk a w1) as (requests & Hreq & Hcase).
  exists (new ++ requests). rewrite Hreq, Hw, app_assoc. split; [done|].
  destruct (fst (k a w1)); try by apply Forall_app.
  destruct Hcase as (earlier & name & -> & He).
  exists (new ++ earlier), name. rewrite app_assoc. split; [done|]. by apply Forall_app.
Qed.

Lemma adds_stream_gemini client model c label :
  adds events kept_files (_stream_gemini P client model c label).
Proof.
  intros w. destruct (stream_gemini_events P client model c label w) as (t & w' & -> & Hev).
  eexists. split; [exact Hev|]. by repeat constructor.
Qed.

Lemma adds_poll fuel client poll_start video_file :
  adds events kept_files (poll P fuel client poll_start video_file).
Proof.
  revert video_file. induction fuel as [|fuel IH]; intros video_file; cbn [poll].
  - adds_all.
  - unfold _progress, client_files_get. adds_all; first [apply IH | done].
Qed.

Lemma cleanup_events client name msg w :
  exists w',
    try_except (client_files_delete P client name;; print msg) (ret tt) w = (Return tt, w')
    /\ events w' = events w ++ [Files_delete client name].
Proof.
  unfold try_except, client_files_delete. mrun.
  destruct (files_delete_fails P (events w) name); mrun; by eexists.
Qed.

(** X18.  Phase 1 asks the provider to delete the uploaded video only
    as the last of its requests, and only on the way to returning: a
    run that ends with an exception, or that is cut off while it
    polls, has asked for no deletion, and the upload stays with the
    provider.  A deletion that fails does not keep the phase from
    returning. *)
Theorem X18_run_phase1_deletes_on_return fuel video_path srt_content gemini_key cache_dir w :
  deletes_on_return gemini_key w
    (run_phase1 P fuel video_path srt_content gemini_key cache_dir w).
Proof.
  unfold run_phase1. cbv zeta. unfold _progress, client_files_upload.
  repeat lazymatch goal with
         | |- deletes_on_return _ _ (@mbind M M_bind _ _ _ (try_except _ _) _) => fail
         | |- deletes_on_return _ _ (@mbind M M_bind _ _ _ _ _) =>
             apply deletes_on_return_bind;
             [first [ apply adds_stream_gemini | apply adds_poll
                    | adds_all; done ]
             |intros ? ?]
         end.
  lazymatch goal with
  | |- deletes_on_return _ _
         (@mbind M M_bind _ _ _
            (try_except (@mbind M M_bind _ _ _ (client_files_delete _ _ ?n)) _) ?w0) =>
      rewrite bind_run;
      destruct (cleanup_events gemini_key n
                  (lit "  Cleaned up uploaded video file.") w0) as (w' & -> & Hev);
      rewrite bind_run, elapsed_run; cbv zeta; mrun;
      exists [Files_delete gemini_key n]; split; [done|];
      exists [], n; by split
  end.
Qed.

End Cleanup.

(** ** The promotion script *)

Section NeverExits.

Lemma never_exits_bind {A B} (m : M A) (k : A -> M B) :
  never_exits m -> (forall a, never_exits (k a)) -> never_exits (m ≫= k).
Proof.
  intros Hm Hk w n. rewrite bind_run. specialize (Hm w).
  destruct (m w) as [[a|e|c|] w1]; cbn [fst] in *;
    [apply Hk|done|by destruct (Hm c)|done].
Qed.

Lemma never_exits_ret {A} (a : A) : never_exits (mret a).
Proof. done. Qed.

Lemma never_exits_raise {A} e : never_exits (@raise A e).
Proof. done. Qed.

Lemma never_exits_print msg : never_exits (print msg).
Proof. done. Qed.

Lemma never_exits_path_exists p : never_exits (path_exists p).
Proof. done. Qed.

Lemma never_exits_datetime_now : never_exits promote_plan.datetime_now.
Proof. done. Qed.

Lemma never_exits_mkdir parents exist_ok p : never_exits (mkdir parents exist_ok p).
Proof.
  intros w n. by destruct (mkdir_run parents exist_ok p w) as [[e ->]|(f & -> & _)].
Qed.

Lemma never_exits_copy2 src dst : never_exits (copy2 src dst).
Proof. intros w n. by destruct (copy2_run src dst w) as [[e ->]|(b & _ & ->)]. Qed.

Lemma never_exits_write_text P p data encoding : never_exits (write_text P p data encoding).
Proof.
  intros w n.
  by destruct (write_text_run P p data encoding w) as [(e & w' & ->)|(b & _ & ->)].
Qed.

Lemma never_exits_for_each {A St} (l : list A) (body : St -> A -> M St) s :
  (forall s x, never_exits (body s x)) -> never_exits (for_each l body s).
Proof.
  intros Hb. revert s. induction l as [|x l IH]; intros s; cbn [for_each].
  - apply never_exits_ret.
  - apply never_exits_bind; [apply Hb|apply IH].
Qed.

Lemma keeps_on_return {X A} (proj : World -> list X) (m : M A) w :
  keeps proj m -> on_return (m w) (fun _ w' => proj w' = proj w).
Proof. intros H. specialize (H w). by destruct (m w) as [[a| | |] w']. Qed.

End NeverExits.

Ltac never_exits_step :=
  lazymatch goal with
  | |- never_exits (@mbind M M_bind _ _ _ _) => apply never_exits_bind; intros
  | |- never_exits (if ?c then _ else _) => destruct c
  | |- never_exits (for_each _ _ _) => apply never_exits_for_each; intros
  | |- never_exits _ =>
      first [ apply never_exits_ret | apply never_exits_raise | apply never_exits_print
            | apply never_exits_path_exists | apply never_exits_datetime_now
            | apply never_exits_mkdir | apply never_exits_copy2
            | apply never_exits_write_text ]
  end.

Section PromotionScript.
Import promote_plan.
Context (P : Platform).

(** [promote] leaves the program only at its first test. *)
Lemma promote_exit name plan_path cache_dir output_root w n :
  fst (promote P name plan_path cache_dir output_root w) = Exit n ->
  n = 1%Z
  /\ fs (snd (promote P name plan_path cache_dir output_root w)) = fs w
  /\ is_Some (node_at (fs w) (joinpath output_root name)).
Proof.
  unfold promote. cbv zeta. rewrite bind_run. cbn [path_exists].
  case_bool_decide as Hex.
  - mrun. by intros [= <-].
  - rewrite bind_run. cbn [ret mret M_ret]. intros Hexit. exfalso. revert Hexit.
    generalize w n.
    change (never_exits
              (mkdir true false (joinpath output_root name)
               ≫= (fun _ : unit =>
                     mkdir false false (joinpath (joinpath output_root name) (lit "artifacts"));;
                     copy2 plan_path (joinpath (joinpath output_root name) (lit "PRD.md"));;
                     print (lit "  Copied plan → "
                            ++ str_of_path (joinpath (joinpath output_root name) (lit "PRD.md")));;
                     copied_artifacts ←
                       for_each [lit "visual_analysis.json"; lit "synthesis.json"]
                         (copy_artifact cache_dir (joinpath output_root name)) [];
                     t ← datetime_now;
                     write_text P
                       (joinpath (joinpath (joinpath output_root name) (lit "artifacts"))
                          (lit "metadata.json"))
                       (dumps P 2 true
                          (metadata_of P name (now_isoformat P t) plan_path cache_dir
                             copied_artifacts) ++ [10]) None;;
                     t ← datetime_now;
                     write_text P (joinpath (joinpath output_root name) (lit "README.md"))
                       (join [10]
                          (readme_lines_of name (now_strftime_Y_m_d P t) copied_artifacts))
                       None;;
                     print (lit "  Generated → README.md");;
                     ret (joinpath output_root name)))).
    unfold copy_artifact. repeat never_exits_step.
Qed.

(** A promotion that returns has sent nothing to [stderr]. *)
Lemma promote_stderr name plan_path cache_dir output_root w :
  on_return (promote P name plan_path cache_dir output_root w)
    (fun _ w' => stderr w' = stderr w).
Proof.
  unfold promote. cbv zeta. rewrite bind_run. cbn [path_exists].
  case_bool_decide as Hex; [mrun; exact I|].
  rewrite bind_run. cbn [ret mret M_ret].
  apply (keeps_on_return stderr). unfold copy_artifact. keeps_all.
Qed.

(** X19.  The promotion script leaves through [sys.exit] in two cases
    only, the plan is missing or the destination exists, always with
    status 1, and it has then changed no file. *)
Theorem X19_promote_main_exits args w n :
  let run := main P args w in
  fst run = Exit n ->
  n = 1%Z
  /\ fs (snd run) = fs w
  /\ (node_at (fs w) (resolve P (plan args)) = None
      \/ is_Some (node_at (fs w) (joinpath (resolve P (output_root args)) (name args)))).
Proof.
  cbv zeta. unfold main. cbv zeta. mrun.
  case_bool_decide as Hplan; cbn [negb]; cbv iota.
  - mrun. case_bool_decide as Hcache; cbn [negb]; cbv iota; mrun;
      match goal with
      | |- context [promote P ?a ?b ?c ?d ?w0] =>
          pose proof (promote_exit a b c d w0) as Hexit;
          destruct (promote P a b c d w0) as [[dest|e|c'|] w']
      end; cbn [fst snd] in *; try discriminate;
      intros [= ->]; destruct (Hexit n eq_refl) as (-> & Hfs & Hdest);
      (split; [done|]); (split; [done|by right]).
  - intros [= <-]. cbn [fs]. split; [done|]. split; [done|]. left.
    destruct (node_at (fs w) (resolve P (plan args))); [|done].
    destruct Hplan. by eexists.
Qed.

(** X20.  When the cache directory is missing the script warns on
    [stderr] and promotes from [/nonexistent] in its place: a promotion
    that returns has recorded [/nonexistent] as [source_cache] in
    [metadata.json], not the directory asked for, and the artifacts
    it lists are those found under [/nonexistent]; there are none
    when that path does not exist. *)
Theorem X20_promote_main_without_cache args w w' :
  wf_fs (fs w) = true ->
  node_at (fs w) (resolve P (cache args)) = None ->
  main P args w = (Return tt, w') ->
  let plan_path := resolve P (plan args) in
  let dest := joinpath (resolve P (output_root args)) (name args) in
  let stand_in := parts (lit "/nonexistent") in
  let copied_artifacts :=
    filter (fun filename => is_file (fs w) (joinpath stand_in filename) = true)
      [lit "visual_analysis.json"; lit "synthesis.json"] in
  stderr w'
  = stderr w
    ++ [lit "Warning: cache directory not found: " ++ str_of_path (resolve P (cache args));
        lit "  Promoting plan without artifacts."]
  /\ (exists promoted_at,
        let metadata :=
          metadata_of P (name args) promoted_at plan_path stand_in copied_artifacts in
        holds_text P (fs w')
          (joinpath (joinpath dest (lit "artifacts")) (lit "metadata.json"))
          (dumps P 2 true metadata ++ [10])
        /\ json_get_or_empty metadata (lit "source_cache")
           = Ok (JStr (lit "/nonexistent")))
  /\ (node_at (fs w) stand_in = None -> copied_artifacts = []).
Proof.
  intros Hwf Hcache. cbv zeta. unfold main. cbv zeta. mrun.
  case_bool_decide as Hplan; cbn [negb]; cbv iota; [|discriminate].
  mrun. rewrite bool_decide_eq_false_2 by (rewrite Hcache; by intros [? ?]).
  cbn [negb]. cbv iota. mrun.
  match goal with
  | |- context [promote P ?a ?b ?c ?d ?w0] =>
      pose proof (promote_copies P a b c d w0 Hwf) as Hcopies;
      pose proof (promote_stderr a b c d w0) as Herr;
      destruct (promote P a b c d w0) as [[dest|e|c'|] w1]
  end; cbn [fst snd on_return fs stderr] in *; try discriminate.
  intros [= <-]. cbn [fs stderr].
  destruct Hcopies as (-> & _ & _ & _ & promoted_at & _ & Hmeta & _).
  cbv zeta in Hmeta.
  assert (filter (fun filename =>
                    is_file (fs w) (joinpath (parts (lit "/nonexistent")) filename) = true)
            [lit "visual_analysis.json"; lit "synthesis.json"]
          = filter (fun filename =>
                      is_file (fs w) (parts (lit "/nonexistent") ++ [filename]) = true)
              [lit "visual_analysis.json"; lit "synthesis.json"]) as ->.
  { apply filter_agree. apply Forall_forall. intros filename Hin.
    by rewrite (artifact_name_plain filename Hin). }
  split; [by rewrite Herr, <- app_assoc|]. split.
  - exists promoted_at. rewrite !joinpath_name by (vm_compute; reflexivity).
    split; [exact Hmeta|reflexivity].
  - intros Hnone.
    rewrite !filter_cons_False; [done|..];
      unfold is_file; by rewrite (wf_fs_fresh _ _ _ Hwf Hnone).
Qed.

End PromotionScript.

(** * The properties on the sample platform *)

(** Each property that has a premise is applied here to a run of the
    sample platform, the premises being evaluated; the runs that stop
    before a phase looks at its cache, and the run that shows what a
    locale other than UTF-8 leaves in the cache, are evaluated too. *)
Section Witnesses.
Import Sample.

Lemma C8_witness :
  fst (video_to_plan._elapsed utf8 0%Z (mk_world ∅ [] [] 1 [])) = Return (lit "2m 5s").
Proof.
  apply (C8_elapsed_format utf8 0%Z (mk_world ∅ [] [] 1 []) 125%Z);
    [reflexivity | lia | reflexivity].
Defined.

Lemma C7_witness :
  fst (video_to_plan._stream_gemini utf8 None (lit "m") (Prompt_text (PHASE1_PROMPT_format []))
         (lit "a") (world project))
  = fst (video_to_plan._stream_gemini (platform UTF_8 (other_cut fenced_stream)) None
           (lit "m") (Prompt_text (PHASE1_PROMPT_format [])) (lit "b") (world ∅)).
Proof.
  apply (proj2 C7_stream_is_concatenation). reflexivity.
Defined.

Lemma C3_witness :
  exists new,
    stderr (snd (video_to_plan.main utf8 5
                   (args (Some video_to_plan.Phase_3) None (Some (lit "sk")))
                   no_environ (world project)))
    = stderr (world project) ++ new
    /\ (video_to_plan.gemini_key_error ∉ new)
    /\ (video_to_plan.openai_key_error ∉ new).
Proof.
  apply (proj2 (proj2 (C3_credentials_checked_first utf8 5
                         (args (Some video_to_plan.Phase_3) None (Some (lit "sk")))
                         no_environ (world project))));
    reflexivity.
Defined.

Lemma C4_witness :
  promote_plan.promote utf8 (lit ".cache") [lit "engineering_plan.md"] [lit ".cache"] []
    (world project_with_visual_analysis)
  = (Exit 1%Z,
     with_stderr (world project_with_visual_analysis)
       (exists_error (joinpath [] (lit ".cache")))).
Proof.
  apply (proj1 (C4_promote_refuses_existing_destination utf8)). reflexivity.
Defined.

Lemma sample_inputs_ready phase gemini_key openai_key f :
  (py_in 1 (video_to_plan.phases_to_run_of (args phase gemini_key openai_key))
   || py_in 2 (video_to_plan.phases_to_run_of (args phase gemini_key openai_key)))
    && negb (truthy gemini_key) = false ->
  py_in 3 (video_to_plan.phases_to_run_of (args phase gemini_key openai_key))
    && negb (truthy openai_key) = false ->
  existsb (is_file f) [[lit ".cache"]] = false ->
  node_at f [lit "call.mp4"] <> None ->
  readable utf8 (Some UTF_8) f [lit "call.srt"] <> None ->
  inputs_ready utf8 (args phase gemini_key openai_key) no_environ (world f).
Proof.
  intros Hg Ho Hcache Hvideo Hsrt. unfold inputs_ready.
  split; [destruct gemini_key as [[|c k]|]; exact Hg|].
  split; [destruct openai_key as [[|c k]|]; exact Ho|].
  split; [exact Hcache|].
  split.
  - change (node_at (fs (world f)) (video_path_of utf8 (args phase gemini_key openai_key)))
      with (node_at f [lit "call.mp4"]).
    destruct (node_at f [lit "call.mp4"]); [by eexists|done].
  - change (readable utf8 (Some UTF_8) (fs (world f))
              (srt_path_of utf8 (args phase gemini_key openai_key)))
      with (readable utf8 (Some UTF_8) f [lit "call.srt"]).
    destruct (readable utf8 (Some UTF_8) f [lit "call.srt"]); [by eexists|done].
Defined.

Lemma C2_witness :
  let run := video_to_plan.main utf8 5
               (args (Some video_to_plan.Phase_3) None (Some (lit "sk")))
               no_environ (world project) in
  fst run = Exit 1%Z
  /\ stderr (snd run)
     = [lit "Error: Phase 3 requires synthesis.json in /.cache. Run phase 2 first."].
Proof.
  apply (proj1 (C2_missing_prerequisite_is_fatal utf8 5
                  (args (Some video_to_plan.Phase_3) None (Some (lit "sk")))
                  no_environ (world project)));
    [reflexivity | reflexivity | reflexivity | | left; reflexivity].
  apply sample_inputs_ready; vm_compute; congruence.
Defined.

Lemma C5_witness :
  events (snd (video_to_plan.main utf8 5
                 (args (Some video_to_plan.Phase_2) (Some (lit "g")) None)
                 no_environ (world project_with_visual_analysis)))
  = [phase2_request utf8 (Some (lit "g")) document (lit "1")].
Proof.
  apply (proj2 (C5_phase2_uses_cached_visual_analysis utf8 5
                  (args (Some video_to_plan.Phase_2) (Some (lit "g")) None)
                  no_environ (world project_with_visual_analysis)
                  eq_refl eq_refl ltac:(eexists; vm_compute; reflexivity)));
    [|vm_compute; reflexivity..].
  apply sample_inputs_ready; vm_compute; congruence.
Defined.

Lemma sample_promotable :
  promotable utf8 (lit "my-plan") [lit "engineering_plan.md"] [lit ".cache"]
    [lit "plans"] (world project_with_visual_analysis).
Proof.
  unfold promotable. cbv zeta.
  do 3 (split; [vm_compute; reflexivity|]).
  split.
  { constructor; [left; vm_compute; reflexivity|].
    constructor; [|constructor].
    right. split; [vm_compute; reflexivity|].
    apply (bool_decide_unpack _). vm_compute. exact I. }
  split; [reflexivity|].
  split; [by repeat constructor|].
  split; [vm_compute; by eexists|].
  intros t. vm_compute. by eexists.
Defined.

Lemma C6_witness :
  let dest := [lit "plans"; lit "my-plan"] in
  exists w',
    promote_plan.promote utf8 (lit "my-plan") [lit "engineering_plan.md"]
      [lit ".cache"] [lit "plans"] (world project_with_visual_analysis)
    = (Return dest, w')
    /\ exists copied_artifacts promoted_at date,
        let readme_lines :=
          promote_plan.readme_lines_of (lit "my-plan") date copied_artifacts in
        let metadata :=
          promote_plan.metadata_of utf8 (lit "my-plan") promoted_at
            [lit "engineering_plan.md"] [lit ".cache"] copied_artifacts in
        holds_text utf8 (fs w') (joinpath dest (lit "README.md")) (join [10] readme_lines)
        /\ (promote_plan.synthesis_line ∉ readme_lines)
        /\ (promote_plan.prd_line ∈ readme_lines)
        /\ (promote_plan.metadata_line ∈ readme_lines)
        /\ holds_text utf8 (fs w')
             (joinpath (joinpath dest (lit "artifacts")) (lit "metadata.json"))
             (dumps utf8 2 true metadata ++ [10])
        /\ json_get_or_empty metadata (lit "artifacts")
           = Ok (JList (map JStr copied_artifacts))
        /\ (lit "synthesis.json" ∉ copied_artifacts).
Proof.
  cbv zeta.
  pose proof (C6_promotion_without_synthesis utf8 (lit "my-plan")
                [lit "engineering_plan.md"] [lit ".cache"] [lit "plans"]
                (world project_with_visual_analysis) eq_refl eq_refl)
    as (_ & Hfiles & Hreturns).
  destruct (Hreturns sample_promotable) as [w' Hrun].
  exists w'. split; [exact Hrun|]. exact (Hfiles _ _ Hrun).
Defined.

(** A run that asks for phase 3 without the OpenAI key stops at the key
    check: the line on [stderr] is about the key, whether or not the
    cache has a synthesis. *)
Lemma C2_counterexample :
  let a := args (Some video_to_plan.Phase_3) None None in
  let run := video_to_plan.main utf8 5 a no_environ (world project) in
  py_in 3 (video_to_plan.phases_to_run_of a) = true
  /\ py_in 2 (video_to_plan.phases_to_run_of a) = false
  /\ node_at project (synthesis_cache utf8 a) = None
  /\ fst run = Exit 1%Z
  /\ stderr (snd run) = [video_to_plan.openai_key_error]
  /\ (video_to_plan.phase3_needs_phase2_error (cache_dir_of utf8 a) ∉ stderr (snd run)).
Proof.
  cbv zeta. repeat split; try (vm_compute; reflexivity).
  change (stderr _) with [video_to_plan.openai_key_error].
  rewrite list_elem_of_singleton. vm_compute. discriminate.
Qed.

(** A run that asks for phase 2 alone without the Gemini key stops at
    the key check although the cache holds a visual analysis: nothing
    is loaded, no request is made. *)
Lemma C5_counterexample :
  let a := args (Some video_to_plan.Phase_2) None None in
  let run := video_to_plan.main utf8 5 a no_environ (world project_with_visual_analysis) in
  video_to_plan.phases_to_run_of a = [2%Z]
  /\ cached_document utf8 project_with_visual_analysis (visual_analysis_cache utf8 a)
     = Some document
  /\ fst run = Exit 1%Z
  /\ stdout (snd run) = []
  /\ events (snd run) = [].
Proof. cbv zeta. repeat split; vm_compute; reflexivity. Qed.

(** ** The encoding of the cache files *)

(** C9.  On a platform whose locale selects ISO-8859-1, phase 1 and
    phase 2 return the document of the sample response and leave cache
    files that hold its pretty-printed text, with the "é" written as
    such, in ISO-8859-1: the bytes are not the UTF-8 encoding of that
    text, and are not UTF-8 at all. *)
Theorem C9_cache_files_follow_the_locale :
  let text := json_dumps float_text 2 false document in
  let w := world project_with_visual_analysis in
  let run1 := video_to_plan.run_phase1 latin1 5 (lit "/call.mp4") (lit "1")
                (Some (lit "g")) [lit ".cache"] w in
  let run2 := video_to_plan.run_phase2 latin1 document (lit "1")
                (Some (lit "g")) [lit ".cache"] w in
  fst run1 = Return document
  /\ fst run2 = Return document
  /\ exists b,
      fs (snd run1) !! [lit ".cache"; lit "visual_analysis.json"] = Some (File b)
      /\ fs (snd run2) !! [lit ".cache"; lit "synthesis.json"] = Some (File b)
      /\ encode ISO_8859_1 text = Some b
      /\ Utf8.encode text <> Some b
      /\ Utf8.decode b = None.
Proof.
  cbv zeta. split; [vm_compute; reflexivity|]. split; [vm_compute; reflexivity|].
  eexists. split; [vm_compute; reflexivity|].
  repeat split; vm_compute; (reflexivity || discriminate).
Qed.

(** With a locale that selects UTF-8 the same run leaves UTF-8. *)
Example cache_file_utf8_locale :
  let run2 := video_to_plan.run_phase2 utf8 document (lit "1")
                (Some (lit "g")) [lit ".cache"] (world project_with_visual_analysis) in
  (File <$> Utf8.encode (json_dumps float_text 2 false document))
  = fs (snd run2) !! [lit ".cache"; lit "synthesis.json"].
Proof. vm_compute. reflexivity. Qed.

Lemma X2_witness :
  video_to_plan._strip_fences (lit "```json" ++ [10] ++ lit "  {}") = Ok (lit "{}").
Proof.
  apply (X2_strip_fences_unclosed (lit "```json" ++ [10] ++ lit "  {}") (lit "json") (lit "  {}"));
    reflexivity.
Defined.

Lemma X3_witness : strip (lit "{}") = lit "{}".
Proof.
  apply (X3_strip_fences_result_trimmed (lit " ```" ++ [10] ++ lit "{} ``` ")).
  reflexivity.
Defined.

Lemma X7_witness :
  let run := video_to_plan.run_phase3 (with_chat utf8 [mk_event []]) (JDict [])
               (Some (lit "sk")) [lit "engineering_plan.md"] (world project) in
  fst run = Raise IndexError /\ fs (snd run) = project.
Proof.
  apply (X7_run_phase3_empty_choices (with_chat utf8 [mk_event []]) (JDict [])
           (Some (lit "sk")) [lit "engineering_plan.md"] (world project)).
  left. reflexivity.
Defined.

Lemma float_text_no_cr (z : Z) : Forall (fun c => c <> 13) (float_text z).
Proof.
  unfold float_text. apply Forall_app. split; [apply str_of_int_no_cr|].
  by repeat constructor.
Defined.

Lemma X8_witness :
  let run := video_to_plan.run_phase2 latin1 document (lit "1") (Some (lit "g"))
               [lit ".cache"] (world project_with_visual_analysis) in
  cached_document latin1 (fs (snd run)) [lit ".cache"; lit "synthesis.json"]
  = Some document.
Proof.
  cbv zeta.
  apply (proj2 (X8_cache_round_trip latin1 (or_introl eq_refl) float_text_no_cr)
           document (lit "1") (Some (lit "g")) [lit ".cache"]
           (world project_with_visual_analysis) document).
  vm_compute. reflexivity.
Defined.

Lemma X9_witness :
  events (snd (video_to_plan.main utf8 5
                 (args (Some video_to_plan.Phase_3) None (Some (lit "sk")))
                 no_environ (world project_with_synthesis)))
  = [phase3_request utf8 (Some (lit "sk")) document].
Proof.
  apply (X9_phase3_uses_cached_synthesis utf8 5
           (args (Some video_to_plan.Phase_3) None (Some (lit "sk")))
           no_environ (world project_with_synthesis) document eq_refl);
    [|left; vm_compute; reflexivity|vm_compute; reflexivity].
  apply sample_inputs_ready; vm_compute; congruence.
Defined.

Lemma X10_witness :
  let run := video_to_plan.main utf8 5
               (args (Some video_to_plan.Phase_3) None (Some (lit "sk")))
               no_environ (world project_with_damaged_cache) in
  (exists e, fst run = Raise e) /\ events (snd run) = [].
Proof.
  apply (X10_phase3_reads_visual_analysis utf8 5
           (args (Some video_to_plan.Phase_3) None (Some (lit "sk")))
           no_environ (world project_with_damaged_cache) eq_refl);
    [|eexists; vm_compute; reflexivity|vm_compute; reflexivity
     |eexists; vm_compute; reflexivity].
  apply sample_inputs_ready; vm_compute; congruence.
Defined.
Lemma X11_witness :
  let run := video_to_plan.main utf8 5
               (args (Some video_to_plan.Phase_3) None (Some (lit "sk")))
               no_environ (world empty_disk) in
  fst run = Exit 1%Z
  /\ stderr (snd run) = [lit "Error: Video file not found: /call.mp4"]
  /\ stdout (snd run) = []
  /\ events (snd run) = []
  /\ is_dir (fs (snd run)) [lit ".cache"] = true
  /\ grown empty_disk (fs (snd run)) [lit ".cache"].
Proof.
  apply (proj1 (X11_inputs_checked_after_mkdir utf8 5
                  (args (Some video_to_plan.Phase_3) None (Some (lit "sk")))
                  no_environ (world empty_disk) eq_refl eq_refl
                  ltac:(vm_compute; reflexivity))).
  split; [reflexivity|]. apply (bool_decide_unpack _). vm_compute. exact I.
Defined.


Lemma X12_witness :
  let run := promote_plan.promote utf8 (lit "my-plan") [lit "engineering_plan.md"]
               [lit ".cache"] [lit "plans"] (world project_with_visual_analysis) in
  node_at (fs (snd run)) [lit "call.mp4"] = Some (File [0; 1; 2]).
Proof.
  cbv zeta.
  apply (proj2 (proj2 (X12_promote_copies_faithfully utf8 (lit "my-plan")
                         [lit "engineering_plan.md"] [lit ".cache"] [lit "plans"]
                         (world project_with_visual_analysis)
                         [lit "plans"; lit "my-plan"]
                         (snd (promote_plan.promote utf8 (lit "my-plan")
                                 [lit "engineering_plan.md"] [lit ".cache"] [lit "plans"]
                                 (world project_with_visual_analysis)))
                         ltac:(vm_compute; reflexivity)
                         ltac:(vm_compute; reflexivity)))
           [lit "call.mp4"] (File [0; 1; 2])).
  vm_compute. reflexivity.
Defined.

Lemma X13_witness :
  let run := promote_plan.promote utf8 (lit "my-plan") [lit "engineering_plan.md"]
               [lit ".cache"] [lit "plans"] (world project_with_visual_analysis) in
  exists date,
    holds_text utf8 (fs (snd run)) [lit "plans"; lit "my-plan"; lit "README.md"]
      (join [10] (promote_plan.readme_lines_of (lit "my-plan") date
                    [lit "visual_analysis.json"])).
Proof.
  cbv zeta.
  destruct (X13_promote_lists_what_it_copied utf8 (lit "my-plan")
              [lit "engineering_plan.md"] [lit ".cache"] [lit "plans"]
              (world project_with_visual_analysis)
              [lit "plans"; lit "my-plan"]
              (snd (promote_plan.promote utf8 (lit "my-plan")
                      [lit "engineering_plan.md"] [lit ".cache"] [lit "plans"]
                      (world project_with_visual_analysis)))
              ltac:(vm_compute; reflexivity)
              ltac:(vm_compute; reflexivity))
    as (promoted_at & date & _ & _ & Hreadme & _).
  exists date. exact Hreadme.
Defined.

Lemma X14_witness :
  let run := promote_plan.promote utf8 (lit "my-plan") [lit "engineering_plan.md"]
               [lit ".cache"] [lit "plans"] (world project_with_visual_analysis) in
  exists b,
    node_at (fs (snd run)) [lit "plans"; lit "my-plan"; lit "artifacts"; lit "metadata.json"]
    = Some (File b)
    /\ Forall (fun c => c < 128) b.
Proof.
  cbv zeta.
  apply (X14_metadata_is_ascii utf8 (lit "my-plan")
           [lit "engineering_plan.md"] [lit ".cache"] [lit "plans"]
           (world project_with_visual_analysis)
           [lit "plans"; lit "my-plan"]
           (snd (promote_plan.promote utf8 (lit "my-plan")
                   [lit "engineering_plan.md"] [lit ".cache"] [lit "plans"]
                   (world project_with_visual_analysis)))
           ltac:(by repeat constructor)
           ltac:(vm_compute; reflexivity)
           ltac:(vm_compute; reflexivity)).
Defined.

Lemma X15_witness :
  fst (promote_plan.promote latin1 (lit "my-plan") [lit "engineering_plan.md"]
         [lit ".cache"] [lit "plans"] (world project_with_visual_analysis))
  <> Return [lit "plans"; lit "my-plan"].
Proof.
  apply (X15_promote_needs_a_locale_with_dashes latin1 (lit "my-plan")
           [lit "engineering_plan.md"] [lit ".cache"] [lit "plans"]
           (world project_with_visual_analysis) (or_introl eq_refl)).
Defined.

Lemma X16_witness :
  exists d, document = JDict d.
Proof.
  apply (proj2 (X16_phases_return_objects utf8) document (lit "1") (Some (lit "g"))
           [lit ".cache"] (world project_with_visual_analysis) document
           (snd (video_to_plan.run_phase2 utf8 document (lit "1") (Some (lit "g"))
                   [lit ".cache"] (world project_with_visual_analysis)))
           ltac:(vm_compute; reflexivity)).
Defined.

Lemma X17_witness :
  let run := video_to_plan.run_phase2 list_answer document (lit "1") (Some (lit "g"))
               [lit ".cache"] (world project_with_visual_analysis) in
  fst run = Raise AttributeError
  /\ fs (snd run)
     = <[ [lit ".cache"; lit "synthesis.json"] := File (lit "[]") ]>
         project_with_visual_analysis.
Proof.
  apply (X17_run_phase2_caches_before_checking list_answer document (lit "1")
           (Some (lit "g")) [lit ".cache"] (world project_with_visual_analysis)
           (lit "[]") (JList []) (lit "[]"));
    first [ intros d; discriminate | vm_compute; reflexivity ].
Defined.


Lemma X19_witness :
  let run := promote_plan.main utf8
               (promote_plan.mk_args (lit "my-plan") (lit "/engineering_plan.md")
                  (lit "/.cache") (lit "/plans"))
               (world empty_disk) in
  fs (snd run) = empty_disk.
Proof.
  apply (X19_promote_main_exits utf8
           (promote_plan.mk_args (lit "my-plan") (lit "/engineering_plan.md")
              (lit "/.cache") (lit "/plans"))
           (world empty_disk) 1%Z).
  vm_compute. reflexivity.
Defined.

Lemma X20_witness :
  let run := promote_plan.main utf8
               (promote_plan.mk_args (lit "my-plan") (lit "/engineering_plan.md")
                  (lit "/.cache") (lit "/plans"))
               (world project) in
  stderr (snd run)
  = [lit "Warning: cache directory not found: /.cache";
     lit "  Promoting plan without artifacts."].
Proof.
  apply (X20_promote_main_without_cache utf8
           (promote_plan.mk_args (lit "my-plan") (lit "/engineering_plan.md")
              (lit "/.cache") (lit "/plans"))
           (world project)
           (snd (promote_plan.main utf8
                   (promote_plan.mk_args (lit "my-plan") (lit "/engineering_plan.md")
                      (lit "/.cache") (lit "/plans"))
                   (world project))));
    vm_compute; reflexivity.
Defined.

End Witnesses.
